(** * professional-ats-system: a shallow embedding of the backend and its properties

    The first part translates the functions of [backend/app] the
    properties are about, one module for each source file; the second
    part states and proves the properties, one section for each group.

    Modelling conventions, used throughout:
    - a Python [str] is a [string]; character classes and case mappings
      are the ASCII ones;
    - a Python [bytes] is a [list byte];
    - a Python [float] that carries a score or a weight is an exact
      rational [Q]: comparisons and the four operations are those of the
      rationals the decimal literals denote.  The bands of
      [_get_match_status], whose edges depend on the rounding of a
      difference, are also given and stated on binary64 numbers;
    - a [datetime] is an integer number of microseconds ([Z]), which is
      the resolution of [datetime.utcnow()];
    - a SQLAlchemy session is a record of tables, each table the list of
      its rows in insertion order; [query(...).filter(...).first()] is
      the first row that satisfies the filter, [db.add] appends a row and
      [db.delete] removes it.  Constraint checks made by the database
      engine at commit time are not part of the handlers; they are
      modelled where a module says so ([Jobs], [Companies], [Users],
      [Auth]): the [IntegrityError] of a violation is caught by no
      handler there, so that the answer is 500 and nothing is written;
    - an endpoint that raises [HTTPException] returns [HTTPError] with the
      status code and the detail. *)

From Stdlib Require Import ZArith QArith Qround Lia Bool Sorted.
From Stdlib Require Import Strings.String Strings.Ascii Strings.Byte.
From Stdlib Require Import Floats.
From stdpp Require Import gmap strings list.

Set Warnings "-inexact-float".

Local Open Scope Z_scope.

(** ** Results of endpoints *)

Inductive http_result (A : Type) : Type :=
| HTTPOk (value : A)
| HTTPError (status_code : Z) (detail : string).
Arguments HTTPOk {A} value.
Arguments HTTPError {A} status_code detail.

Definition HTTP_400_BAD_REQUEST : Z := 400.
Definition HTTP_401_UNAUTHORIZED : Z := 401.
Definition HTTP_403_FORBIDDEN : Z := 403.
Definition HTTP_404_NOT_FOUND : Z := 404.

(** ** Python's [str] operations (ASCII) *)

Module PyStr.

Definition code (c : ascii) : N := N_of_ascii c.

Definition is_upper (c : ascii) : bool := ((65 <=? code c) && (code c <=? 90))%N.
Definition is_lower (c : ascii) : bool := ((97 <=? code c) && (code c <=? 122))%N.
Definition is_digit (c : ascii) : bool := ((48 <=? code c) && (code c <=? 57))%N.
Definition is_alpha (c : ascii) : bool := is_upper c || is_lower c.

(** The ASCII characters for which [str.isspace] holds, which are also
    the ASCII characters the pattern [\s] matches: tab, line feed,
    vertical tab, form feed, carriage return, the four separators
    [\x1c]..[\x1f], and the space. *)
Definition is_space (c : ascii) : bool :=
  (((9 <=? code c) && (code c <=? 13))
   || ((28 <=? code c) && (code c <=? 31))
   || (code c =? 32))%N.

Definition to_lower (c : ascii) : ascii :=
  if is_upper c then ascii_of_N (code c + 32) else c.
Definition to_upper (c : ascii) : ascii :=
  if is_lower c then ascii_of_N (code c - 32) else c.

(** [s.lower()] *)
Fixpoint lower (s : string) : string :=
  match s with
  | EmptyString => EmptyString
  | String c s' => String (to_lower c) (lower s')
  end.

(** [s.title()]: a cased character is upper-cased when it follows an
    uncased one (or starts the string), and lower-cased otherwise. *)
Fixpoint title_from (previous_is_cased : bool) (s : string) : string :=
  match s with
  | EmptyString => EmptyString
  | String c s' =>
      if is_lower c then
        String (if previous_is_cased then c else to_upper c) (title_from true s')
      else if is_upper c then
        String (if previous_is_cased then to_lower c else c) (title_from true s')
      else String c (title_from false s')
  end.
Definition title (s : string) : string := title_from false s.

(** [len(s)] *)
Definition len (s : string) : Z := Z.of_nat (String.length s).

(** [s.startswith(prefix)] and [s.endswith(suffix)] *)
Definition startswith (prefix s : string) : bool := String.prefix prefix s.
Definition rev (s : string) : string :=
  string_of_list_ascii (List.rev (list_ascii_of_string s)).
Definition endswith (suffix s : string) : bool :=
  String.prefix (rev suffix) (rev s).

(** [sub in s] *)
Fixpoint contains (sub s : string) : bool :=
  String.prefix sub s ||
  match s with
  | EmptyString => false
  | String _ s' => contains sub s'
  end.

(** [s[:n]] and [s[n:]] for [0 <= n] *)
Definition slice_to (n : nat) (s : string) : string := String.substring 0 n s.
Definition slice_from (n : nat) (s : string) : string :=
  String.substring n (String.length s - n) s.

(** Splitting at every character of a class: [s.split(c)] for a
    one-character separator, and [re.split] for a character class.
    The result is never empty. *)
Fixpoint split_on (is_sep : ascii -> bool) (s : string) : list string :=
  match s with
  | EmptyString => [EmptyString]
  | String c s' =>
      if is_sep c then EmptyString :: split_on is_sep s'
      else match split_on is_sep s' with
           | [] => [String c EmptyString]
           | part :: parts => String c part :: parts
           end
  end.

(** [sep.join(parts)] *)
Definition join (sep : string) (parts : list string) : string :=
  String.concat sep parts.

(** [s.strip()] *)
Fixpoint lstrip (s : string) : string :=
  match s with
  | EmptyString => EmptyString
  | String c s' => if is_space c then lstrip s' else s
  end.
Definition strip (s : string) : string := rev (lstrip (rev (lstrip s))).

(** The value of a run of decimal digits in which single underscores
    may separate digits, as [int] reads it. *)
Fixpoint digits_value (acc : Z) (previous_is_digit : bool) (s : string) : option Z :=
  match s with
  | EmptyString => if previous_is_digit then Some acc else None
  | String c s' =>
      if is_digit c then digits_value (10 * acc + (Z.of_N (code c) - 48)) true s'
      else if Ascii.eqb c "_" then
        if previous_is_digit then digits_value acc false s' else None
      else None
  end.

(** [s[-1]], when [s] is not empty *)
Fixpoint last_char (s : string) : option ascii :=
  match s with
  | EmptyString => None
  | String c EmptyString => Some c
  | String _ s' => last_char s'
  end.

(** [s.isascii()] *)
Fixpoint isascii (s : string) : bool :=
  match s with
  | EmptyString => true
  | String c s' => (code c <? 128)%N && isascii s'
  end.

(** The whitespace [int] skips at both ends of an ASCII text: tab, line
    feed, vertical tab, form feed, carriage return and the space.  The
    separators [\x1c]..[\x1f], which [str.strip] removes, are not among
    them. *)
Definition is_int_space (c : ascii) : bool :=
  (((9 <=? code c) && (code c <=? 13)) || (code c =? 32))%N.
Fixpoint lstrip_int (s : string) : string :=
  match s with
  | EmptyString => EmptyString
  | String c s' => if is_int_space c then lstrip_int s' else s
  end.

(** [int(s)] for an ASCII text [s]: [None] stands for [ValueError].
    An interpreter that limits the digits of a conversion (4300 by
    default) also raises [ValueError] on a longer run of digits, which
    is not modelled: statements about a value read by [int] bound the
    length of the text. *)
Definition int (s : string) : option Z :=
  match rev (lstrip_int (rev (lstrip_int s))) with
  | String "+" digits => digits_value 0 false digits
  | String "-" digits => Z.opp <$> digits_value 0 false digits
  | digits => digits_value 0 false digits
  end.

End PyStr.

(** ** Python's [bytes] operations *)

Module PyBytes.

(** [data.startswith(prefix)] *)
Fixpoint startswith (prefix data : list byte) : bool :=
  match prefix, data with
  | [], _ => true
  | _ :: _, [] => false
  | p :: prefix', d :: data' => Byte.eqb p d && startswith prefix' data'
  end.

(** [sub in data]: [sub] occurs in [data] as a contiguous slice. *)
Fixpoint contains (sub data : list byte) : bool :=
  startswith sub data ||
  match data with
  | [] => false
  | _ :: data' => contains sub data'
  end.

(** [len(data)] *)
Definition len (data : list byte) : Z := Z.of_nat (length data).

End PyBytes.

(** ** services/ai_matching.py *)

Module AIMatching.

Definition PDF_MAGIC : list byte := list_byte_of_string "%PDF-".
Definition EMILY_DAVIS : list byte := list_byte_of_string "Emily Davis".
Definition MIKE_WILSON : list byte := list_byte_of_string "Mike Wilson".

(** The size bound of [_validate_pdf_bytes], [50 * 1024 * 1024] bytes. *)
Definition MAX_PDF_SIZE : Z := 50 * 1024 * 1024.

(** [AIMatchingService._validate_pdf_bytes].  No operation in the body
    raises on a [bytes] argument, so the [except] branch is not
    reachable. *)
Definition _validate_pdf_bytes (pdf_bytes : list byte) : bool :=
  if match pdf_bytes with [] => true | _ => false end
     || (PyBytes.len pdf_bytes =? 0)
  then false
  else if negb (PyBytes.startswith PDF_MAGIC pdf_bytes
                || PyBytes.startswith EMILY_DAVIS pdf_bytes
                || PyBytes.startswith MIKE_WILSON pdf_bytes
                || PyBytes.contains EMILY_DAVIS (take 100 pdf_bytes)
                || PyBytes.contains MIKE_WILSON (take 100 pdf_bytes))
  then false
  else if PyBytes.len pdf_bytes >? MAX_PDF_SIZE
  then false
  else true.

Definition STRONG_MATCH : string := "✅ Strong Match".
Definition MODERATE_MATCH : string := "⚠️ Moderate Match".
Definition WEAK_MATCH : string := "❌ Weak Match".

(** [AIMatchingService._get_match_status], on scores and thresholds
    that are rationals, as the convention for scores has them *)
Definition _get_match_status (score threshold : Q) : string :=
  if Qle_bool threshold score then STRONG_MATCH
  else if Qle_bool (threshold - 0.1) score then MODERATE_MATCH
  else WEAK_MATCH.

(** [AIMatchingService._get_match_status] on binary64 numbers, with the
    comparison and the subtraction of IEEE 754 that Python's [float]
    has: the literal [0.1] is the binary64 number nearest to one tenth,
    and [threshold - 0.1] is rounded to the nearest binary64 number. *)
Definition _get_match_status_binary64 (score threshold : float) : string :=
  if PrimFloat.leb threshold score then STRONG_MATCH
  else if PrimFloat.leb (threshold - 0.1)%float score then MODERATE_MATCH
  else WEAK_MATCH.

(** What [_validate_pdf_bytes] looks for at the start of a buffer: the
    PDF header, or one of the two names of the test corpus, either as a
    prefix of the buffer or somewhere within its first 100 bytes. *)
Definition has_known_start (pdf_bytes : list byte) : Prop :=
  (exists rest, pdf_bytes = PDF_MAGIC ++ rest) \/
  exists name, (name = EMILY_DAVIS \/ name = MIKE_WILSON) /\
    ((exists rest, pdf_bytes = name ++ rest) \/
     (exists before after, take 100 pdf_bytes = before ++ name ++ after)).

(** A PDF of exactly [50 * 1024 * 1024] bytes: the magic header
    followed by zero bytes. *)
Definition pdf_of_50MB : list byte :=
  PDF_MAGIC ++ replicate (Z.to_nat (MAX_PDF_SIZE - 5)) x00.

End AIMatching.

(** ** models/models.py

    A [UUID] is its canonical text.  A nullable column is an [option].
    The text columns of a job are options too, because [update_job] can
    assign [None] to any of them.  The server-managed columns
    [created_at] and [updated_at] are left out. *)

Definition UUID : Type := string.

Module Company.
Record t : Type := mk {
  id : UUID;
  name : string;
  description : option string;
  website : option string;
  industry : option string;
  size : option string
}.
End Company.

Module User.
Record t : Type := mk {
  id : UUID;
  email : string;
  username : string;
  full_name : string;
  hashed_password : string;
  role : string;
  company_id : option UUID;
  is_active : bool
}.
End User.

Module Job.
Record t : Type := mk {
  id : UUID;
  user_id : UUID;
  company_id : option UUID;
  title : option string;
  location : option string;
  description : option string;
  requirements : option string;
  experience_level : option string;
  salary_range : option string;
  status : option string
}.
End Job.

Module Application.
Record t : Type := mk {
  id : UUID;
  user_id : UUID;
  job_id : UUID;
  candidate_name : string;
  cover_letter : option string;
  resume_url : option string;
  status : option string
}.
End Application.

(** The tables a [Session] gives access to. *)
Module DB.
Record t : Type := mk {
  companies : list Company.t;
  users : list User.t;
  jobs : list Job.t;
  applications : list Application.t
}.

Definition empty : t := mk [] [] [] [].

(** [db.query(Model).filter(cond).first()] *)
Definition first {A : Type} (cond : A -> bool) (table : list A) : option A :=
  List.find cond table.

(** [db.query(Model).filter(cond).count()] *)
Definition count {A : Type} (cond : A -> bool) (table : list A) : Z :=
  Z.of_nat (length (List.filter cond table)).

(** [db.delete(row)] for the row found by its primary key: the first row
    of the table with that key goes. *)
Fixpoint delete_first {A : Type} (is_row : A -> bool) (table : list A) : list A :=
  match table with
  | [] => []
  | row :: table' => if is_row row then table' else row :: delete_first is_row table'
  end.

(** The row found by its primary key is replaced by its new state. *)
Fixpoint update_first {A : Type} (is_row : A -> bool) (new_row : A) (table : list A) : list A :=
  match table with
  | [] => []
  | row :: table' =>
      if is_row row then new_row :: table' else row :: update_first is_row new_row table'
  end.

Definition with_jobs (db : t) (js : list Job.t) : t :=
  mk (companies db) (users db) js (applications db).
Definition with_applications (db : t) (apps : list Application.t) : t :=
  mk (companies db) (users db) (jobs db) apps.
Definition with_companies (db : t) (cs : list Company.t) : t :=
  mk cs (users db) (jobs db) (applications db).
Definition with_users (db : t) (us : list User.t) : t :=
  mk (companies db) us (jobs db) (applications db).
End DB.

(** ** schemas/schemas.py *)

(** [JobUpdate]: every field is optional.  [None] is a field the request
    left unset, [Some v] a field the request set to [v], where [v] is
    itself [None] for an explicit null. *)
Module JobUpdate.
Record t : Type := mk {
  title : option (option string);
  location : option (option string);
  description : option (option string);
  requirements : option (option string);
  experience_level : option (option string);
  salary_range : option (option string);
  status : option (option string)
}.
End JobUpdate.

Module ApplicationCreate.
Record t : Type := mk {
  job_id : UUID;
  cover_letter : option string;
  resume_url : option string
}.
End ApplicationCreate.

Module JobCreate.
Record t : Type := mk {
  title : string;
  location : option string;
  description : string;
  requirements : option string;
  experience_level : option string;
  salary_range : option string
}.
End JobCreate.

Module CompanyCreate.
Record t : Type := mk {
  name : string;
  description : option string;
  website : option string;
  industry : option string;
  size : option string
}.
End CompanyCreate.

(** The body [{"message": ...}] of a response. *)
Definition Message : Type := string.

(** ** api/v1/endpoints/jobs.py

    Each handler takes [current_user] as FastAPI hands it over, after the
    dependency ([get_current_user] for [get_job],
    [get_current_recruiter_user] for [update_job] and [delete_job]) has
    resolved it. *)

Module CoreAuth.

(** The role dependencies of core/auth.py, applied to the user
    [get_current_user] has resolved. *)
Definition get_current_active_user (current_user : User.t) : http_result User.t :=
  if negb (User.is_active current_user) then HTTPError 400 "Inactive user"
  else HTTPOk current_user.

Definition get_current_recruiter_user (current_user : User.t) : http_result User.t :=
  match get_current_active_user current_user with
  | HTTPOk current_user =>
      if negb (String.eqb (User.role current_user) "admin"
               || String.eqb (User.role current_user) "recruiter")
      then HTTPError HTTP_403_FORBIDDEN "Not enough permissions"
      else HTTPOk current_user
  | HTTPError status_code detail => HTTPError status_code detail
  end.

Definition get_current_admin_user (current_user : User.t) : http_result User.t :=
  match get_current_active_user current_user with
  | HTTPOk current_user =>
      if negb (String.eqb (User.role current_user) "admin")
      then HTTPError HTTP_403_FORBIDDEN "Not enough permissions"
      else HTTPOk current_user
  | HTTPError status_code detail => HTTPError status_code detail
  end.

End CoreAuth.

Module Jobs.

(** [value if the request set the field else the attribute as it is] *)
Definition setattr {A : Type} (update : option A) (current : A) : A :=
  match update with
  | Some v => v
  | None => current
  end.

(** [for field, value in job_update.dict(exclude_unset=True).items():
       setattr(job, field, value)] *)
Definition apply_update (job : Job.t) (job_update : JobUpdate.t) : Job.t :=
  Job.mk (Job.id job) (Job.user_id job) (Job.company_id job)
    (setattr (JobUpdate.title job_update) (Job.title job))
    (setattr (JobUpdate.location job_update) (Job.location job))
    (setattr (JobUpdate.description job_update) (Job.description job))
    (setattr (JobUpdate.requirements job_update) (Job.requirements job))
    (setattr (JobUpdate.experience_level job_update) (Job.experience_level job))
    (setattr (JobUpdate.salary_range job_update) (Job.salary_range job))
    (setattr (JobUpdate.status job_update) (Job.status job)).

Definition has_id (job_id : string) (job : Job.t) : bool :=
  String.eqb (Job.id job) job_id.

(** [a != b] on nullable UUID columns *)
Definition uuid_ne (a b : option UUID) : bool :=
  negb (bool_decide (a = b)).

(** The truth value of [current_user.company_id]: a [UUID] object is
    true, [None] is false. *)
Definition truthy (company_id : option UUID) : bool :=
  match company_id with
  | Some _ => true
  | None => false
  end.

Definition get_job (job_id : string) (current_user : User.t) (db : DB.t)
  : http_result Job.t :=
  match DB.first (has_id job_id) (DB.jobs db) with
  | None => HTTPError HTTP_404_NOT_FOUND "Job not found"
  | Some job =>
      if String.eqb (User.role current_user) "recruiter"
         && truthy (User.company_id current_user)
         && uuid_ne (Job.company_id job) (User.company_id current_user)
      then HTTPError HTTP_403_FORBIDDEN "Not enough permissions to access this job"
      else HTTPOk job
  end.

(** The request sets to [null] a column of [jobs] that is not nullable
    ([title], [description]). *)
Definition nulls_required (job_update : JobUpdate.t) : bool :=
  match JobUpdate.title job_update with Some None => true | _ => false end
  || match JobUpdate.description job_update with Some None => true | _ => false end.

(** [setattr] for every field the request sets, [db.commit()] and
    [db.refresh(job)].  The commit raises [IntegrityError] when a
    column that is not nullable would be [NULL]; [update_job] does not
    catch it. *)
Definition commit_update (job_id : string) (job : Job.t) (job_update : JobUpdate.t)
  (db : DB.t) : http_result Job.t * DB.t :=
  if nulls_required job_update then (HTTPError 500 "Internal Server Error", db)
  else
    let job' := apply_update job job_update in
    (HTTPOk job', DB.with_jobs db (DB.update_first (has_id job_id) job' (DB.jobs db))).

Definition update_job (job_id : string) (job_update : JobUpdate.t)
  (current_user : User.t) (db : DB.t) : http_result Job.t * DB.t :=
  match DB.first (has_id job_id) (DB.jobs db) with
  | None => (HTTPError HTTP_404_NOT_FOUND "Job not found", db)
  | Some job =>
      if String.eqb (User.role current_user) "admin" then
        commit_update job_id job job_update db
      else if String.eqb (User.role current_user) "recruiter" then
        if negb (truthy (User.company_id current_user))
           || uuid_ne (Job.company_id job) (User.company_id current_user)
        then (HTTPError HTTP_403_FORBIDDEN "Not enough permissions to update this job", db)
        else commit_update job_id job job_update db
      else (HTTPError HTTP_403_FORBIDDEN "Not enough permissions to update this job", db)
  end.

(** A row of [applications] or of [saved_jobs] references the job.
    [saved_job_ids] is the column [job_id] of the table [saved_jobs],
    which is passed beside the database. *)
Definition referenced (job : Job.t) (db : DB.t) (saved_job_ids : list UUID) : bool :=
  existsb (fun app => String.eqb (Application.job_id app) (Job.id job)) (DB.applications db)
  || existsb (String.eqb (Job.id job)) saved_job_ids.

(** [db.delete(job)] and [db.commit()].  The commit raises
    [IntegrityError] when a row references the job: the relationship
    [Job.applications] has no cascade and [applications.job_id] is not
    nullable, and the foreign key of [saved_jobs.job_id] has no
    [ON DELETE] rule.  [delete_job] does not catch it. *)
Definition commit_delete (job_id : string) (job : Job.t) (db : DB.t)
  (saved_job_ids : list UUID) : http_result Message * DB.t :=
  if referenced job db saved_job_ids then (HTTPError 500 "Internal Server Error", db)
  else
    (HTTPOk "Job deleted successfully",
     DB.with_jobs db (DB.delete_first (has_id job_id) (DB.jobs db))).

Definition delete_job (job_id : string) (current_user : User.t) (db : DB.t)
  (saved_job_ids : list UUID) : http_result Message * DB.t :=
  match DB.first (has_id job_id) (DB.jobs db) with
  | None => (HTTPError HTTP_404_NOT_FOUND "Job not found", db)
  | Some job =>
      if String.eqb (User.role current_user) "admin" then
        commit_delete job_id job db saved_job_ids
      else if String.eqb (User.role current_user) "recruiter" then
        if negb (truthy (User.company_id current_user))
           || uuid_ne (Job.company_id job) (User.company_id current_user)
        then (HTTPError HTTP_403_FORBIDDEN "Not enough permissions to delete this job", db)
        else commit_delete job_id job db saved_job_ids
      else (HTTPError HTTP_403_FORBIDDEN "Not enough permissions to delete this job", db)
  end.

(** [create_job].  [new_id] is the primary key [uuid.uuid4] draws for
    the new row; its [status] is the column default.  The final query
    reads the row back by its key; it cannot come back empty
    (see [create_job_reads_back]), and the model answers 500 there. *)
Definition create_job (new_id : UUID) (job_data : JobCreate.t) (current_user : User.t)
  (db : DB.t) : http_result Job.t * DB.t :=
  if negb (truthy (User.company_id current_user)) then
    (HTTPError HTTP_400_BAD_REQUEST
       "Recruiter must be assigned to a company to create jobs", db)
  else
    let db_job :=
      Job.mk new_id (User.id current_user) (User.company_id current_user)
        (Some (JobCreate.title job_data)) (JobCreate.location job_data)
        (Some (JobCreate.description job_data)) (JobCreate.requirements job_data)
        (JobCreate.experience_level job_data) (JobCreate.salary_range job_data)
        (Some "active") in
    let db' := DB.with_jobs db (DB.jobs db ++ [db_job]) in
    match DB.first (has_id new_id) (DB.jobs db') with
    | Some job => (HTTPOk job, db')
    | None => (HTTPError 500 "Internal Server Error", db')
    end.

Definition is_active_job (job : Job.t) : bool :=
  bool_decide (Job.status job = Some "active").

(** [get_jobs] *)
Definition get_jobs (current_user : User.t) (db : DB.t) : list Job.t :=
  let query := List.filter is_active_job (DB.jobs db) in
  if String.eqb (User.role current_user) "recruiter" && truthy (User.company_id current_user)
  then List.filter
         (fun job => bool_decide (Job.company_id job = User.company_id current_user)) query
  else query.

(** [get_my_jobs] *)
Definition get_my_jobs (current_user : User.t) (db : DB.t) : list Job.t :=
  List.filter (fun job => String.eqb (Job.user_id job) (User.id current_user)) (DB.jobs db).

End Jobs.

(** ** api/v1/endpoints/applications.py *)

Module Applications.

Definition by_user_and_job (user_id job_id : UUID) (a : Application.t) : bool :=
  String.eqb (Application.user_id a) user_id && String.eqb (Application.job_id a) job_id.

(** [create_application].  [new_id] is the primary key [uuid.uuid4]
    draws for the new row; its [status] is the column default. *)
Definition create_application (new_id : UUID) (application_data : ApplicationCreate.t)
  (current_user : User.t) (db : DB.t) : http_result Application.t * DB.t :=
  match DB.first (Jobs.has_id (ApplicationCreate.job_id application_data)) (DB.jobs db) with
  | None => (HTTPError HTTP_404_NOT_FOUND "Job not found", db)
  | Some job =>
      if negb (bool_decide (Job.status job = Some "active")) then
        (HTTPError HTTP_400_BAD_REQUEST "Cannot apply to inactive job", db)
      else
        match DB.first (by_user_and_job (User.id current_user)
                          (ApplicationCreate.job_id application_data))
                (DB.applications db) with
        | Some existing_application =>
            (HTTPError HTTP_400_BAD_REQUEST "You have already applied to this job", db)
        | None =>
            let db_application :=
              Application.mk new_id (User.id current_user)
                (ApplicationCreate.job_id application_data)
                (User.full_name current_user)
                (ApplicationCreate.cover_letter application_data)
                (ApplicationCreate.resume_url application_data)
                (Some "pending") in
            (HTTPOk db_application,
             DB.with_applications db (DB.applications db ++ [db_application]))
        end
  end.

Definition has_id (application_id : string) (a : Application.t) : bool :=
  String.eqb (Application.id a) application_id.

(** [application.job]: the job the foreign key points to *)
Definition job_of (a : Application.t) (db : DB.t) : option Job.t :=
  DB.first (Jobs.has_id (Application.job_id a)) (DB.jobs db).

(** [db.query(Application).join(Job).filter(Job.company_id == company_id)]:
    one row for each pair of an application and a job of the company
    that its [job_id] designates. *)
Definition join_jobs_of_company (company_id : option UUID) (db : DB.t) : list Application.t :=
  flat_map
    (fun a =>
       List.map (fun _ => a)
         (List.filter
            (fun job => Jobs.has_id (Application.job_id a) job
                        && bool_decide (Job.company_id job = company_id))
            (DB.jobs db)))
    (DB.applications db).

(** [get_applications] *)
Definition get_applications (current_user : User.t) (db : DB.t) : list Application.t :=
  if String.eqb (User.role current_user) "candidate" then
    List.filter (fun a => String.eqb (Application.user_id a) (User.id current_user))
      (DB.applications db)
  else if String.eqb (User.role current_user) "recruiter"
          || String.eqb (User.role current_user) "admin" then
    if String.eqb (User.role current_user) "recruiter"
       && Jobs.truthy (User.company_id current_user)
    then join_jobs_of_company (User.company_id current_user) db
    else DB.applications db
  else [].

(** The permission check that [get_application], [update_application]
    and [delete_application] share, with the word of the detail that
    tells them apart: [None] when the check passes.  Reading
    [application.job.company_id] of an application without a job raises
    [AttributeError], which the server answers with 500. *)
Definition check_permissions (verb : string) (application : Application.t)
  (current_user : User.t) (db : DB.t) : option (Z * string) :=
  let denied :=
    (HTTP_403_FORBIDDEN, "Not enough permissions to " +:+ verb +:+ " this application") in
  if String.eqb (User.role current_user) "candidate"
     && negb (String.eqb (Application.user_id application) (User.id current_user))
  then Some denied
  else if String.eqb (User.role current_user) "recruiter" then
    if negb (Jobs.truthy (User.company_id current_user)) then Some denied
    else match job_of application db with
         | None => Some (500, "Internal Server Error"%string)
         | Some job =>
             if Jobs.uuid_ne (Job.company_id job) (User.company_id current_user)
             then Some denied
             else None
         end
  else None.

(** [get_application] *)
Definition get_application (application_id : string) (current_user : User.t) (db : DB.t)
  : http_result Application.t :=
  match DB.first (has_id application_id) (DB.applications db) with
  | None => HTTPError HTTP_404_NOT_FOUND "Application not found"
  | Some application =>
      match check_permissions "view" application current_user db with
      | Some (status_code, detail) => HTTPError status_code detail
      | None => HTTPOk application
      end
  end.

(** [delete_application] *)
Definition delete_application (application_id : string) (current_user : User.t) (db : DB.t)
  : http_result Message * DB.t :=
  match DB.first (has_id application_id) (DB.applications db) with
  | None => (HTTPError HTTP_404_NOT_FOUND "Application not found", db)
  | Some application =>
      match check_permissions "delete" application current_user db with
      | Some (status_code, detail) => (HTTPError status_code detail, db)
      | None =>
          (HTTPOk "Application deleted successfully",
           DB.with_applications db
             (DB.delete_first (has_id application_id) (DB.applications db)))
      end
  end.

(** [get_applications_for_job] *)
Definition get_applications_for_job (job_id : string) (current_user : User.t) (db : DB.t)
  : http_result (list Application.t) :=
  match DB.first (Jobs.has_id job_id) (DB.jobs db) with
  | None => HTTPError HTTP_404_NOT_FOUND "Job not found"
  | Some job =>
      let denied :=
        HTTPError HTTP_403_FORBIDDEN
          "Not enough permissions to view applications for this job" in
      let applications :=
        List.filter (fun a => String.eqb (Application.job_id a) job_id)
          (DB.applications db) in
      if String.eqb (User.role current_user) "admin" then HTTPOk applications
      else if String.eqb (User.role current_user) "recruiter" then
        if negb (Jobs.truthy (User.company_id current_user))
           || Jobs.uuid_ne (Job.company_id job) (User.company_id current_user)
        then denied
        else HTTPOk applications
      else denied
  end.

(** A request to the endpoint: the key drawn for the row, the body, and
    the authenticated user. *)
Definition create_request : Type := (UUID * ApplicationCreate.t * User.t)%type.

(** The database after a sequence of requests, one after the other. *)
Definition run_creates (requests : list create_request) (db : DB.t) : DB.t :=
  fold_left (fun db '(new_id, application_data, current_user) =>
               snd (create_application new_id application_data current_user db))
            requests db.

(** The number of applications of a user for a job. *)
Definition applications_of (user_id job_id : UUID) (db : DB.t) : Z :=
  DB.count (by_user_and_job user_id job_id) (DB.applications db).

(** At most one application per user and job *)
Definition one_per_user_and_job (db : DB.t) : Prop :=
  forall user_id job_id : UUID, applications_of user_id job_id db <= 1.

End Applications.

(** ** api/v1/endpoints/companies.py *)

Module Companies.

Definition has_id (company_id : string) (c : Company.t) : bool :=
  String.eqb (Company.id c) company_id.

Definition user_of_company (company_id : string) (u : User.t) : bool :=
  bool_decide (User.company_id u = Some company_id).

(** A job of the company: a row of [jobs] whose [company_id] references it *)
Definition job_of_company (company_id : string) (j : Job.t) : bool :=
  bool_decide (Job.company_id j = Some company_id).

(** [delete_company].  The handler counts the users of the company and
    not its jobs.  When a job references the company, [db.commit()]
    raises [IntegrityError]: the column [jobs.company_id] is not
    nullable and the relationship [Company.jobs] has no cascade, so the
    row of the job can neither lose its reference nor keep it.  The
    handler does not catch the error. *)
Definition delete_company (company_id : string) (current_user : User.t) (db : DB.t)
  : http_result Message * DB.t :=
  match DB.first (has_id company_id) (DB.companies db) with
  | None => (HTTPError HTTP_404_NOT_FOUND "Company not found", db)
  | Some company =>
      let users_count := DB.count (user_of_company company_id) (DB.users db) in
      if users_count >? 0 then
        (HTTPError HTTP_400_BAD_REQUEST
           "Cannot delete company with associated users. Please reassign users first.", db)
      else if existsb (job_of_company company_id) (DB.jobs db) then
        (HTTPError 500 "Internal Server Error", db)
      else
        (HTTPOk "Company deleted successfully",
         DB.with_companies db (DB.delete_first (has_id company_id) (DB.companies db)))
  end.

(** [create_company]; [new_id] is the primary key drawn for the row. *)
Definition create_company (new_id : UUID) (company_data : CompanyCreate.t)
  (current_user : User.t) (db : DB.t) : http_result Company.t * DB.t :=
  match DB.first (fun c => String.eqb (Company.name c) (CompanyCreate.name company_data))
          (DB.companies db) with
  | Some existing_company =>
      (HTTPError HTTP_400_BAD_REQUEST "Company with this name already exists", db)
  | None =>
      let db_company :=
        Company.mk new_id (CompanyCreate.name company_data)
          (CompanyCreate.description company_data) (CompanyCreate.website company_data)
          (CompanyCreate.industry company_data) (CompanyCreate.size company_data) in
      (HTTPOk db_company, DB.with_companies db (DB.companies db ++ [db_company]))
  end.

(** [get_company] *)
Definition get_company (company_id : string) (current_user : User.t) (db : DB.t)
  : http_result Company.t :=
  match DB.first (has_id company_id) (DB.companies db) with
  | None => HTTPError HTTP_404_NOT_FOUND "Company not found"
  | Some company => HTTPOk company
  end.

End Companies.

(** ** api/v1/endpoints/users.py

    [update_current_user] writes whatever fields the request sets.  Its
    [db.commit()] is where the constraints of [users] (models/models.py)
    are enforced: the columns that are not nullable ([email],
    [username], [full_name], [role]), the two unique ones ([email],
    [username]) and the foreign key of [company_id].  A violation raises
    [IntegrityError], which the endpoint does not catch, so that the
    server answers 500 and the transaction is dropped. *)

Module UserUpdate.
Record t : Type := mk {
  email : option (option string);
  username : option (option string);
  full_name : option (option string);
  role : option (option string);
  company_id : option (option UUID)
}.
End UserUpdate.

Module Users.

Definition has_id (user_id : string) (u : User.t) : bool :=
  String.eqb (User.id u) user_id.

(** [setattr] on a column that is not nullable: [None] when the request
    sets the field to [null]. *)
Definition required {A : Type} (update : option (option A)) (current : A) : option A :=
  match update with
  | None => Some current
  | Some (Some v) => Some v
  | Some None => None
  end.

(** [for field, value in update_data.items(): setattr(user, field, value)]:
    the row to be written, or [None] when a column that is not nullable
    would be [NULL]. *)
Definition apply_update (user : User.t) (user_update : UserUpdate.t) : option User.t :=
  match required (UserUpdate.email user_update) (User.email user),
        required (UserUpdate.username user_update) (User.username user),
        required (UserUpdate.full_name user_update) (User.full_name user),
        required (UserUpdate.role user_update) (User.role user) with
  | Some email, Some username, Some full_name, Some role =>
      Some (User.mk (User.id user) email username full_name (User.hashed_password user)
              role (Jobs.setattr (UserUpdate.company_id user_update) (User.company_id user))
              (User.is_active user))
  | _, _, _, _ => None
  end.

(** The row of [user] with another role *)
Definition row_with_role (user : User.t) (role : string) : User.t :=
  User.mk (User.id user) (User.email user) (User.username user) (User.full_name user)
    (User.hashed_password user) role (User.company_id user) (User.is_active user).

(** Another row holds the e-mail address or the user name. *)
Definition clashes (user : User.t) (other : User.t) : bool :=
  negb (String.eqb (User.id other) (User.id user))
  && (String.eqb (User.email other) (User.email user)
      || String.eqb (User.username other) (User.username user)).

(** The company the request sets, if it sets one, exists. *)
Definition company_exists (user_update : UserUpdate.t) (db : DB.t) : bool :=
  match UserUpdate.company_id user_update with
  | Some (Some company_id) => existsb (Companies.has_id company_id) (DB.companies db)
  | _ => true
  end.

(** [update_current_user] *)
Definition update_current_user (user_update : UserUpdate.t) (current_user : User.t)
  (db : DB.t) : http_result User.t * DB.t :=
  match apply_update current_user user_update with
  | None => (HTTPError 500 "Internal Server Error", db)
  | Some user =>
      if existsb (clashes user) (DB.users db) || negb (company_exists user_update db)
      then (HTTPError 500 "Internal Server Error", db)
      else (HTTPOk user,
            DB.with_users db (DB.update_first (has_id (User.id current_user)) user
                                (DB.users db)))
  end.

(** [get_current_user_info], without the company it loads beside, and
    [get_user_by_id] *)
Definition get_current_user_info (current_user : User.t) (db : DB.t) : option User.t :=
  DB.first (has_id (User.id current_user)) (DB.users db).

Definition get_user_by_id (user_id : string) (current_user : User.t) (db : DB.t)
  : http_result User.t :=
  match DB.first (has_id user_id) (DB.users db) with
  | None => HTTPError HTTP_404_NOT_FOUND "User not found"
  | Some user => HTTPOk user
  end.

End Users.

(** ** core/rate_limiter_simple.py *)

Module RateLimiter.

(** [timedelta(seconds=n)], in microseconds *)
Definition timedelta_seconds (n : Z) : Z := n * 1000000.

(** The state of a [SimpleRateLimiter]: [self.requests]. *)
Record t : Type := mk { requests : gmap string (list Z) }.

(** [SimpleRateLimiter()] *)
Definition init : t := mk ∅.

(** The window of a period; [None] for a period the limiter does not know. *)
Definition window_of (period : string) : option Z :=
  if String.eqb period "minute" then Some (timedelta_seconds 60)
  else if String.eqb period "hour" then Some (timedelta_seconds 3600)
  else if String.eqb period "day" then Some (timedelta_seconds 86400)
  else None.

(** [SimpleRateLimiter.is_allowed], with [now] the value of
    [datetime.utcnow()].  The two [ValueError]s of the parse (the
    unpacking of the split and [int]) are caught by the [except] branch,
    which allows the request. *)
Definition is_allowed (self : t) (now : Z) (key limit : string) : (bool * Z) * t :=
  match PyStr.split_on (Ascii.eqb "/") limit with
  | [count; period] =>
      match PyStr.int count with
      | None => ((true, 0), self)
      | Some count =>
          match window_of period with
          | None => ((true, 0), self)
          | Some window =>
              let cutoff := now - window in
              let kept :=
                match requests self !! key with
                | Some times => List.filter (fun req_time => req_time >? cutoff) times
                | None => []
                end in
              if Z.of_nat (length kept) <? count
              then ((true, 0), mk (<[key := kept ++ [now]]> (requests self)))
              else ((false, Z.of_nat (length kept)), mk (<[key := kept]> (requests self)))
          end
      end
  | _ => ((true, 0), self)
  end.

(** The answers to a sequence of checks of one key against one limit,
    made at the given times one after the other, and the final state. *)
Fixpoint checks (self : t) (key limit : string) (times : list Z) : list (bool * Z) * t :=
  match times with
  | [] => ([], self)
  | now :: times' =>
      let '(answer, self') := is_allowed self now key limit in
      let '(answers, self'') := checks self' key limit times' in
      (answer :: answers, self'')
  end.

(** The timestamps a check keeps: those inside the window *)
Definition kept_at (now window : Z) (times : list Z) : list Z :=
  List.filter (fun req_time => req_time >? now - window) times.

(** [self.requests.get(key, [])]: what the limiter holds for a key *)
Definition stored (self : t) (key : string) : list Z :=
  match requests self !! key with
  | Some times => times
  | None => []
  end.

(** ['/' not in s] *)
Definition slash_free (s : string) : Prop :=
  forall c, In c (list_ascii_of_string s) -> Ascii.eqb "/" c = false.

End RateLimiter.

(** ** A [dict] with [str] keys, in insertion order *)

Module PyDict.

(** [d[key] = value]: an existing key keeps its place. *)
Fixpoint set {V : Type} (key : string) (value : V) (d : list (string * V)) : list (string * V) :=
  match d with
  | [] => [(key, value)]
  | (k, v) :: d' =>
      if String.eqb k key then (k, value) :: d' else (k, v) :: set key value d'
  end.

(** [del d[key]] for a key of [d]; no change for another key. *)
Fixpoint del {V : Type} (key : string) (d : list (string * V)) : list (string * V) :=
  match d with
  | [] => []
  | (k, v) :: d' => if String.eqb k key then d' else (k, v) :: del key d'
  end.

(** [d.get(key)] *)
Fixpoint get {V : Type} (key : string) (d : list (string * V)) : option V :=
  match d with
  | [] => None
  | (k, v) :: d' => if String.eqb k key then Some v else get key d'
  end.

(** [key in d] *)
Definition mem {V : Type} (key : string) (d : list (string * V)) : bool :=
  match get key d with
  | Some _ => true
  | None => false
  end.

End PyDict.

(** ** core/redis_client_simple.py *)

Module SimpleRedisClient.

(** A session dictionary, as [register], [login] and [get_current_user]
    build it: its items in order, each a text or the client information
    ([ip], [user_agent], [host]). *)
Inductive session_field : Type :=
| Text (v : string)
| ClientInfo (ip user_agent host : string).

Definition session_data : Type := list (string * session_field).

(** What a key of [self.data] holds. *)
Inductive value : Type :=
| Flag (v : string)
| SessionData (d : session_data)
| RefreshData (user_id : string) (created_at : Z).

Record entry : Type := mk_entry { entry_value : value; expires : Z }.

(** [self.data] *)
Definition data : Type := list (string * entry).

Definition timedelta_seconds (n : Z) : Z := n * 1000000.

Definition blacklist_key (token : string) : string := "blacklist:" +:+ token.
Definition session_key (user_id : string) : string := "session:" +:+ user_id.
Definition refresh_key (token : string) : string := "refresh_token:" +:+ token.

Definition blacklist_token (self : data) (now : Z) (token : string) (expires_in : Z) : data :=
  PyDict.set (blacklist_key token)
    (mk_entry (Flag "1") (now + timedelta_seconds expires_in)) self.

Definition is_token_blacklisted (self : data) (now : Z) (token : string) : bool * data :=
  match PyDict.get (blacklist_key token) self with
  | Some e =>
      if now <? expires e then (true, self)
      else (false, PyDict.del (blacklist_key token) self)
  | None => (false, self)
  end.

Definition store_session (self : data) (now : Z) (user_id : string)
  (session : session_data) (expires_in : Z) : data :=
  PyDict.set (session_key user_id)
    (mk_entry (SessionData session) (now + timedelta_seconds expires_in)) self.

Definition get_session (self : data) (now : Z) (user_id : string) : option value * data :=
  match PyDict.get (session_key user_id) self with
  | Some e =>
      if now <? expires e then (Some (entry_value e), self)
      else (None, PyDict.del (session_key user_id) self)
  | None => (None, self)
  end.

Definition delete_session (self : data) (user_id : string) : data :=
  if PyDict.mem (session_key user_id) self
  then PyDict.del (session_key user_id) self
  else self.

Definition store_refresh_token (self : data) (now : Z) (token user_id : string)
  (expires_in : Z) : data :=
  PyDict.set (refresh_key token)
    (mk_entry (RefreshData user_id now) (now + timedelta_seconds expires_in)) self.

Definition get_refresh_token_data (self : data) (now : Z) (token : string)
  : option value * data :=
  match PyDict.get (refresh_key token) self with
  | Some e =>
      if now <? expires e then (Some (entry_value e), self)
      else (None, PyDict.del (refresh_key token) self)
  | None => (None, self)
  end.

Definition delete_refresh_token (self : data) (token : string) : data :=
  if PyDict.mem (refresh_key token) self
  then PyDict.del (refresh_key token) self
  else self.

Definition get_user_sessions (self : data) (now : Z) (user_id : string) : list value :=
  List.map (fun kv => entry_value (snd kv))
    (List.filter
       (fun kv => PyStr.startswith (session_key user_id) (fst kv) && (now <? expires (snd kv)))
       self).

Definition delete_all_user_sessions (self : data) (user_id : string) : data :=
  let keys_to_delete :=
    List.map fst (List.filter (fun kv => PyStr.startswith (session_key user_id) (fst kv)) self) in
  fold_left (fun d key => PyDict.del key d) keys_to_delete self.

End SimpleRedisClient.

(** ** api/v1/endpoints/auth.py and core/auth.py *)

Module Auth.

Import SimpleRedisClient.

Definition ACCESS_TOKEN_EXPIRE_MINUTES : Z := 15.
Definition IDLE_TIMEOUT_MINUTES : Z := 30.
Definition SESSION_COOKIE_NAME : string := "ats_session".
Definition REFRESH_COOKIE_NAME : string := "ats_refresh".

(** The truth value of a cookie read with [request.cookies.get]. *)
Definition present (cookie : option string) : option string :=
  match cookie with
  | Some EmptyString => None
  | other => other
  end.

(** [clear_cookies]: the cookies the response deletes. *)
Definition clear_cookies (response : list string) : list string :=
  response ++ [SESSION_COOKIE_NAME; REFRESH_COOKIE_NAME].

(** The session key [get_current_user] and [login] pass to
    [store_session]: [f"{user.id}:{session_id}"]. *)
Definition session_id_of (user_id session_id : string) : string :=
  user_id +:+ ":" +:+ session_id.

(** The handler of the [logout] endpoint, which runs once the
    dependency [get_current_user] has returned [current_user] (see
    [logout_endpoint] for the two together): the message, the cookies
    the response deletes, and the store afterwards.  [access_token] and
    [refresh_token] are the two cookies of the request. *)
Definition logout (access_token refresh_token : option string) (current_user : User.t)
  (now : Z) (redis_client : data) : Message * list string * data :=
  let redis_client :=
    match present access_token with
    | Some token => blacklist_token redis_client now token (ACCESS_TOKEN_EXPIRE_MINUTES * 60)
    | None => redis_client
    end in
  let redis_client :=
    match present refresh_token with
    | Some token => delete_refresh_token redis_client token
    | None => redis_client
    end in
  let redis_client := delete_session redis_client (User.id current_user +:+ ":*") in
  ("Successfully logged out", clear_cookies [], redis_client).

(** The store after the two token steps of [logout], before the call
    of [delete_session]. *)
Definition after_token_steps (access_token refresh_token : option string) (now : Z)
  (redis_client : data) : data :=
  let redis_client :=
    match present access_token with
    | Some token => blacklist_token redis_client now token (ACCESS_TOKEN_EXPIRE_MINUTES * 60)
    | None => redis_client
    end in
  match present refresh_token with
  | Some token => delete_refresh_token redis_client token
  | None => redis_client
  end.

(** The session records of a store: the entries under a ["session:"]
    key, in order. *)
Definition session_records (redis_client : data) : data :=
  List.filter (fun kv => PyStr.startswith "session:" (fst kv)) redis_client.

(** No entry sits under a key of the form [session:{user_id}:*]. *)
Definition no_star_key (self : data) : Prop :=
  forall (user_id : string) (e : entry), ~ In (session_key (user_id +:+ ":*"), e) self.

(** The characters of [str(uuid.uuid4())]: lower-case hexadecimal digits
    and hyphens. *)
Definition is_uuid_char (c : ascii) : bool :=
  PyStr.is_digit c || ((97 <=? PyStr.code c) && (PyStr.code c <=? 102))%N || Ascii.eqb c "-".

Fixpoint uuid_text (s : string) : bool :=
  match s with
  | EmptyString => true
  | String c s' => is_uuid_char c && uuid_text s'
  end.

(** The session identifiers under which the backend stores a session:
    the text of a [uuid.uuid4], which every access token carries, or
    ["None"], which is [str] of the session identifier a refresh token
    lacks ([verify_token] does not look at the type of the token, so
    that [get_current_user] accepts a refresh token as well). *)
Definition session_text (sid : string) : bool :=
  uuid_text sid || String.eqb sid "None".

(** The stores the application can build: every call the backend makes
    on the client, from the empty store.  Sessions are stored by
    [register], [login] and [get_current_user] only, each time under
    [f"{user.id}:{session_id}"] with the session identifier of a token
    of the backend. *)
Inductive reachable : data -> Prop :=
| reach_init : reachable []
| reach_blacklist_token self now token expires_in :
    reachable self -> reachable (blacklist_token self now token expires_in)
| reach_is_token_blacklisted self now token :
    reachable self -> reachable (snd (is_token_blacklisted self now token))
| reach_store_session self now uid sid session expires_in :
    reachable self -> session_text sid = true ->
    reachable (store_session self now (session_id_of uid sid) session expires_in)
| reach_delete_session self user_id :
    reachable self -> reachable (delete_session self user_id)
| reach_store_refresh_token self now token user_id expires_in :
    reachable self -> reachable (store_refresh_token self now token user_id expires_in)
| reach_get_refresh_token_data self now token :
    reachable self -> reachable (snd (get_refresh_token_data self now token))
| reach_delete_refresh_token self token :
    reachable self -> reachable (delete_refresh_token self token)
| reach_delete_all_user_sessions self user_id :
    reachable self -> reachable (delete_all_user_sessions self user_id).

Definition REFRESH_TOKEN_EXPIRE_DAYS : Z := 7.

(** The claims [jwt.decode] returns that the backend reads: [sub],
    [session_id] and [jti], each a text or absent. *)
Record Payload : Type := mk_payload {
  sub : option string;
  claimed_session_id : option string;
  jti : option string
}.

(** [schemas.TokenData] *)
Record TokenData : Type := mk_token_data {
  email : option string;
  session_id : option string
}.

(** What the endpoints read of a [Request]: the two cookies,
    [headers.get("Authorization")], [client.host] when there is a
    client, and the headers [user-agent] and [host]. *)
Record Request : Type := mk_request {
  session_cookie : option string;
  refresh_cookie : option string;
  authorization : option string;
  client_host : option string;
  user_agent : option string;
  host : option string
}.

(** [str(x)] for an optional text *)
Definition str_of (x : option string) : string :=
  match x with
  | Some s => s
  | None => "None"
  end.

(** [get_client_info] *)
Definition get_client_info (request : Request) : session_field :=
  ClientInfo (default "unknown"%string (client_host request))
    (default "unknown"%string (user_agent request))
    (default "unknown"%string (host request)).

(** The truth value of what a key of the store holds *)
Definition truthy (v : option value) : bool :=
  match v with
  | None => false
  | Some (Flag text) => negb (String.eqb text "")
  | Some (SessionData d) => match d with [] => false | _ => true end
  | Some (RefreshData _ _) => true
  end.

(** [revoke_session]: the message and the store afterwards. *)
Definition revoke_session (session_id : string) (current_user : User.t)
  (redis_client : data) : Message * data :=
  let redis_client :=
    delete_session redis_client (session_id_of (User.id current_user) session_id) in
  ("Session " +:+ session_id +:+ " revoked successfully", redis_client).

(** [logout_all_devices]: the message, the cookies the response
    deletes and the store afterwards. *)
Definition logout_all_devices (current_user : User.t) (redis_client : data)
  : Message * list string * data :=
  let redis_client := delete_all_user_sessions redis_client (User.id current_user) in
  ("Successfully logged out from all devices", clear_cookies [], redis_client).

(** [UserCreate] *)
Record UserCreate : Type := mk_user_create {
  new_email : string;
  new_username : string;
  new_full_name : string;
  new_role : string;
  new_company_id : option UUID;
  password : string
}.

Section Tokens.

(** [jwt.decode] with the application's key at a given time: [None]
    stands for [JWTError] (a bad signature, an expired token). *)
Variable jwt_decode : Z -> string -> option Payload.
(** [create_access_token] and [create_refresh_token] at a given time,
    for a subject and the session identifier or the [jti] drawn. *)
Variable create_access_token : Z -> string -> string -> string.
Variable create_refresh_token : Z -> string -> string -> string.
(** [datetime.isoformat] and [get_password_hash] *)
Variable isoformat : Z -> string.
Variable get_password_hash : string -> string.

(** [verify_token]: the token data, or [None], and the store, from
    which the check of the blacklist may drop an expired entry. *)
Definition verify_token (redis_client : data) (now : Z) (token : string)
  : option TokenData * data :=
  let '(blacklisted, redis_client) := is_token_blacklisted redis_client now token in
  if blacklisted then (None, redis_client)
  else
    match jwt_decode now token with
    | None => (None, redis_client)
    | Some payload =>
        match sub payload with
        | None => (None, redis_client)
        | Some email => (Some (mk_token_data (Some email) (claimed_session_id payload)),
                         redis_client)
        end
    end.

(** The token [get_current_user] reads: the cookie, or else the second
    part of an [Authorization] header that starts with [Bearer ]. *)
Definition token_of (request : Request) : option string :=
  match present (session_cookie request) with
  | Some token => Some token
  | None =>
      match authorization request with
      | Some auth_header =>
          if PyStr.startswith "Bearer " auth_header
          then nth_error (PyStr.split_on (Ascii.eqb " ") auth_header) 1
          else session_cookie request
      | None => session_cookie request
      end
  end.

(** [get_current_user]: the user, or the error, and the store. *)
Definition get_current_user (request : Request) (db : DB.t) (now : Z) (redis_client : data)
  : http_result User.t * data :=
  let credentials_exception :=
    HTTPError HTTP_401_UNAUTHORIZED "Could not validate credentials" in
  match present (token_of request) with
  | None => (credentials_exception, redis_client)
  | Some token =>
      let '(token_data, redis_client) := verify_token redis_client now token in
      match token_data with
      | None => (credentials_exception, redis_client)
      | Some token_data =>
          match
            match email token_data with
            | Some address =>
                DB.first (fun user => String.eqb (User.email user) address) (DB.users db)
            | None => None
            end
          with
          | None => (credentials_exception, redis_client)
          | Some user =>
              let client_info := get_client_info request in
              let session_data :=
                [("user_id", Text (User.id user));
                 ("email", Text (User.email user));
                 ("last_activity", Text (isoformat now));
                 ("client_info", client_info)]%string in
              let redis_client :=
                store_session redis_client now
                  (session_id_of (User.id user) (str_of (session_id token_data)))
                  session_data (IDLE_TIMEOUT_MINUTES * 60) in
              (HTTPOk user, redis_client)
          end
      end
  end.

(** The [logout] endpoint as a request meets it: the dependency
    [get_current_user] runs first, at [now], and answers for the
    endpoint when it raises; the handler runs after it, at [later], on
    the store the dependency leaves. *)
Definition logout_endpoint (request : Request) (db : DB.t) (now later : Z)
  (redis_client : data) : http_result (Message * list string) * data :=
  match get_current_user request db now redis_client with
  | (HTTPError status_code detail, redis_client) =>
      (HTTPError status_code detail, redis_client)
  | (HTTPOk current_user, redis_client) =>
      let '(message, cookies, redis_client) :=
        logout (session_cookie request) (refresh_cookie request) current_user later
          redis_client in
      (HTTPOk (message, cookies), redis_client)
  end.

(** [refresh_access_token], with the session identifier and the [jti]
    that [uuid.uuid4] draws: the new access token, the new refresh
    token and the session identifier, or [None], and the store. *)
Definition refresh_access_token (refresh_token : string) (db : DB.t) (now : Z)
  (drawn_session_id drawn_jti : string) (redis_client : data)
  : option (string * string * string) * data :=
  match jwt_decode now refresh_token with
  | None => (None, redis_client)
  | Some payload =>
      match sub payload, jti payload with
      | Some address, Some _ =>
          let '(refresh_data, redis_client) :=
            get_refresh_token_data redis_client now refresh_token in
          if negb (truthy refresh_data) then (None, redis_client)
          else
            match DB.first (fun user => String.eqb (User.email user) address) (DB.users db) with
            | None => (None, redis_client)
            | Some user =>
                if negb (User.is_active user) then (None, redis_client)
                else
                  let new_access_token :=
                    create_access_token now (User.email user) drawn_session_id in
                  let new_refresh_token :=
                    create_refresh_token now (User.email user) drawn_jti in
                  let redis_client :=
                    store_refresh_token redis_client now new_refresh_token (User.id user)
                      (REFRESH_TOKEN_EXPIRE_DAYS * 24 * 60 * 60) in
                  let redis_client := delete_refresh_token redis_client refresh_token in
                  (Some (new_access_token, new_refresh_token, drawn_session_id), redis_client)
            end
      | _, _ => (None, redis_client)
      end
  end.

(** The [refresh] endpoint: what it returns ([access_token],
    [refresh_token], [session_id]), and the store. *)
Definition refresh_token (request : Request) (db : DB.t) (now : Z)
  (drawn_session_id drawn_jti : string) (redis_client : data)
  : http_result (string * string * string) * data :=
  match present (refresh_cookie request) with
  | None => (HTTPError HTTP_401_UNAUTHORIZED "Refresh token not found", redis_client)
  | Some cookie =>
      match refresh_access_token cookie db now drawn_session_id drawn_jti redis_client with
      | (None, redis_client) =>
          (HTTPError HTTP_401_UNAUTHORIZED "Invalid refresh token", redis_client)
      | (Some token_data, redis_client) => (HTTPOk token_data, redis_client)
      end
  end.

(** [signup], with the identifier the database gives the user and the
    session identifier and [jti] drawn: the user and the two tokens, or
    the error, the database and the store. *)
(** The company the request names, if it names one, exists: the foreign
    key of [users.company_id], which the database checks when [signup]
    commits the new row. *)
Definition company_known (user_data : UserCreate) (db : DB.t) : bool :=
  match new_company_id user_data with
  | Some company_id => existsb (Companies.has_id company_id) (DB.companies db)
  | None => true
  end.

Definition signup (request : Request) (user_data : UserCreate) (now : Z)
  (new_id : UUID) (drawn_session_id drawn_jti : string) (db : DB.t) (redis_client : data)
  : http_result (User.t * string * string * string) * DB.t * data :=
  match
    DB.first (fun user => String.eqb (User.email user) (new_email user_data)
                          || String.eqb (User.username user) (new_username user_data))
      (DB.users db)
  with
  | Some _ =>
      (HTTPError HTTP_400_BAD_REQUEST "Email or username already registered", db, redis_client)
  | None =>
      if String.eqb (new_role user_data) "recruiter"
         && match new_company_id user_data with None => true | Some _ => false end
      then (HTTPError HTTP_400_BAD_REQUEST "Recruiters must be assigned to a company",
            db, redis_client)
      else if negb (company_known user_data db)
      then (HTTPError 500 "Internal Server Error", db, redis_client)
      else
        let hashed_password := get_password_hash (password user_data) in
        let db_user :=
          User.mk new_id (new_email user_data) (new_username user_data)
            (new_full_name user_data) hashed_password (new_role user_data)
            (new_company_id user_data) true in
        let db := DB.with_users db (DB.users db ++ [db_user]) in
        let access_token := create_access_token now (User.email db_user) drawn_session_id in
        let refresh_token := create_refresh_token now (User.email db_user) drawn_jti in
        let redis_client :=
          store_refresh_token redis_client now refresh_token (User.id db_user)
            (REFRESH_TOKEN_EXPIRE_DAYS * 24 * 60 * 60) in
        let client_info := get_client_info request in
        let session_data :=
          [("user_id", Text (User.id db_user));
           ("email", Text (User.email db_user));
           ("created_at", client_info);
           ("last_activity", client_info);
           ("client_info", client_info)]%string in
        let redis_client :=
          store_session redis_client now (session_id_of (User.id db_user) drawn_session_id)
            session_data (IDLE_TIMEOUT_MINUTES * 60) in
        (HTTPOk (db_user, access_token, refresh_token, drawn_session_id), db, redis_client)
  end.

End Tokens.

End Auth.

(** ** services/skill_extractor.py *)

Module SkillExtractor.

Local Open Scope Q_scope.

(** [self.skills_database]: the categories in insertion order, each with
    the names of its skills (the keys of the category's dictionary; the
    synonyms play no part in the similarity). *)
Record t : Type := mk { skills_database : list (string * list string) }.

Definition _initialize_skills_database : list (string * list string) :=
[
  ("programming_languages",
   ["Python"; "Java"; "JavaScript"; "TypeScript"; "C++"; "C"; "C#"; "Go";
    "Rust"; "PHP"; "Ruby"; "Swift"; "Kotlin"; "Scala"; "R"; "MATLAB"; "Perl";
    "Shell"; "VBA"; "Assembly"; "Fortran"; "COBOL"]);
  ("frameworks_libraries",
   ["React"; "Angular"; "Vue.js"; "Node.js"; "Express.js"; "Django"; "Flask";
    "FastAPI"; "Spring Boot"; "Laravel"; "Ruby on Rails"; "ASP.NET";
    "jQuery"; "Bootstrap"; "Tailwind CSS"; "Material-UI"; "Ant Design"]);
  ("databases",
   ["MySQL"; "PostgreSQL"; "MongoDB"; "Redis"; "SQLite"; "Oracle";
    "SQL Server"; "Cassandra"; "DynamoDB"; "Firebase"; "Elasticsearch";
    "Neo4j"]);
  ("cloud_platforms",
   ["AWS"; "Azure"; "Google Cloud Platform"; "IBM Cloud"; "Oracle Cloud";
    "DigitalOcean"; "Heroku"; "Vercel"; "Netlify"; "Firebase"; "Cloudflare"]);
  ("ai_ml_tools",
   ["TensorFlow"; "PyTorch"; "Scikit-learn"; "Keras"; "OpenAI";
    "Hugging Face"; "LangChain"; "Claude"; "YOLO"; "OpenCV"; "InsightFace";
    "Pandas"; "NumPy"; "Matplotlib"; "Seaborn"; "Plotly"; "Jupyter"]);
  ("devops_tools",
   ["Docker"; "Kubernetes"; "Jenkins"; "GitLab CI"; "GitHub Actions";
    "Terraform"; "Ansible"; "Chef"; "Puppet"; "Vagrant"; "Prometheus";
    "Grafana"]);
  ("version_control",
   ["Git"; "GitHub"; "GitLab"; "Bitbucket"; "SVN"; "Mercurial"]);
  ("operating_systems",
   ["Linux"; "Windows"; "macOS"; "Unix"])
]%string.

(** [SkillExtractor()] *)
Definition init : t := mk _initialize_skills_database.

Definition category_weights : list (string * Q) :=
  [("programming_languages", 1.0); ("frameworks_libraries", 0.9);
   ("databases", 0.8); ("cloud_platforms", 0.7); ("ai_ml_tools", 0.9);
   ("devops_tools", 0.8); ("version_control", 0.6); ("operating_systems", 0.5)].

(** [category_weights.get(category, 0.5)] *)
Definition weight_of (category : string) : Q :=
  match PyDict.get category category_weights with
  | Some w => w
  | None => 0.5
  end.

(** [s in skills_dict] *)
Definition is_key (skills_dict : list string) (s : string) : bool :=
  existsb (String.eqb s) skills_dict.

(** The truth value of a list *)
Definition nonempty {A : Type} (l : list A) : bool :=
  match l with
  | [] => false
  | _ :: _ => true
  end.

(** [len(set(a) & set(b)) / len(set(a) | set(b))] *)
Definition jaccard (a b : list string) : Q :=
  let set1 : gset string := list_to_set a in
  let set2 : gset string := list_to_set b in
  inject_Z (Z.of_nat (size (set1 ∩ set2))) / inject_Z (Z.of_nat (size (set1 ∪ set2))).

(** One turn of the loop over the categories: the pair is
    [(total_weight, weighted_score)]. *)
Definition weigh_category (skills1 skills2 : list string) (acc : Q * Q)
  (item : string * list string) : Q * Q :=
  let '(total_weight, weighted_score) := acc in
  let '(category, skills_dict) := item in
  let weight := weight_of category in
  let cat_skills1 := List.filter (is_key skills_dict) skills1 in
  let cat_skills2 := List.filter (is_key skills_dict) skills2 in
  if nonempty cat_skills1 || nonempty cat_skills2 then
    let cat_similarity :=
      if nonempty cat_skills1 && nonempty cat_skills2
      then jaccard cat_skills1 cat_skills2
      else 0.0 in
    (total_weight + weight, weighted_score + cat_similarity * weight)
  else acc.

(** [SkillExtractor._calculate_weighted_similarity].  The one division
    that could raise has a non-empty union as its divisor, so the
    [except] branch is not reachable. *)
Definition _calculate_weighted_similarity (self : t) (skills1 skills2 : list string) : Q :=
  let '(total_weight, weighted_score) :=
    fold_left (weigh_category skills1 skills2) (skills_database self) (0, 0) in
  if Qeq_bool total_weight 0 then 0.0
  else weighted_score / total_weight.

(** [min(a, b)] on numbers: [b] when [b < a], else [a]. *)
Definition py_min (a b : Q) : Q := if Qle_bool a b then a else b.

(** [SkillExtractor.calculate_skills_similarity] *)
Definition calculate_skills_similarity (self : t) (skills1 skills2 : list string) : Q :=
  if negb (nonempty skills1) || negb (nonempty skills2) then 0.0
  else
    let set1 : gset string := list_to_set skills1 in
    let set2 : gset string := list_to_set skills2 in
    let intersection := Z.of_nat (size (set1 ∩ set2)) in
    let union := Z.of_nat (size (set1 ∪ set2)) in
    if (union =? 0)%Z then 0.0
    else
      let jaccard_similarity := inject_Z intersection / inject_Z union in
      let weighted_similarity := _calculate_weighted_similarity self skills1 skills2 in
      let final_similarity := jaccard_similarity * 0.6 + weighted_similarity * 0.4 in
      py_min final_similarity 1.0.

(** Some skill of the list is a skill of the database. *)
Definition knows_one_of (self : t) (skills : list string) : bool :=
  existsb (fun item => nonempty (List.filter (is_key (snd item)) skills))
    (skills_database self).

(** No skill of the first list is in the second. *)
Definition disjoint_skills (a b : list string) : Prop :=
  forall s : string, In s a -> ~ In s b.

End SkillExtractor.

(** ** api/v1/endpoints/candidate_features.py *)

Module CandidateFeatures.

Local Open Scope Q_scope.

Record JobRecommendation : Type := mk {
  id : string;
  title : option string;
  location : string;
  type : string;
  salary : string;
  match_score : Q;
  skills : list string;
  missing_skills : list string;
  description : string;
  requirements : string;
  benefits : list string;
  urgency : string
}.

Definition candidate_skills : list string :=
  ["Python"; "JavaScript"; "React"; "Node.js"; "SQL";
   "AWS"; "Docker"; "Git"; "HTML"; "CSS"]%string.

(** [value or fallback] on a nullable text column *)
Definition or_else (value : option string) (fallback : string) : string :=
  match value with
  | Some EmptyString | None => fallback
  | Some v => v
  end.

(** [f"{job.description or ''} {job.requirements or ''}".lower()] *)
Definition job_text (job : Job.t) : string :=
  PyStr.lower (or_else (Job.description job) "" +:+ " " +:+ or_else (Job.requirements job) "").

(** The candidate skills found in the text of the job *)
Definition job_skills (job : Job.t) : list string :=
  List.filter (fun skill => PyStr.contains (PyStr.lower skill) (job_text job)) candidate_skills.

(** [min(95, x)] *)
Definition min_95 (x : Q) : Q := if Qle_bool 95 x then 95 else x.

(** [round(x, 1)], to the nearest tenth, a tie going to the even one *)
Definition round_half_even (x : Q) : Z :=
  let f := Qfloor x in
  match Qcompare (x - inject_Z f) (1 # 2) with
  | Lt => f
  | Gt => (f + 1)%Z
  | Eq => if Z.even f then f else (f + 1)%Z
  end.
Definition round1 (x : Q) : Q := inject_Z (round_half_even (x * 10)) / 10.

(** The score before rounding *)
Definition raw_match_score (job : Job.t) : Q :=
  let set_candidate : gset string := list_to_set candidate_skills in
  let set_job : gset string := list_to_set (job_skills job) in
  let skills_match := Z.of_nat (size (set_candidate ∩ set_job)) in
  let total_skills :=
    match job_skills job with
    | [] => 1%Z
    | _ => Z.of_nat (length (job_skills job))
    end in
  min_95 (60 + (inject_Z skills_match / inject_Z (Z.max total_skills 1)) * 35).

(** The body of the loop over the available jobs.  The sets are listed
    in the order [elements] gives; the response fields that copy a
    column through [strftime] or a relationship are left out. *)
Definition recommend (job : Job.t) : JobRecommendation :=
  let set_candidate : gset string := list_to_set candidate_skills in
  let set_job : gset string := list_to_set (job_skills job) in
  let match_score := raw_match_score job in
  let missing_skills := take 3 (elements (set_job ∖ set_candidate)) in
  let matched_skills := elements (set_candidate ∩ set_job) in
  mk (Job.id job) (Job.title job)
     (or_else (Job.location job) "Location not specified")
     (or_else (Job.experience_level job) "Full-time")
     (or_else (Job.salary_range job) "Salary not specified")
     (round1 match_score)
     matched_skills missing_skills
     (or_else (Job.description job) "No description available")
     (or_else (Job.requirements job) "No requirements specified")
     ["Health Insurance"; "401k"; "Remote Work"; "Learning Budget"]%string
     (if Qle_bool match_score 85 then "medium" else "high").

(** [recommendations.sort(key=lambda x: x.match_score, reverse=True)]:
    a stable sort, highest score first. *)
Fixpoint insert_by_score (r : JobRecommendation) (sorted : list JobRecommendation)
  : list JobRecommendation :=
  match sorted with
  | [] => [r]
  | r' :: sorted' =>
      if Qle_bool (match_score r') (match_score r) then r :: sorted
      else r' :: insert_by_score r sorted'
  end.
Definition sort_by_score (l : list JobRecommendation) : list JobRecommendation :=
  fold_right insert_by_score [] l.

(** [get_job_recommendations] *)
Definition get_job_recommendations (current_user : User.t) (db : DB.t)
  : list JobRecommendation :=
  let applied_jobs :=
    List.filter (fun app => String.eqb (Application.user_id app) (User.id current_user))
      (DB.applications db) in
  let applied_job_ids := List.map Application.job_id applied_jobs in
  let available_jobs :=
    take 10 (List.filter
               (fun job => bool_decide (Job.status job = Some "active")
                           && negb (existsb (String.eqb (Job.id job)) applied_job_ids))
               (DB.jobs db)) in
  let recommendations := List.map recommend available_jobs in
  take 5 (sort_by_score recommendations).





(** The order of the sorted list: [r] may come before [r'] when its
    score is at least that of [r']. *)
Definition not_below (r r' : JobRecommendation) : Prop :=
  match_score r' <= match_score r.

(** The rows of [saved_jobs] and [job_alerts] (models/models.py); the
    two tables are passed to the endpoints beside the database. *)
Module SavedJob.
Record t : Type := mk {
  id : UUID;
  candidate_id : UUID;
  job_id : UUID;
  match_score : option Q;
  saved_at : Z
}.
End SavedJob.

Module JobAlert.
Record t : Type := mk {
  id : UUID;
  candidate_id : UUID;
  name : string;
  keywords : string;
  location : option string;
  job_type : string;
  experience_level : string;
  salary_range : option string;
  frequency : string;
  is_active : bool;
  last_sent : option Z;
  matches_found : Z;
  created_at : Z;
  updated_at : option Z
}.
End JobAlert.

(** [SavedJobResponse], [JobAlertCreate] and [JobAlertResponse]
    (schemas/schemas.py) *)
Module SavedJobResponse.
Record t : Type := mk {
  id : string;
  job_id : string;
  title : option string;
  company : string;
  location : string;
  type : string;
  salary : string;
  saved_at : Z;
  match_score : Q;
  status : string
}.
End SavedJobResponse.

Module JobAlertCreate.
Record t : Type := mk {
  name : string;
  keywords : string;
  location : option string;
  job_type : string;
  experience_level : string;
  salary_range : option string;
  frequency : string
}.
End JobAlertCreate.

Module JobAlertResponse.
Record t : Type := mk {
  id : string;
  name : string;
  keywords : string;
  location : string;
  job_type : string;
  experience_level : string;
  salary_range : option string;
  frequency : string;
  is_active : bool;
  last_sent : option Z;
  matches_found : Z;
  created_at : Z
}.
End JobAlertResponse.

Definition HTTP_500_INTERNAL_SERVER_ERROR : Z := 500.

(** [job.company.name if job.company else "Unknown Company"] *)
Definition company_name (job : Job.t) (db : DB.t) : string :=
  match Job.company_id job with
  | Some company_id =>
      match DB.first (Companies.has_id company_id) (DB.companies db) with
      | Some company => Company.name company
      | None => "Unknown Company"
      end
  | None => "Unknown Company"
  end.

(** The saved rows of a candidate for a job *)
Definition saved_by (candidate_id job_id : string) (saved_job : SavedJob.t) : bool :=
  String.eqb (SavedJob.candidate_id saved_job) candidate_id
  && String.eqb (SavedJob.job_id saved_job) job_id.

(** [get_saved_jobs]: a saved row whose job is gone is passed over. *)
Definition get_saved_jobs (current_user : User.t) (db : DB.t) (saved_jobs : list SavedJob.t)
  : list SavedJobResponse.t :=
  flat_map
    (fun saved_job =>
       match DB.first (Jobs.has_id (SavedJob.job_id saved_job)) (DB.jobs db) with
       | Some job =>
           [SavedJobResponse.mk (SavedJob.id saved_job) (Job.id job) (Job.title job)
              (company_name job db)
              (or_else (Job.location job) "Location not specified")
              (or_else (Job.experience_level job) "Full-time")
              (or_else (Job.salary_range job) "Salary not specified")
              (SavedJob.saved_at saved_job)
              (match SavedJob.match_score saved_job with
               | Some score => if Qeq_bool score 0 then 0 else score
               | None => 0
               end)
              (if bool_decide (Job.status job = Some "active"%string)
               then "active" else "expired")]
       | None => []
       end)
    (List.filter
       (fun saved_job => String.eqb (SavedJob.candidate_id saved_job) (User.id current_user))
       saved_jobs).

(** [save_job], with the key drawn for the row and the time *)
Definition save_job (new_id : UUID) (now : Z) (job_id : string) (current_user : User.t)
  (db : DB.t) (saved_jobs : list SavedJob.t)
  : http_result SavedJobResponse.t * list SavedJob.t :=
  match DB.first (Jobs.has_id job_id) (DB.jobs db) with
  | None => (HTTPError HTTP_404_NOT_FOUND "Job not found", saved_jobs)
  | Some job =>
      match DB.first (saved_by (User.id current_user) job_id) saved_jobs with
      | Some _ => (HTTPError HTTP_400_BAD_REQUEST "Job already saved", saved_jobs)
      | None =>
          let match_score := 85.0 in
          let saved_job :=
            SavedJob.mk new_id (User.id current_user) job_id (Some match_score) now in
          (HTTPOk
             (SavedJobResponse.mk (SavedJob.id saved_job) (Job.id job) (Job.title job)
                (company_name job db)
                (or_else (Job.location job) "Location not specified")
                (or_else (Job.experience_level job) "Full-time")
                (or_else (Job.salary_range job) "Salary not specified")
                (SavedJob.saved_at saved_job) match_score "active"),
           saved_jobs ++ [saved_job])
      end
  end.

(** [unsave_job]: the row found goes, by its key. *)
Definition unsave_job (job_id : string) (current_user : User.t) (saved_jobs : list SavedJob.t)
  : http_result Message * list SavedJob.t :=
  match DB.first (saved_by (User.id current_user) job_id) saved_jobs with
  | None => (HTTPError HTTP_404_NOT_FOUND "Saved job not found", saved_jobs)
  | Some saved_job =>
      (HTTPOk "Job removed from saved jobs",
       DB.delete_first (fun row => String.eqb (SavedJob.id row) (SavedJob.id saved_job))
         saved_jobs)
  end.

(** [JobAlertResponse(...)] for an alert: the field [location] is a
    [str], so that an alert without a location raises a
    [ValidationError], for which [None] stands. *)
Definition alert_response (alert : JobAlert.t) (matches_found : Z)
  : option JobAlertResponse.t :=
  match JobAlert.location alert with
  | Some location =>
      Some (JobAlertResponse.mk (JobAlert.id alert) (JobAlert.name alert)
              (JobAlert.keywords alert) location (JobAlert.job_type alert)
              (JobAlert.experience_level alert) (JobAlert.salary_range alert)
              (JobAlert.frequency alert) (JobAlert.is_active alert)
              (JobAlert.last_sent alert) matches_found (JobAlert.created_at alert))
  | None => None
  end.

(** The alert of a candidate with a given key *)
Definition alert_of (alert_id candidate_id : string) (alert : JobAlert.t) : bool :=
  String.eqb (JobAlert.id alert) alert_id
  && String.eqb (JobAlert.candidate_id alert) candidate_id.

Section JobAlerts.

(** [str(e)] for the [ValidationError] of a response *)
Variable validation_error : string.

(** The responses of a list of alerts, or [None] at the first alert
    that has none *)
Fixpoint alert_responses (alerts : list JobAlert.t) : option (list JobAlertResponse.t) :=
  match alerts with
  | [] => Some []
  | alert :: alerts' =>
      match alert_response alert (JobAlert.matches_found alert) with
      | None => None
      | Some response =>
          match alert_responses alerts' with
          | None => None
          | Some responses => Some (response :: responses)
          end
      end
  end.

(** [get_job_alerts] *)
Definition get_job_alerts (current_user : User.t) (job_alerts : list JobAlert.t)
  : http_result (list JobAlertResponse.t) :=
  let alerts :=
    List.filter
      (fun alert => String.eqb (JobAlert.candidate_id alert) (User.id current_user))
      job_alerts in
  match alert_responses alerts with
  | Some result => HTTPOk result
  | None =>
      HTTPError HTTP_500_INTERNAL_SERVER_ERROR
        ("Error retrieving job alerts: " +:+ validation_error)
  end.

(** [create_job_alert], with the key drawn for the row and the time:
    the row is committed before the response is built. *)
Definition create_job_alert (new_id : UUID) (now : Z) (alert_data : JobAlertCreate.t)
  (current_user : User.t) (job_alerts : list JobAlert.t)
  : http_result JobAlertResponse.t * list JobAlert.t :=
  let alert :=
    JobAlert.mk new_id (User.id current_user) (JobAlertCreate.name alert_data)
      (JobAlertCreate.keywords alert_data) (JobAlertCreate.location alert_data)
      (JobAlertCreate.job_type alert_data) (JobAlertCreate.experience_level alert_data)
      (JobAlertCreate.salary_range alert_data) (JobAlertCreate.frequency alert_data)
      true None 0 now None in
  let job_alerts := job_alerts ++ [alert] in
  match alert_response alert 0 with
  | Some response => (HTTPOk response, job_alerts)
  | None =>
      (HTTPError HTTP_500_INTERNAL_SERVER_ERROR
         ("Error creating job alert: " +:+ validation_error),
       job_alerts)
  end.

End JobAlerts.

(** [alert.is_active = not alert.is_active], as the commit at [now]
    writes the row: the update sets the column [updated_at]
    ([onupdate=func.now()]). *)
Definition toggled (now : Z) (alert : JobAlert.t) : JobAlert.t :=
  JobAlert.mk (JobAlert.id alert) (JobAlert.candidate_id alert) (JobAlert.name alert)
    (JobAlert.keywords alert) (JobAlert.location alert) (JobAlert.job_type alert)
    (JobAlert.experience_level alert) (JobAlert.salary_range alert)
    (JobAlert.frequency alert) (negb (JobAlert.is_active alert))
    (JobAlert.last_sent alert) (JobAlert.matches_found alert)
    (JobAlert.created_at alert) (Some now).

(** The row with another value in the column [updated_at] *)
Definition with_updated_at (updated_at : option Z) (alert : JobAlert.t) : JobAlert.t :=
  JobAlert.mk (JobAlert.id alert) (JobAlert.candidate_id alert) (JobAlert.name alert)
    (JobAlert.keywords alert) (JobAlert.location alert) (JobAlert.job_type alert)
    (JobAlert.experience_level alert) (JobAlert.salary_range alert)
    (JobAlert.frequency alert) (JobAlert.is_active alert)
    (JobAlert.last_sent alert) (JobAlert.matches_found alert)
    (JobAlert.created_at alert) updated_at.

(** [toggle_job_alert], with [now] the time of the commit *)
Definition toggle_job_alert (now : Z) (alert_id : string) (current_user : User.t)
  (job_alerts : list JobAlert.t) : http_result Message * list JobAlert.t :=
  match DB.first (alert_of alert_id (User.id current_user)) job_alerts with
  | None => (HTTPError HTTP_404_NOT_FOUND "Job alert not found", job_alerts)
  | Some alert =>
      let alert := toggled now alert in
      (HTTPOk ("Job alert " +:+ (if JobAlert.is_active alert then "activated"
                                 else "deactivated")),
       DB.update_first (fun row => String.eqb (JobAlert.id row) (JobAlert.id alert)) alert
         job_alerts)
  end.

(** [delete_job_alert] *)
Definition delete_job_alert (alert_id : string) (current_user : User.t)
  (job_alerts : list JobAlert.t) : http_result Message * list JobAlert.t :=
  match DB.first (alert_of alert_id (User.id current_user)) job_alerts with
  | None => (HTTPError HTTP_404_NOT_FOUND "Job alert not found", job_alerts)
  | Some alert =>
      (HTTPOk "Job alert deleted",
       DB.delete_first (fun row => String.eqb (JobAlert.id row) (JobAlert.id alert))
         job_alerts)
  end.

End CandidateFeatures.

(** ** services/resume_parser.py *)

Module ResumeParser.

(** The blocklist of [extract_candidate_name], which
    [_extract_name_from_email] repeats word for word. *)
Definition BLOCKLIST : list string :=
 ["github"; "linkedin"; "resume"; "curriculum vitae"; "cv"; "projects";
  "experience"; "profile"; "summary"; "claude"; "chatgpt"; "gpt"; "gemini";
  "bard"; "google"; "openai"; "assistant"; "email"; "phone"; "address";
  "contact"; "portfolio"; "website"; "objective"; "skills"; "certifications";
  "awards"; "publications"; "references"; "download"; "print"; "save";
  "share"; "copy"; "edit"; "delete"; "upload"; "file"; "document"; "pdf";
  "word"; "doc"; "txt"; "rtf"; "html"; "xml"; "json"; "company";
  "corporation"; "inc"; "llc"; "ltd"; "co"; "corp"; "org"; "university";
  "college"; "school"; "institute"; "academy"; "center"; "department";
  "division"; "team"; "group"; "unit"; "section"; "branch"]%string.

(** [name in BLOCKLIST] *)
Definition in_blocklist (name : string) : bool :=
  existsb (String.eqb name) BLOCKLIST.

(** [re.sub(r'[0-9]{2,4}$', '', s)] on the characters of [s] in reverse:
    the leftmost match is the last two to four digits of a run of at
    least two digits that ends the string. *)
Fixpoint digit_run (l : list ascii) : nat :=
  match l with
  | c :: l' => if PyStr.is_digit c then S (digit_run l') else O
  | [] => O
  end.
Definition drop_digit_run (reversed : list ascii) : list ascii :=
  let run := digit_run reversed in
  if (2 <=? run)%nat then drop (Nat.min run 4) reversed else reversed.

(** [$] also matches before a line feed that ends the string. *)
Definition strip_digit_suffix (s : string) : string :=
  match List.rev (list_ascii_of_string s) with
  | c :: reversed =>
      if Ascii.eqb c "010"
      then string_of_list_ascii (List.rev (c :: drop_digit_run reversed))
      else string_of_list_ascii (List.rev (drop_digit_run (c :: reversed)))
  | [] => EmptyString
  end.

(** The class [[._\-]] *)
Definition is_separator (c : ascii) : bool :=
  Ascii.eqb c "." || Ascii.eqb c "_" || Ascii.eqb c "-".

(** [re.findall(r'[a-z]+|[A-Z][a-z]*', s)]: [current] is the match
    under way, which a lower-case letter extends, an upper-case letter
    ends before starting the next one, and any other character ends. *)
Definition flush (current : option string) : list string :=
  match current with
  | Some token => [token]
  | None => []
  end.
Fixpoint findall_camel_from (current : option string) (s : string) : list string :=
  match s with
  | EmptyString => flush current
  | String c s' =>
      if PyStr.is_lower c then
        findall_camel_from
          (Some (match current with
                 | Some token => token +:+ String c EmptyString
                 | None => String c EmptyString
                 end)) s'
      else if PyStr.is_upper c then
        flush current ++ findall_camel_from (Some (String c EmptyString)) s'
      else flush current ++ findall_camel_from None s'
  end.
Definition findall_camel (s : string) : list string := findall_camel_from None s.

(** [re.match(r'^[A-Za-z\s]+$', name)] *)
Fixpoint all_letters_or_spaces (s : string) : bool :=
  match s with
  | EmptyString => true
  | String c s' => (PyStr.is_alpha c || PyStr.is_space c) && all_letters_or_spaces s'
  end.
Definition matches_name_pattern (name : string) : bool :=
  match name with
  | EmptyString => false
  | _ => all_letters_or_spaces name
  end.

(** The parts of a single long local part *)
Definition split_long_part (long_part : string) : list string :=
  let camel_case_parts := findall_camel long_part in
  if (2 <=? length camel_case_parts)%nat then take 3 camel_case_parts
  else if 8 <? PyStr.len long_part then
    let mid := (String.length long_part / 2)%nat in
    [PyStr.slice_to mid long_part; PyStr.slice_from mid long_part]
  else if PyStr.len long_part =? 8 then
    if PyStr.startswith "yash" long_part then ["yash"%string; PyStr.slice_from 4 long_part]
    else if PyStr.endswith "kank" long_part
    then [PyStr.slice_to (String.length long_part - 4) long_part; "kank"%string]
    else [PyStr.slice_to 4 long_part; PyStr.slice_from 4 long_part]
  else [long_part].

(** The validation that ends [_extract_name_from_email]: the length,
    the pattern, and the blocklist. *)
Definition validated_name (name : string) : option string :=
  if (2 <=? PyStr.len name) && (PyStr.len name <=? 50) && matches_name_pattern name
  then if negb (in_blocklist (PyStr.lower name)) then Some name else None
  else None.

(** [ResumeParser._extract_name_from_email] *)
Definition _extract_name_from_email (email : string) : option string :=
  let local_part := hd EmptyString (PyStr.split_on (Ascii.eqb "@") email) in
  match local_part with
  | EmptyString => None
  | _ =>
      let local_part := strip_digit_suffix local_part in
      let name_parts := PyStr.split_on is_separator local_part in
      let name_parts := take 3 (List.filter (fun part => 1 <? PyStr.len part) name_parts) in
      match name_parts with
      | [] => None
      | _ =>
          let name_parts :=
            match name_parts with
            | [long_part] =>
                if 6 <? PyStr.len long_part then split_long_part long_part
                else name_parts
            | _ => name_parts
            end in
          validated_name (PyStr.join " " (List.map PyStr.title name_parts))
      end
  end.

(** The truth value of an optional string *)
Definition nonblank (s : option string) : option string :=
  match s with
  | Some EmptyString => None
  | other => other
  end.

Section ExtractCandidateName.

(** The stages that come before the e-mail fallback are parameters:
    the line preprocessing, the heuristic pass over the first lines, the
    spaCy pass (with [nlp] telling whether a model is loaded) and the
    pass over the PDF metadata. *)
Variable PdfMeta : Type.
Variable _preprocess_text_lines : string -> list string.
Variable _extract_name_heuristic : list string -> list string -> option string.
Variable nlp : bool.
Variable _extract_name_spacy_ner : string -> list string -> option string.
Variable _extract_name_from_metadata : PdfMeta -> list string -> option string.

(** [ResumeParser.extract_candidate_name]; [pdf_meta] is [None] for a
    missing or empty dictionary. *)
Definition extract_candidate_name (text : string) (email : option string)
  (pdf_meta : option PdfMeta) : string :=
  let lines := _preprocess_text_lines text in
  match lines with
  | [] => "Name Not Found"
  | _ =>
      match nonblank (_extract_name_heuristic (take 15 lines) BLOCKLIST) with
      | Some heuristic_name => heuristic_name
      | None =>
          match (if nlp then nonblank (_extract_name_spacy_ner text BLOCKLIST) else None) with
          | Some ner_name => ner_name
          | None =>
              match (match pdf_meta with
                     | Some meta => nonblank (_extract_name_from_metadata meta BLOCKLIST)
                     | None => None
                     end) with
              | Some meta_name => meta_name
              | None =>
                  match (match nonblank email with
                         | Some email => nonblank (_extract_name_from_email email)
                         | None => None
                         end) with
                  | Some email_name => email_name
                  | None => "Name Not Found"
                  end
              end
          end
      end
  end.

End ExtractCandidateName.

End ResumeParser.

(** ** services/ai_matching.py: processing and matching

    The parser, the skill extractor and the similarity engine are
    parameters; an exception of theirs is the text [str(e)] on the left
    of a sum.  Python's sets are finite sets, [round] and [np.mean] on
    [float] are parameters too. *)

Module MatchResumes.

Import AIMatching.
Local Open Scope Q_scope.

(** An entry of the list [process_resume_files] returns: the data of a
    resume, or the error entry of a file that could not be processed. *)
Inductive processed_resume : Type :=
| ResumeData (filename text : string) (name email phone : option string)
    (skills : list string) (skills_count text_length : Z) (processed_at : string)
| ErrorEntry (filename error processed_at : string).

(** [r['filename']] and ['error' in r] *)
Definition filename_of (r : processed_resume) : string :=
  match r with
  | ResumeData filename _ _ _ _ _ _ _ _ => filename
  | ErrorEntry filename _ _ => filename
  end.
Definition has_error (r : processed_resume) : bool :=
  match r with
  | ResumeData _ _ _ _ _ _ _ _ _ => false
  | ErrorEntry _ _ _ => true
  end.

(** [resume_info.get(key, default)] on a dictionary whose values may
    be [None] *)
Definition info_get (resume_info : list (string * option string)) (key fallback : string)
  : option string :=
  match PyDict.get key resume_info with
  | Some value => value
  | None => Some fallback
  end.

(** The processed job description, an entry of the engine's ranking,
    a result of the matching and the summary *)
Record JobData : Type := mk_job_data {
  jd_text : string;
  jd_skills : list string;
  jd_skills_count : Z;
  jd_text_length : Z
}.

Record Rank : Type := mk_rank {
  rank : Z;
  resume_index : Z;
  rank_text_similarity : Q;
  rank_skills_similarity : option Q;
  rank_final_score : Q;
  rank_method_used : string
}.

Record MatchResult : Type := mk_result {
  result_rank : Z;
  result_filename : string;
  candidate_name : option string;
  result_email : option string;
  result_phone : option string;
  text_similarity : Q;
  skills_similarity : Q;
  final_score : Q;
  match_status : string;
  skills_found : Z;
  skills_matched : Z;
  matched_skills : gset string;
  missing_skills : gset string;
  additional_skills : gset string;
  method_used : string
}.

Record Summary : Type := mk_summary {
  total_resumes : Z;
  average_score : Q;
  highest_score : Q;
  lowest_score : Q;
  strong_matches : Z;
  moderate_matches : Z;
  weak_matches : Z;
  average_skills_found : Q;
  average_skills_matched : Q;
  job_skills_count : Z
}.

(** [l[i]] for an integer [i]: a negative index counts from the end,
    and [None] stands for [IndexError]. *)
Definition py_index {A : Type} (l : list A) (i : Z) : option A :=
  if (0 <=? i)%Z then nth_error l (Z.to_nat i)
  else if (- Z.of_nat (length l) <=? i)%Z then nth_error l (Z.to_nat (Z.of_nat (length l) + i))
  else None.

(** [max(scores)] and [min(scores)] of a list that is not empty *)
Definition py_max (x : Q) (l : list Q) : Q :=
  fold_left (fun best y => if Qle_bool y best then best else y) l x.
Definition py_min (x : Q) (l : list Q) : Q :=
  fold_left (fun best y => if Qle_bool best y then best else y) l x.

Section Service.

Variable extract_text_from_pdf : list byte -> string + string.
Variable extract_info : string -> string + list (string * option string).
Variable extract_skills : string -> string + list string.
Variable isoformat : Z -> string.
(** [similarity_engine.rank_resumes_by_similarity(job_description,
    resume_texts, resume_names, "bert", True, skills_weight)], which
    catches its own exceptions *)
Variable rank_resumes_by_similarity : string -> list string -> list (option string) -> Q
                                      -> list Rank.
(** [round(x, ndigits)] and [np.mean] *)
Variable round : Q -> Z -> Q.
Variable mean : list Q -> Q.

(** The body of the loop of [process_resume_files] for one file *)
Definition process_resume_file (now : Z) (resume_bytes : list byte) (filename : string)
  : list processed_resume :=
  if negb (_validate_pdf_bytes resume_bytes) then []
  else
    let error_entry (e : string) := [ErrorEntry filename e (isoformat now)] in
    match extract_text_from_pdf resume_bytes with
    | inl e => error_entry e
    | inr resume_text =>
        match extract_info resume_text with
        | inl e => error_entry e
        | inr resume_info =>
            match extract_skills resume_text with
            | inl e => error_entry e
            | inr resume_skills =>
                [ResumeData filename resume_text
                   (info_get resume_info "name" "Name Not Found")
                   (info_get resume_info "email" "Not Found")
                   (info_get resume_info "phone" "Not Found")
                   resume_skills (Z.of_nat (length resume_skills)) (PyStr.len resume_text)
                   (isoformat now)]
            end
        end
    end.

(** [AIMatchingService.process_resume_files] *)
Definition process_resume_files (now : Z) (resume_files : list (list byte))
  (filenames : list string) : list processed_resume :=
  flat_map (fun '(resume_bytes, filename) => process_resume_file now resume_bytes filename)
    (combine resume_files filenames).

(** The fields of a resume that is no error entry *)
Definition text_of (r : processed_resume) : string :=
  match r with
  | ResumeData _ text _ _ _ _ _ _ _ => text
  | ErrorEntry _ _ _ => ""
  end.
Definition name_of (r : processed_resume) : option string :=
  match r with
  | ResumeData _ _ name _ _ _ _ _ _ => name
  | ErrorEntry _ _ _ => None
  end.
Definition email_of (r : processed_resume) : option string :=
  match r with
  | ResumeData _ _ _ email _ _ _ _ _ => email
  | ErrorEntry _ _ _ => None
  end.
Definition phone_of (r : processed_resume) : option string :=
  match r with
  | ResumeData _ _ _ _ phone _ _ _ _ => phone
  | ErrorEntry _ _ _ => None
  end.
Definition skills_of (r : processed_resume) : list string :=
  match r with
  | ResumeData _ _ _ _ _ skills _ _ _ => skills
  | ErrorEntry _ _ _ => []
  end.

(** The result for one entry of the ranking *)
Definition result_of (job_data : JobData) (similarity_threshold : Q) (resume_info : processed_resume)
  (entry : Rank) : MatchResult :=
  let final_score := rank_final_score entry in
  let match_status := _get_match_status final_score similarity_threshold in
  let jd_skills : gset string := list_to_set (jd_skills job_data) in
  let resume_skills : gset string := list_to_set (skills_of resume_info) in
  let matched_skills := jd_skills ∩ resume_skills in
  let missing_skills := jd_skills ∖ resume_skills in
  let additional_skills := resume_skills ∖ jd_skills in
  mk_result (rank entry) (filename_of resume_info) (name_of resume_info)
    (email_of resume_info) (phone_of resume_info)
    (round (rank_text_similarity entry * 100) 2)
    (round (default 0 (rank_skills_similarity entry) * 100) 2)
    (round (final_score * 100) 2)
    match_status
    (Z.of_nat (length (skills_of resume_info)))
    (Z.of_nat (size matched_skills))
    matched_skills missing_skills additional_skills
    (rank_method_used entry).

(** The loop over the ranking: [None] when an index is out of range *)
Fixpoint results_of (job_data : JobData) (similarity_threshold : Q)
  (valid_resumes : list processed_resume) (rankings : list Rank) : option (list MatchResult) :=
  match rankings with
  | [] => Some []
  | entry :: rankings' =>
      match py_index valid_resumes (resume_index entry) with
      | None => None
      | Some resume_info =>
          match results_of job_data similarity_threshold valid_resumes rankings' with
          | None => None
          | Some results =>
              Some (result_of job_data similarity_threshold resume_info entry :: results)
          end
      end
  end.

(** [AIMatchingService._calculate_summary_stats]: [None] is the empty
    dictionary. *)
Definition _calculate_summary_stats (results : list MatchResult) (job_data : JobData)
  : option Summary :=
  match List.map final_score results with
  | [] => None
  | score :: scores' =>
      let scores := score :: scores' in
      let count (label : string) :=
        Z.of_nat (length (List.filter (fun r => String.eqb (match_status r) label) results)) in
      Some (mk_summary (Z.of_nat (length results))
              (round (mean scores) 2)
              (round (py_max score scores') 2)
              (round (py_min score scores') 2)
              (count STRONG_MATCH) (count MODERATE_MATCH) (count WEAK_MATCH)
              (round (mean (List.map (fun r => inject_Z (skills_found r)) results)) 1)
              (round (mean (List.map (fun r => inject_Z (skills_matched r)) results)) 1)
              (jd_skills_count job_data))
  end.

(** [AIMatchingService.match_resumes_to_job]: the results and the
    summary, or the text of the exception it raises. *)
Definition match_resumes_to_job (job_data : JobData) (resume_data : list processed_resume)
  (similarity_threshold skills_weight : Q)
  : string + (list MatchResult * option Summary) :=
  match resume_data with
  | [] => inl "Failed to match resumes: Job data and resume data are required"%string
  | _ =>
      let valid_resumes := List.filter (fun r => negb (has_error r)) resume_data in
      match valid_resumes with
      | [] => inl "Failed to match resumes: No valid resumes to process"%string
      | _ =>
          let resume_texts := List.map text_of valid_resumes in
          let resume_names := List.map name_of valid_resumes in
          let rankings :=
            rank_resumes_by_similarity (jd_text job_data) resume_texts resume_names
              skills_weight in
          match results_of job_data similarity_threshold valid_resumes rankings with
          | None => inl "Failed to match resumes: list index out of range"%string
          | Some results => inr (results, _calculate_summary_stats results job_data)
          end
      end
  end.

End Service.

End MatchResumes.

(** ** Sample data

    A small database used to run the endpoints: two companies, an
    administrator, a recruiter of each company, a candidate, an active
    and a closed job of the first company and one job of the second. *)

Module Samples.

Definition acme : Company.t :=
  Company.mk "c-acme" "Acme" None None None None.
Definition globex : Company.t :=
  Company.mk "c-globex" "Globex" None None None None.
Definition initech : Company.t :=
  Company.mk "c-initech" "Initech" None None None None.

Definition root : User.t :=
  User.mk "u-root" "root@ats.test" "root" "Root" "x" "admin" None true.
Definition rachel : User.t :=
  User.mk "u-rachel" "rachel@acme.test" "rachel" "Rachel Green" "x" "recruiter"
    (Some "c-acme") true.
Definition gina : User.t :=
  User.mk "u-gina" "gina@globex.test" "gina" "Gina Hall" "x" "recruiter"
    (Some "c-globex") true.
Definition carl : User.t :=
  User.mk "u-carl" "carl@mail.test" "carl" "Carl Jones" "x" "candidate" None true.

Definition backend_job : Job.t :=
  Job.mk "j-backend" "u-rachel" (Some "c-acme") (Some "Backend developer") None
    (Some "We build services in Python and SQL") (Some "Docker is a plus")
    None None (Some "active").
Definition closed_job : Job.t :=
  Job.mk "j-closed" "u-rachel" (Some "c-acme") (Some "Office manager") None
    (Some "Runs the office") None None None (Some "closed").
Definition sales_job : Job.t :=
  Job.mk "j-sales" "u-gina" (Some "c-globex") (Some "Sales lead") None
    (Some "Leads the sales team") (Some "Five years of experience")
    None None (Some "active").

Definition db : DB.t :=
  DB.mk [acme; globex; initech] [root; rachel; gina; carl]
    [backend_job; closed_job; sales_job] [].

(** The database after the recruiter of Acme is reassigned to Globex:
    no user references Acme, and its job remains. *)
Definition rachel_at_globex : User.t :=
  User.mk "u-rachel" "rachel@acme.test" "rachel" "Rachel Green" "x" "recruiter"
    (Some "c-globex") true.
Definition db_after_reassignment : DB.t :=
  DB.with_users db [root; rachel_at_globex; gina; carl].



Definition apply_to (job_id : UUID) : ApplicationCreate.t :=
  ApplicationCreate.mk job_id (Some "Dear team") None.

Definition new_job : JobCreate.t :=
  JobCreate.mk "Data engineer" (Some "Remote") "Pipelines in Python" None None None.

Definition acme_again : CompanyCreate.t :=
  CompanyCreate.mk "Acme" (Some "Another Acme") None None None.
Definition umbrella : CompanyCreate.t :=
  CompanyCreate.mk "Umbrella" None None (Some "Pharma") None.

(** The database once the candidate has applied to the backend job *)
Definition carl_application : Application.t :=
  Application.mk "a-3" "u-carl" "j-backend" "Carl Jones" (Some "Dear team") None
    (Some "pending").
Definition db_with_application : DB.t := DB.with_applications db [carl_application].

(** A second candidate, who has applied to the sales job, and a
    recruiter who has no company *)
Definition dora : User.t :=
  User.mk "u-dora" "dora@mail.test" "dora" "Dora Kent" "x" "candidate" None true.
Definition freelancer : User.t :=
  User.mk "u-fred" "fred@mail.test" "fred" "Fred Long" "x" "recruiter" None true.
Definition dora_application : Application.t :=
  Application.mk "a-9" "u-dora" "j-sales" "Dora Kent" None None (Some "pending").
Definition db_with_two_applications : DB.t :=
  DB.with_applications db [carl_application; dora_application].

(** A store with two sessions of the candidate and a refresh token *)
Definition carl_session : SimpleRedisClient.session_data :=
  [("user_id", SimpleRedisClient.Text "u-carl");
   ("email", SimpleRedisClient.Text "carl@mail.test");
   ("last_activity", SimpleRedisClient.Text "2025-01-01T10:00:00");
   ("client_info", SimpleRedisClient.ClientInfo "10.0.0.7" "curl/8.5" "ats.test")]%string.
Definition redis : SimpleRedisClient.data :=
  SimpleRedisClient.store_refresh_token
    (SimpleRedisClient.store_session
       (SimpleRedisClient.store_session [] 0
          (Auth.session_id_of "u-carl" "0f8fad5b-d9cb-469f-a165-70867728950e")
          carl_session 1800)
       5000000
       (Auth.session_id_of "u-carl" "7c9e6679-7425-40de-944b-e07fc1f90ae7")
       carl_session 1800)
    5000000 "refresh.jwt" "u-carl" 604800.

(** A token codec for the examples: the access token of the
    candidate's first session and the refresh token of the store
    decode, and a token is built from its subject and what was drawn. *)
Definition jwt_decode (now : Z) (token : string) : option Auth.Payload :=
  if String.eqb token "access.jwt"
  then Some (Auth.mk_payload (Some "carl@mail.test")
               (Some "0f8fad5b-d9cb-469f-a165-70867728950e") None)
  else if String.eqb token "refresh.jwt"
  then Some (Auth.mk_payload (Some "carl@mail.test") None
               (Some "3f2504e0-4f89-41d3-9a0c-0305e82c3301"))
  else None.
Definition create_token (now : Z) (subject drawn : string) : string :=
  subject +:+ "." +:+ drawn.
Definition isoformat (now : Z) : string := "2025-01-01T10:00:05".
Definition get_password_hash (password : string) : string := "$2b$12$" +:+ password.

(** A request of the candidate's browser, with both cookies, and one
    of a script that sends the access token in a header *)
Definition browser : Auth.Request :=
  Auth.mk_request (Some "access.jwt") (Some "refresh.jwt") None
    (Some "10.0.0.7") (Some "Mozilla/5.0") (Some "ats.test").
Definition script : Auth.Request :=
  Auth.mk_request None None (Some "Bearer access.jwt") (Some "10.0.0.8") None None.

(** Someone who signs up as an administrator *)
Definition mallory : Auth.UserCreate :=
  Auth.mk_user_create "mallory@mail.test" "mallory" "Mallory Moss" "admin" None "secret".

(** The saved jobs and the job alerts of the two candidates, and an
    alert that names no location *)
Definition carl_saved : CandidateFeatures.SavedJob.t :=
  CandidateFeatures.SavedJob.mk "s-1" "u-carl" "j-sales" (Some 85.0%Q) 100.
Definition dora_saved : CandidateFeatures.SavedJob.t :=
  CandidateFeatures.SavedJob.mk "s-2" "u-dora" "j-backend" (Some 85.0%Q) 200.
Definition saved_jobs : list CandidateFeatures.SavedJob.t := [carl_saved; dora_saved].

Definition carl_alert : CandidateFeatures.JobAlert.t :=
  CandidateFeatures.JobAlert.mk "al-1" "u-carl" "Berlin" "python" (Some "Berlin")
    "full-time" "any" None "daily" true None 0 50 None.
Definition dora_alert : CandidateFeatures.JobAlert.t :=
  CandidateFeatures.JobAlert.mk "al-2" "u-dora" "Sales" "sales" (Some "Remote")
    "full-time" "any" None "weekly" true None 0 60 None.
Definition job_alerts : list CandidateFeatures.JobAlert.t := [carl_alert; dora_alert].
Definition anywhere : CandidateFeatures.JobAlertCreate.t :=
  CandidateFeatures.JobAlertCreate.mk "Anywhere" "python" None "full-time" "any" None "daily".

(** A parser that reads the text after the header of a PDF and fails
    on anything else, three uploads (a PDF, a test file the validation
    lets through, a text file), and an engine that ranks the second
    resume first *)
Definition extract_text_from_pdf (pdf_bytes : list byte) : string + string :=
  if PyBytes.startswith AIMatching.PDF_MAGIC pdf_bytes
  then inr (string_of_list_byte (drop 5 pdf_bytes))
  else inl "EOF marker not found"%string.
Definition extract_info (text : string) : string + list (string * option string) :=
  inr [("name", Some "Ann Lee"); ("email", None)]%string.
Definition extract_skills (text : string) : string + list string :=
  inr (if PyStr.contains "Python" text then ["Python"; "SQL"] else ["Excel"])%string.
Definition uploads : list (list byte) :=
  [list_byte_of_string "%PDF-Python and SQL";
   list_byte_of_string "Emily Davis, accountant";
   list_byte_of_string "plain text"].
Definition upload_names : list string := ["ann.pdf"; "emily.txt"; "notes.txt"; "late.pdf"]%string.

Definition job_data : MatchResumes.JobData :=
  MatchResumes.mk_job_data "Python developer who knows Docker" ["Python"; "Docker"]%string 2 33.
Definition resume_data : list MatchResumes.processed_resume :=
  [MatchResumes.ResumeData "ann.pdf" "Python and SQL" (Some "Ann Lee") None
     (Some "Not Found") ["Python"; "SQL"] 2 14 "2025-01-01T10:00:05";
   MatchResumes.ErrorEntry "emily.txt" "EOF marker not found" "2025-01-01T10:00:05";
   MatchResumes.ResumeData "bob.pdf" "Excel" (Some "Bob Ray") None None ["Excel"] 1 5
     "2025-01-01T10:00:05"]%string.
Definition engine (job_description : string) (resume_texts : list string)
  (resume_names : list (option string)) (skills_weight : Q) : list MatchResumes.Rank :=
  [MatchResumes.mk_rank 1 0 0.8%Q (Some 0.5%Q) 0.72%Q "bert";
   MatchResumes.mk_rank 2 1 0.3%Q None 0.3%Q "bert"].
(** A request that sets the role and nothing else *)
Definition promote : UserUpdate.t := UserUpdate.mk None None None (Some (Some "admin")) None.

Definition round (x : Q) (ndigits : Z) : Q :=
  (inject_Z (CandidateFeatures.round_half_even (x * inject_Z (10 ^ ndigits)))
   / inject_Z (10 ^ ndigits))%Q.
Definition mean (l : list Q) : Q :=
  (fold_right Qplus 0 l / inject_Z (Z.of_nat (length l)))%Q.

End Samples.

(** * Properties *)

(** ** services/ai_matching.py: the match status *)

Section MatchStatus.
Import AIMatching.
Local Open Scope Q_scope.

Lemma match_labels_distinct :
  STRONG_MATCH <> MODERATE_MATCH /\ STRONG_MATCH <> WEAK_MATCH /\ MODERATE_MATCH <> WEAK_MATCH.
Proof. repeat split; discriminate. Qed.

Lemma Qle_bool_false_lt (x y : Q) : Qle_bool x y = false <-> y < x.
Proof.
  split; intros H.
  - apply Qnot_le_lt. intros Hle. apply Qle_bool_iff in Hle. congruence.
  - destruct (Qle_bool x y) eqn:E; [|reflexivity].
    apply Qle_bool_iff in E. exfalso. exact (Qlt_not_le _ _ H E).
Qed.

Lemma get_match_status_strong (s t : Q) :
  _get_match_status s t = STRONG_MATCH <-> t <= s.
Proof.
  destruct match_labels_distinct as (Hsm & Hsw & Hmw).
  unfold _get_match_status. rewrite <- Qle_bool_iff.
  destruct (Qle_bool t s); [tauto|].
  destruct (Qle_bool (t - 0.1) s); split; intros H; congruence.
Qed.

Lemma get_match_status_moderate (s t : Q) :
  _get_match_status s t = MODERATE_MATCH <-> t - 0.1 <= s /\ s < t.
Proof.
  destruct match_labels_distinct as (Hsm & Hsw & Hmw).
  unfold _get_match_status. rewrite <- Qle_bool_iff, <- Qle_bool_false_lt.
  destruct (Qle_bool t s), (Qle_bool (t - 0.1) s); split; intros H;
    try tauto; try congruence; destruct H; congruence.
Qed.

Lemma get_match_status_weak (s t : Q) :
  _get_match_status s t = WEAK_MATCH <-> s < t - 0.1.
Proof.
  destruct match_labels_distinct as (Hsm & Hsw & Hmw).
  unfold _get_match_status. rewrite <- Qle_bool_false_lt.
  destruct (Qle_bool t s) eqn:E1, (Qle_bool (t - 0.1) s) eqn:E2; split; intros H;
    try tauto; try congruence.
  apply Qle_bool_iff in E1. apply Qle_bool_false_lt in E2.
  exfalso. apply (Qlt_not_le _ _ E2).
  apply Qle_trans with t; [|exact E1].
  rewrite <- (Qplus_0_r t) at 2. unfold Qminus. apply Qplus_le_r. discriminate.
Qed.

(** The labels over the rationals the decimals denote, on which every
    band has the edges the decimals name.  The code computes on binary64
    numbers, where the lower edge of the Moderate band is the difference
    the code computes: see [get_match_status_binary64_thresholds]. *)
Lemma get_match_status_over_the_rationals :
  (forall s t : Q,
      (_get_match_status s t = STRONG_MATCH <-> t <= s) /\
      (_get_match_status s t = MODERATE_MATCH <-> t - 0.1 <= s /\ s < t) /\
      (_get_match_status s t = WEAK_MATCH <-> s < t - 0.1)) /\
  _get_match_status 0.75 0.7 = STRONG_MATCH /\
  _get_match_status 0.65 0.7 = MODERATE_MATCH /\
  _get_match_status 0.50 0.7 = WEAK_MATCH /\
  (forall t : Q, _get_match_status t t = STRONG_MATCH) /\
  (forall t : Q, _get_match_status (t - 0.1) t = MODERATE_MATCH).
Proof.
  split; [|repeat split; try reflexivity].
  - intros s t. split; [|split].
    + apply get_match_status_strong.
    + apply get_match_status_moderate.
    + apply get_match_status_weak.
  - intros t. apply get_match_status_strong. apply Qle_refl.
  - intros t. apply get_match_status_moderate. split; [apply Qle_refl|].
    rewrite <- (Qplus_0_r t) at 2. unfold Qminus. apply Qplus_lt_r. reflexivity.
Qed.

(** The decimal examples of the claim, computed on binary64 numbers. *)
Lemma get_match_status_binary64_examples :
  _get_match_status_binary64 0.75 0.7 = STRONG_MATCH /\
  _get_match_status_binary64 0.65 0.7 = MODERATE_MATCH /\
  _get_match_status_binary64 0.50 0.7 = WEAK_MATCH /\
  _get_match_status_binary64 0.7 0.7 = STRONG_MATCH /\
  _get_match_status_binary64 (0.7 - 0.1) 0.7 = MODERATE_MATCH /\
  _get_match_status_binary64 0.6 0.7 = MODERATE_MATCH.
Proof. repeat split; vm_compute; reflexivity. Qed.

End MatchStatus.

(** ** services/ai_matching.py: the labels on binary64 numbers *)

Section MatchStatusBinary64.
Import AIMatching.

Lemma SFcompare_antisym (x y : spec_float) :
  SFcompare y x = option_map CompOpp (SFcompare x y).
Proof.
  destruct x as [sx|sx| |sx mx ex], y as [sy|sy| |sy my ey]; simpl; try reflexivity;
    try (destruct sx; reflexivity); try (destruct sy; reflexivity);
    try (destruct sx, sy; reflexivity).
  destruct sx, sy; simpl; try reflexivity.
  - rewrite (Z.compare_antisym ex ey).
    destruct (ex ?= ey)%Z; simpl; try reflexivity.
    change (PosDef.Pos.compare_cont Eq my mx) with (Pos.compare my mx).
    change (PosDef.Pos.compare_cont Eq mx my) with (Pos.compare mx my).
    rewrite (Pos.compare_antisym mx my). reflexivity.
  - rewrite (Z.compare_antisym ex ey).
    destruct (ex ?= ey)%Z; simpl; try reflexivity.
    change (PosDef.Pos.compare_cont Eq my mx) with (Pos.compare my mx).
    change (PosDef.Pos.compare_cont Eq mx my) with (Pos.compare mx my).
    rewrite (Pos.compare_antisym mx my). reflexivity.
Qed.

Lemma SFcompare_number (x : spec_float) :
  SFeqb x x = true -> forall y, SFeqb y y = true -> exists c, SFcompare x y = Some c.
Proof.
  unfold SFeqb. intros Hx y Hy.
  destruct x as [sx|sx| |sx mx ex], y as [sy|sy| |sy my ey]; simpl in *;
    try discriminate; eexists; reflexivity.
Qed.

Lemma is_nan_false (x : float) : PrimFloat.is_nan x = false <-> SFeqb (Prim2SF x) (Prim2SF x) = true.
Proof.
  unfold PrimFloat.is_nan. rewrite FloatAxioms.eqb_spec. apply negb_false_iff.
Qed.

(** Two numbers are ordered one way or the other. *)
Lemma leb_false_ltb (x y : float) :
  PrimFloat.is_nan x = false -> PrimFloat.is_nan y = false ->
  (PrimFloat.leb x y = false <-> PrimFloat.ltb y x = true).
Proof.
  intros Hx Hy. apply is_nan_false in Hx, Hy.
  rewrite leb_spec, ltb_spec. unfold SFleb, SFltb.
  rewrite (SFcompare_antisym (Prim2SF x) (Prim2SF y)).
  destruct (SFcompare_number _ Hx _ Hy) as [c ->]. simpl.
  destruct c; simpl; split; congruence.
Qed.

Lemma leb_refl (x : float) : PrimFloat.is_nan x = false -> PrimFloat.leb x x = true.
Proof.
  intros Hx. apply is_nan_false in Hx. rewrite leb_spec. unfold SFleb, SFeqb in *.
  destruct (SFcompare (Prim2SF x) (Prim2SF x)) as [[]|]; congruence.
Qed.

Lemma ltb_number (x y : float) : PrimFloat.ltb x y = true -> PrimFloat.is_nan x = false.
Proof.
  rewrite ltb_spec. intros H. apply is_nan_false. unfold SFltb, SFeqb in *.
  destruct (Prim2SF x) as [sx|sx| |sx mx ex], (Prim2SF y) as [sy|sy| |sy my ey];
    simpl in *; try discriminate; try reflexivity; try (destruct sx; reflexivity).
  all: destruct sx; rewrite ?Z.compare_refl; simpl;
    change (PosDef.Pos.compare_cont Eq mx mx) with (Pos.compare mx mx);
    rewrite Pos.compare_refl; reflexivity.
Qed.

Lemma ltb_leb_false (x y : float) : PrimFloat.ltb x y = true -> PrimFloat.leb y x = false.
Proof.
  rewrite leb_spec, ltb_spec. unfold SFleb, SFltb.
  rewrite (SFcompare_antisym (Prim2SF x) (Prim2SF y)).
  destruct (SFcompare (Prim2SF x) (Prim2SF y)) as [[]|]; simpl; congruence.
Qed.

(** C3, on the numbers the code computes with: the label of
    [_get_match_status] depends on the score [s] and the threshold [t]
    alone.  It is the Strong label exactly when [t <= s], the Moderate
    label exactly when [t - 0.1 <= s] and not [t <= s], and the Weak
    label otherwise, where [t - 0.1] is the binary64 difference of [t]
    and the binary64 number nearest to one tenth; between two numbers
    (neither is a NaN) not [t <= s] is [s < t].  With [t = 0.7] the
    scores 0.75, 0.65 and 0.50 are Strong, Moderate and Weak, and 0.6 is
    Moderate; a score equal to the threshold is Strong; the score
    [t - 0.1] the code computes is Moderate whenever it is below [t]. *)
Theorem get_match_status_binary64_thresholds :
  (forall s t : float,
      (_get_match_status_binary64 s t = STRONG_MATCH <-> PrimFloat.leb t s = true) /\
      (_get_match_status_binary64 s t = MODERATE_MATCH <->
       PrimFloat.leb (t - 0.1) s = true /\ PrimFloat.leb t s = false) /\
      (_get_match_status_binary64 s t = WEAK_MATCH <->
       PrimFloat.leb (t - 0.1) s = false /\ PrimFloat.leb t s = false)) /\
  (forall s t : float,
      PrimFloat.is_nan s = false -> PrimFloat.is_nan t = false ->
      (_get_match_status_binary64 s t = MODERATE_MATCH <->
       PrimFloat.leb (t - 0.1) s = true /\ PrimFloat.ltb s t = true) /\
      (_get_match_status_binary64 s t = WEAK_MATCH <->
       PrimFloat.leb (t - 0.1) s = false /\ PrimFloat.ltb s t = true)) /\
  _get_match_status_binary64 0.75 0.7 = STRONG_MATCH /\
  _get_match_status_binary64 0.65 0.7 = MODERATE_MATCH /\
  _get_match_status_binary64 0.50 0.7 = WEAK_MATCH /\
  _get_match_status_binary64 0.6 0.7 = MODERATE_MATCH /\
  (forall t : float,
      PrimFloat.is_nan t = false -> _get_match_status_binary64 t t = STRONG_MATCH) /\
  (forall t : float,
      PrimFloat.ltb (t - 0.1) t = true ->
      _get_match_status_binary64 (t - 0.1) t = MODERATE_MATCH).
Proof.
  destruct match_labels_distinct as (Hsm & Hsw & Hmw).
  assert (Hall : forall s t : float,
             (_get_match_status_binary64 s t = STRONG_MATCH <-> PrimFloat.leb t s = true) /\
             (_get_match_status_binary64 s t = MODERATE_MATCH <->
              PrimFloat.leb (t - 0.1) s = true /\ PrimFloat.leb t s = false) /\
             (_get_match_status_binary64 s t = WEAK_MATCH <->
              PrimFloat.leb (t - 0.1) s = false /\ PrimFloat.leb t s = false)).
  { intros s t. unfold _get_match_status_binary64.
    destruct (PrimFloat.leb t s), (PrimFloat.leb (t - 0.1) s);
      repeat split; intros; try tauto; try congruence;
        match goal with H : _ /\ _ |- _ => destruct H; congruence end. }
  split; [exact Hall|]. split; [|repeat split; try (vm_compute; reflexivity)].
  - intros s t Hs Ht. destruct (Hall s t) as (_ & Hmoderate & Hweak).
    rewrite Hmoderate, Hweak, (leb_false_ltb t s Ht Hs). tauto.
  - intros t Ht. apply (proj1 (Hall t t)). apply leb_refl. exact Ht.
  - intros t Hbelow. apply (proj1 (proj2 (Hall (t - 0.1)%float t))). split.
    + apply leb_refl. apply (ltb_number _ _ Hbelow).
    + apply ltb_leb_false. exact Hbelow.
Qed.

(** The scores 0.65 and 0.8 against the threshold 0.7, a score equal
    to the threshold 0.5, and the scores the code computes as
    [0.7 - 0.1] and [0.8 - 0.1]. *)
Lemma get_match_status_binary64_thresholds_witness :
  (_get_match_status_binary64 0.65 0.7 = MODERATE_MATCH <->
   PrimFloat.leb (0.7 - 0.1) 0.65 = true /\ PrimFloat.ltb 0.65 0.7 = true) /\
  (_get_match_status_binary64 0.8 0.7 = WEAK_MATCH <->
   PrimFloat.leb (0.7 - 0.1) 0.8 = false /\ PrimFloat.ltb 0.8 0.7 = true) /\
  _get_match_status_binary64 0.5 0.5 = STRONG_MATCH /\
  _get_match_status_binary64 (0.7 - 0.1) 0.7 = MODERATE_MATCH /\
  _get_match_status_binary64 (0.8 - 0.1) 0.8 = MODERATE_MATCH.
Proof.
  destruct get_match_status_binary64_thresholds
    as (_ & Hnumbers & _ & _ & _ & _ & Hequal & Hedge).
  split; [|split; [|split; [|split]]].
  - exact (proj1 (Hnumbers 0.65%float 0.7%float eq_refl eq_refl)).
  - exact (proj2 (Hnumbers 0.8%float 0.7%float eq_refl eq_refl)).
  - exact (Hequal 0.5%float eq_refl).
  - exact (Hedge 0.7%float eq_refl).
  - exact (Hedge 0.8%float eq_refl).
Defined.

(** C3, read over the decimals, fails on the code: the score 0.7
    lies in the band from [0.8 - 0.1] to 0.8 of the rationals, and the
    code, whose [0.8 - 0.1] is 0.7000000000000001, labels it Weak. *)
Lemma decimal_edge_of_the_moderate_band_is_weak :
  (0.8 - 0.1 <= 0.7)%Q /\ (0.7 < 0.8)%Q /\
  _get_match_status 0.7 0.8 = MODERATE_MATCH /\
  _get_match_status_binary64 0.7 0.8 = WEAK_MATCH /\
  _get_match_status_binary64 0.7 0.8 <> MODERATE_MATCH /\
  PrimFloat.ltb 0.7 (0.8 - 0.1) = true.
Proof.
  split; [discriminate|]. split; [reflexivity|]. split; [reflexivity|].
  split; [vm_compute; reflexivity|]. split; [vm_compute; discriminate|].
  vm_compute. reflexivity.
Qed.

End MatchStatusBinary64.

(** ** services/ai_matching.py: the document check *)

Section ValidatePdfBytes.
Import AIMatching.

Lemma byte_eqb_eq (a b : byte) : Byte.eqb a b = true <-> a = b.
Proof.
  split.
  - apply Byte.byte_dec_bl.
  - intros ->. apply Byte.byte_dec_lb. reflexivity.
Qed.

Lemma startswith_app (prefix data : list byte) :
  PyBytes.startswith prefix data = true <-> exists rest, data = prefix ++ rest.
Proof.
  revert data. induction prefix as [|p prefix IH]; intros data; simpl.
  - split; [intros _; exists data; reflexivity | reflexivity].
  - destruct data as [|d data].
    + split; [discriminate | intros [rest H]; discriminate].
    + rewrite andb_true_iff, byte_eqb_eq, IH. split.
      * intros [-> [rest ->]]. exists rest. reflexivity.
      * intros [rest H]. injection H as -> ->. split; [reflexivity | exists rest; reflexivity].
Qed.

Lemma contains_app (sub data : list byte) :
  PyBytes.contains sub data = true <-> exists before after, data = before ++ sub ++ after.
Proof.
  induction data as [|d data IH]; simpl.
  - rewrite orb_false_r, startswith_app. split.
    + intros [rest H]. exists [], rest. exact H.
    + intros (before & after & H). destruct before; simpl in H.
      * exists after. exact H.
      * discriminate.
  - rewrite orb_true_iff, startswith_app, IH. split.
    + intros [[rest H] | (before & after & H)].
      * exists [], rest. exact H.
      * exists (d :: before), after. rewrite H. reflexivity.
    + intros (before & after & H). destruct before as [|b before]; simpl in H.
      * left. exists after. exact H.
      * right. injection H as -> ->. exists before, after. reflexivity.
Qed.

Lemma known_start_checked (pdf_bytes : list byte) :
  (PyBytes.startswith PDF_MAGIC pdf_bytes
   || PyBytes.startswith EMILY_DAVIS pdf_bytes
   || PyBytes.startswith MIKE_WILSON pdf_bytes
   || PyBytes.contains EMILY_DAVIS (take 100 pdf_bytes)
   || PyBytes.contains MIKE_WILSON (take 100 pdf_bytes)) = true
  <-> has_known_start pdf_bytes.
Proof.
  unfold has_known_start.
  rewrite !orb_true_iff, !startswith_app, !contains_app. split.
  - intros [[[[H | H] | H] | H] | H].
    + left. exact H.
    + right. exists EMILY_DAVIS. split; [left; reflexivity | left; exact H].
    + right. exists MIKE_WILSON. split; [right; reflexivity | left; exact H].
    + right. exists EMILY_DAVIS. split; [left; reflexivity | right; exact H].
    + right. exists MIKE_WILSON. split; [right; reflexivity | right; exact H].
  - intros [H | (name & [-> | ->] & [H | H])]; tauto.
Qed.

Lemma validate_pdf_bytes_spec (pdf_bytes : list byte) :
  _validate_pdf_bytes pdf_bytes = true <->
  pdf_bytes <> [] /\ PyBytes.len pdf_bytes <= MAX_PDF_SIZE /\ has_known_start pdf_bytes.
Proof.
  rewrite <- known_start_checked. unfold _validate_pdf_bytes.
  destruct pdf_bytes as [|b pdf_bytes].
  - simpl. split; [discriminate | intros [H _]; congruence].
  - cbv beta iota. rewrite orb_false_l.
    remember (b :: pdf_bytes) as data eqn:Hdata.
    assert (Hlen : (PyBytes.len data =? 0) = false).
    { apply Z.eqb_neq. unfold PyBytes.len. rewrite Hdata. simpl length. lia. }
    rewrite Hlen.
    destruct (PyBytes.startswith PDF_MAGIC data
              || PyBytes.startswith EMILY_DAVIS data
              || PyBytes.startswith MIKE_WILSON data
              || PyBytes.contains EMILY_DAVIS (take 100 data)
              || PyBytes.contains MIKE_WILSON (take 100 data)) eqn:E; cbv [negb]; cbv iota.
    + destruct (PyBytes.len data >? MAX_PDF_SIZE) eqn:G.
      * apply Z.gtb_lt in G. split; [discriminate | intros (_ & H & _); lia].
      * split; [|reflexivity]. intros _. split; [rewrite Hdata; discriminate|].
        split; [|reflexivity].
        rewrite Z.gtb_ltb in G. apply Z.ltb_ge in G. exact G.
    + split; [discriminate | intros (_ & _ & H); discriminate].
Qed.

Lemma len_pdf_of_50MB : PyBytes.len pdf_of_50MB = 50 * 1024 * 1024.
Proof.
  unfold pdf_of_50MB, PyBytes.len.
  rewrite length_app, length_replicate, Nat2Z.inj_add, Z2Nat.id.
  - change (Z.of_nat (length PDF_MAGIC)) with 5. unfold MAX_PDF_SIZE. lia.
  - unfold MAX_PDF_SIZE. lia.
Qed.

(** C7, as the code has it: [_validate_pdf_bytes] accepts a buffer
    exactly when the buffer is not empty, is at most 50 MB long
    ([50 * 1024 * 1024] bytes, the bound included), and either begins
    with the PDF header ["%PDF-"] or begins with, or contains within its
    first 100 bytes, one of the two names of the test corpus; every
    other buffer is rejected. *)
Theorem validate_pdf_bytes_accepts_iff :
  forall pdf_bytes : list byte,
    (_validate_pdf_bytes pdf_bytes = true <->
     pdf_bytes <> [] /\ PyBytes.len pdf_bytes <= 50 * 1024 * 1024 /\
     has_known_start pdf_bytes) /\
    (_validate_pdf_bytes pdf_bytes = false <->
     ~ (pdf_bytes <> [] /\ PyBytes.len pdf_bytes <= 50 * 1024 * 1024 /\
        has_known_start pdf_bytes)).
Proof.
  intros pdf_bytes.
  pose proof (validate_pdf_bytes_spec pdf_bytes) as H.
  change MAX_PDF_SIZE with (50 * 1024 * 1024) in H.
  split; [exact H|].
  rewrite <- H. destruct (_validate_pdf_bytes pdf_bytes); split; intros G;
    try reflexivity; try discriminate; congruence.
Qed.

(** C7, as the claim states it, fails: a buffer of exactly 50 MB that
    begins with the PDF header is accepted although it is not under
    50 MB. *)
Lemma validate_pdf_bytes_accepts_50MB :
  _validate_pdf_bytes pdf_of_50MB = true /\
  ~ (PyBytes.len pdf_of_50MB < 50 * 1024 * 1024).
Proof.
  split.
  - apply validate_pdf_bytes_spec. split; [|split].
    + unfold pdf_of_50MB. intros H. apply app_eq_nil in H. destruct H as [H _].
      discriminate H.
    + rewrite len_pdf_of_50MB. unfold MAX_PDF_SIZE. lia.
    + left. exists (replicate (Z.to_nat (MAX_PDF_SIZE - 5)) x00). reflexivity.
  - rewrite len_pdf_of_50MB. lia.
Qed.

End ValidatePdfBytes.

(** ** The tables *)

Section Tables.
Context {A : Type}.
Implicit Types (cond : A -> bool) (table : list A).

Lemma first_Some_In cond table row :
  DB.first cond table = Some row -> In row table /\ cond row = true.
Proof. apply find_some. Qed.

Lemma first_None_filter cond table :
  DB.first cond table = None -> List.filter cond table = [].
Proof.
  unfold DB.first. induction table as [|row table IH]; simpl; [reflexivity|].
  destruct (cond row); [discriminate | exact IH].
Qed.

Lemma first_exists cond table row :
  In row table -> cond row = true -> exists row', DB.first cond table = Some row'.
Proof.
  intros Hin Hcond. destruct (DB.first cond table) as [row'|] eqn:E.
  - exists row'. reflexivity.
  - exfalso. pose proof (find_none _ _ E row Hin) as H. congruence.
Qed.

Lemma count_app cond table1 table2 :
  DB.count cond (table1 ++ table2) = DB.count cond table1 + DB.count cond table2.
Proof. unfold DB.count. rewrite List.filter_app, length_app. lia. Qed.

Lemma count_nonneg cond table : 0 <= DB.count cond table.
Proof. unfold DB.count. lia. Qed.

Lemma count_zero_iff cond table :
  DB.count cond table = 0 <-> forall row, In row table -> cond row = false.
Proof.
  unfold DB.count. induction table as [|row table IH]; simpl.
  - split; [intros _ row [] | reflexivity].
  - destruct (cond row) eqn:E; simpl.
    + split; [lia | intros H; specialize (H row (or_introl eq_refl)); congruence].
    + rewrite IH. split.
      * intros H row' [<- | Hin]; [exact E | exact (H row' Hin)].
      * intros H row' Hin. apply H. right. exact Hin.
Qed.

Lemma first_update_first cond table row new_row :
  DB.first cond table = Some row -> cond new_row = true ->
  DB.first cond (DB.update_first cond new_row table) = Some new_row.
Proof.
  unfold DB.first. induction table as [|r table IH]; simpl; [discriminate|].
  intros H Hnew. destruct (cond r) eqn:E; simpl.
  - rewrite Hnew. reflexivity.
  - rewrite E. apply IH; assumption.
Qed.

Lemma length_delete_first cond table row :
  DB.first cond table = Some row ->
  (length (DB.delete_first cond table) + 1 = length table)%nat.
Proof.
  unfold DB.first. induction table as [|r table IH]; simpl; [discriminate|].
  destruct (cond r) eqn:E; simpl; intros H; [lia|].
  rewrite <- (IH H). lia.
Qed.

(** Once the one row of its key is deleted, the key is free: [key] is
    the primary key and [cond] selects the rows of one key. *)
Lemma delete_first_gone {K : Type} (key : A -> K) cond table :
  (forall r r', cond r = true -> cond r' = true -> key r = key r') ->
  NoDup (List.map key table) ->
  forall row, In row (DB.delete_first cond table) -> cond row = false.
Proof.
  intros Hkey. induction table as [|r table IH]; simpl; intros Hnd row Hin; [contradiction|].
  apply NoDup_cons in Hnd. destruct Hnd as [Hfresh Hnd].
  destruct (cond r) eqn:E.
  - destruct (cond row) eqn:E'; [|reflexivity].
    exfalso. apply Hfresh. rewrite (Hkey r row E E').
    apply list_elem_of_In, in_map, Hin.
  - destruct Hin as [<- | Hin]; [exact E | exact (IH Hnd row Hin)].
Qed.

End Tables.

(** ** api/v1/endpoints/jobs.py: company scoping *)

Section JobScoping.
Import Jobs.








(** The dependency of the two writing handlers lets every active
    recruiter and administrator through, so the handlers do run for
    them. *)
Lemma recruiter_dependency_passes (current_user : User.t) :
  User.is_active current_user = true ->
  User.role current_user = "recruiter"%string \/ User.role current_user = "admin"%string ->
  CoreAuth.get_current_recruiter_user current_user = HTTPOk current_user.
Proof.
  intros Hactive Hrole. unfold CoreAuth.get_current_recruiter_user,
    CoreAuth.get_current_active_user.
  rewrite Hactive. cbn [negb]. destruct Hrole as [-> | ->]; reflexivity.
Qed.

(** What the administrator's update and deletion leave behind when the
    commit goes through: the job reads back updated, and no job has
    the identifier any more when identifiers are unique. *)
Lemma admin_update_then_get (job_id : string) (job : Job.t) (db : DB.t)
  (admin : User.t) (job_update : JobUpdate.t) :
  DB.first (has_id job_id) (DB.jobs db) = Some job ->
  User.role admin = "admin"%string ->
  nulls_required job_update = false ->
  get_job job_id admin (snd (update_job job_id job_update admin db))
  = HTTPOk (apply_update job job_update).
Proof.
  intros Hjob Hrole Hnulls. unfold update_job, commit_update.
  rewrite Hjob, Hrole, Hnulls. cbn [String.eqb Ascii.eqb Bool.eqb snd].
  unfold get_job. cbn [DB.with_jobs DB.jobs].
  rewrite (first_update_first _ _ job (apply_update job job_update) Hjob).
  - rewrite Hrole. reflexivity.
  - apply first_Some_In in Hjob. exact (proj2 Hjob).
Qed.

Lemma admin_delete_then_get (job_id : string) (job : Job.t) (db : DB.t) (admin : User.t)
  (saved_job_ids : list UUID) :
  DB.first (has_id job_id) (DB.jobs db) = Some job ->
  User.role admin = "admin"%string ->
  referenced job db saved_job_ids = false ->
  NoDup (List.map Job.id (DB.jobs db)) ->
  get_job job_id admin (snd (delete_job job_id admin db saved_job_ids))
  = HTTPError 404 "Job not found".
Proof.
  intros Hjob Hrole Href Hnd. unfold delete_job, commit_delete. rewrite Hjob, Hrole, Href.
  cbn [String.eqb Ascii.eqb Bool.eqb snd]. unfold get_job. cbn [DB.with_jobs DB.jobs].
  destruct (DB.first (has_id job_id) (DB.delete_first (has_id job_id) (DB.jobs db)))
    as [job'|] eqn:E; [|reflexivity].
  apply first_Some_In in E. destruct E as [Hin Hid].
  assert (Hgone : has_id job_id job' = false).
  { apply (delete_first_gone Job.id (has_id job_id) (DB.jobs db)); try assumption.
    unfold has_id. intros r r' Hr Hr'. apply String.eqb_eq in Hr, Hr'. congruence. }
  congruence.
Qed.


End JobScoping.

(** ** api/v1/endpoints/applications.py: the checks before the insert *)

Section CreateApplication.
Import Applications.

Lemma by_user_and_job_true (user_id job_id : UUID) (a : Application.t) :
  by_user_and_job user_id job_id a = true <->
  Application.user_id a = user_id /\ Application.job_id a = job_id.
Proof. unfold by_user_and_job. rewrite andb_true_iff, !String.eqb_eq. reflexivity. Qed.

Lemma create_application_missing_job new_id application_data current_user db :
  DB.first (Jobs.has_id (ApplicationCreate.job_id application_data)) (DB.jobs db) = None ->
  create_application new_id application_data current_user db
  = (HTTPError 404 "Job not found", db).
Proof. intros H. unfold create_application. rewrite H. reflexivity. Qed.

Lemma create_application_inactive_job new_id application_data current_user db job :
  DB.first (Jobs.has_id (ApplicationCreate.job_id application_data)) (DB.jobs db) = Some job ->
  Job.status job <> Some "active"%string ->
  create_application new_id application_data current_user db
  = (HTTPError 400 "Cannot apply to inactive job", db).
Proof.
  intros H Hstatus. unfold create_application. rewrite H.
  rewrite bool_decide_eq_false_2 by exact Hstatus. reflexivity.
Qed.

Lemma create_application_duplicate new_id application_data current_user db job a :
  DB.first (Jobs.has_id (ApplicationCreate.job_id application_data)) (DB.jobs db) = Some job ->
  In a (DB.applications db) ->
  Application.user_id a = User.id current_user ->
  Application.job_id a = ApplicationCreate.job_id application_data ->
  (Job.status job = Some "active"%string ->
   create_application new_id application_data current_user db
   = (HTTPError 400 "You have already applied to this job", db)) /\
  exists detail,
    create_application new_id application_data current_user db = (HTTPError 400 detail, db).
Proof.
  intros H Hin Huser Hjob.
  destruct (first_exists
              (by_user_and_job (User.id current_user)
                 (ApplicationCreate.job_id application_data))
              (DB.applications db) a Hin) as [a' Ha'].
  { apply by_user_and_job_true. split; assumption. }
  unfold create_application. rewrite H, Ha'.
  destruct (bool_decide (Job.status job = Some "active"%string)) eqn:E; cbn [negb].
  - split; [reflexivity | eexists; reflexivity].
  - split; [|eexists; reflexivity].
    intros Hs. apply bool_decide_eq_false_1 in E. contradiction.
Qed.

(** What a request does to the table of applications: nothing, or one
    row for a pair that had none. *)
Lemma create_application_applications new_id application_data current_user db :
  let db' := snd (create_application new_id application_data current_user db) in
  DB.applications db' = DB.applications db \/
  exists a,
    DB.applications db' = DB.applications db ++ [a] /\
    Application.user_id a = User.id current_user /\
    Application.job_id a = ApplicationCreate.job_id application_data /\
    applications_of (User.id current_user) (ApplicationCreate.job_id application_data) db = 0.
Proof.
  unfold create_application.
  destruct (DB.first _ (DB.jobs db)) as [job|]; [|left; reflexivity].
  destruct (negb _); [left; reflexivity|].
  destruct (DB.first _ (DB.applications db)) eqn:E; [left; reflexivity|].
  right. eexists. cbn. repeat split.
  unfold applications_of, DB.count. rewrite (first_None_filter _ _ E). reflexivity.
Qed.

Lemma create_application_keeps_one new_id application_data current_user db :
  one_per_user_and_job db ->
  one_per_user_and_job (snd (create_application new_id application_data current_user db)).
Proof.
  intros Hinv user_id job_id.
  destruct (create_application_applications new_id application_data current_user db)
    as [Hsame | (a & Happ & Hu & Hj & Hzero)];
    unfold applications_of in *.
  - rewrite Hsame. apply Hinv.
  - rewrite Happ, count_app.
    destruct (by_user_and_job user_id job_id a) eqn:E.
    + apply by_user_and_job_true in E. destruct E as [Eu Ej].
      rewrite Hu in Eu. rewrite Hj in Ej. subst user_id job_id.
      rewrite Hzero. unfold DB.count. simpl.
      destruct (by_user_and_job _ _ a); simpl; lia.
    + specialize (Hinv user_id job_id). unfold applications_of in Hinv.
      unfold DB.count at 2. simpl. rewrite E. simpl. lia.
Qed.

Lemma run_creates_keeps_one requests db :
  one_per_user_and_job db -> one_per_user_and_job (run_creates requests db).
Proof.
  unfold run_creates. revert db.
  induction requests as [|[[new_id application_data] current_user] requests IH];
    intros db Hinv; simpl; [exact Hinv|].
  apply IH. apply create_application_keeps_one. exact Hinv.
Qed.

(** C2: [create_application] fails with 404 when the job does not
    exist; with 400, inserting nothing, when the job is not active; and
    with 400, inserting nothing, when the user has already applied to
    the job.  So a sequence of requests keeps the table at one
    application at most for each user and job, and builds such a table
    from an empty one. *)
Theorem create_application_guards :
  (forall (new_id : UUID) (application_data : ApplicationCreate.t)
          (current_user : User.t) (db : DB.t),
      (DB.first (Jobs.has_id (ApplicationCreate.job_id application_data)) (DB.jobs db) = None ->
       create_application new_id application_data current_user db
       = (HTTPError 404 "Job not found", db)) /\
      (forall job : Job.t,
          DB.first (Jobs.has_id (ApplicationCreate.job_id application_data)) (DB.jobs db)
          = Some job ->
          (Job.status job <> Some "active"%string ->
           create_application new_id application_data current_user db
           = (HTTPError 400 "Cannot apply to inactive job", db)) /\
          (forall a : Application.t,
              In a (DB.applications db) ->
              Application.user_id a = User.id current_user ->
              Application.job_id a = ApplicationCreate.job_id application_data ->
              (Job.status job = Some "active"%string ->
               create_application new_id application_data current_user db
               = (HTTPError 400 "You have already applied to this job", db)) /\
              exists detail,
                create_application new_id application_data current_user db
                = (HTTPError 400 detail, db)))) /\
  (forall (requests : list create_request) (db : DB.t),
      one_per_user_and_job db -> one_per_user_and_job (run_creates requests db)) /\
  (forall (requests : list create_request) companies users jobs,
      one_per_user_and_job (run_creates requests (DB.mk companies users jobs []))).
Proof.
  split; [|split].
  - intros new_id application_data current_user db. split.
    + apply create_application_missing_job.
    + intros job Hjob. split.
      * apply create_application_inactive_job. exact Hjob.
      * intros a. apply create_application_duplicate. exact Hjob.
  - apply run_creates_keeps_one.
  - intros requests companies users jobs. apply run_creates_keeps_one.
    intros user_id job_id. unfold applications_of, DB.count. simpl. lia.
Qed.

(** The sample candidate applies to a job that does not exist, to the
    closed job, and twice to the open job. *)
Lemma create_application_guards_witness :
  create_application "a-1" (Samples.apply_to "j-none") Samples.carl Samples.db
  = (HTTPError 404 "Job not found", Samples.db) /\
  create_application "a-2" (Samples.apply_to "j-closed") Samples.carl Samples.db
  = (HTTPError 400 "Cannot apply to inactive job", Samples.db) /\
  create_application "a-3" (Samples.apply_to "j-backend") Samples.carl Samples.db
  = (HTTPOk Samples.carl_application, Samples.db_with_application) /\
  create_application "a-4" (Samples.apply_to "j-backend") Samples.carl
    Samples.db_with_application
  = (HTTPError 400 "You have already applied to this job", Samples.db_with_application) /\
  one_per_user_and_job
    (run_creates [("a-3"%string, Samples.apply_to "j-backend", Samples.carl);
                  ("a-4"%string, Samples.apply_to "j-backend", Samples.carl)]
       Samples.db).
Proof.
  destruct create_application_guards as (Hchecks & Hkeeps & Hempty).
  split; [|split; [|split; [|split]]].
  - apply (proj1 (Hchecks "a-1"%string (Samples.apply_to "j-none") Samples.carl Samples.db)).
    reflexivity.
  - apply (proj1 (proj2 (Hchecks "a-2"%string (Samples.apply_to "j-closed") Samples.carl
                           Samples.db) Samples.closed_job eq_refl)).
    discriminate.
  - reflexivity.
  - apply (proj1 (proj2 (proj2 (Hchecks "a-4"%string (Samples.apply_to "j-backend")
                                  Samples.carl Samples.db_with_application)
                           Samples.backend_job eq_refl)
                    Samples.carl_application (or_introl eq_refl) eq_refl eq_refl)).
    reflexivity.
  - apply (Hempty _ [Samples.acme; Samples.globex; Samples.initech]
             [Samples.root; Samples.rachel; Samples.gina; Samples.carl]
             [Samples.backend_job; Samples.closed_job; Samples.sales_job]).
Defined.

End CreateApplication.

(** ** api/v1/endpoints/companies.py: deleting a company *)

Section DeleteCompany.
Import Companies.

Lemma user_of_company_true (company_id : string) (u : User.t) :
  user_of_company company_id u = true <-> User.company_id u = Some company_id.
Proof. unfold user_of_company. apply bool_decide_eq_true. Qed.

Lemma users_count_positive (company_id : string) (db : DB.t) :
  (exists u, In u (DB.users db) /\ User.company_id u = Some company_id) ->
  (DB.count (user_of_company company_id) (DB.users db) >? 0) = true.
Proof.
  intros (u & Hin & Hu). apply Z.gtb_lt.
  pose proof (count_nonneg (user_of_company company_id) (DB.users db)) as Hge.
  destruct (Z.eq_dec (DB.count (user_of_company company_id) (DB.users db)) 0) as [E|E]; [|lia].
  exfalso. pose proof (proj1 (count_zero_iff _ _) E u Hin) as H.
  apply user_of_company_true in Hu. congruence.
Qed.

Lemma users_count_zero (company_id : string) (db : DB.t) :
  (forall u, In u (DB.users db) -> User.company_id u <> Some company_id) ->
  (DB.count (user_of_company company_id) (DB.users db) >? 0) = false.
Proof.
  intros H.
  assert (E : DB.count (user_of_company company_id) (DB.users db) = 0).
  { apply count_zero_iff. intros u Hin. specialize (H u Hin).
    destruct (user_of_company company_id u) eqn:E; [|reflexivity].
    apply user_of_company_true in E. contradiction. }
  rewrite E. reflexivity.
Qed.

Lemma jobs_of_company_some (company_id : string) (db : DB.t) :
  (exists j, In j (DB.jobs db) /\ Job.company_id j = Some company_id) ->
  existsb (job_of_company company_id) (DB.jobs db) = true.
Proof.
  intros (j & Hin & Hj). apply existsb_exists. exists j. split; [exact Hin|].
  unfold job_of_company. apply bool_decide_eq_true. exact Hj.
Qed.

Lemma jobs_of_company_none (company_id : string) (db : DB.t) :
  (forall j, In j (DB.jobs db) -> Job.company_id j <> Some company_id) ->
  existsb (job_of_company company_id) (DB.jobs db) = false.
Proof.
  intros H. destruct (existsb _ (DB.jobs db)) eqn:E; [|reflexivity].
  apply existsb_exists in E. destruct E as (j & Hin & Hj).
  unfold job_of_company in Hj. apply bool_decide_eq_true in Hj.
  destruct (H j Hin Hj).
Qed.

(** C5: deleting an existing company that some user references through
    [company_id] fails with 400 and changes nothing.  Deleting one that
    no user references does not always succeed: when a job references
    the company, the deletion fails at the commit with 500 and the row
    stays; when no job does either, it succeeds and removes the row of
    the company, and only that: the table of companies loses one row, no
    row with the identifier is left when identifiers are unique, and the
    other tables are as before. *)
Theorem delete_company_blocked_by_users :
  forall (company_id : string) (company : Company.t) (current_user : User.t) (db : DB.t),
    DB.first (has_id company_id) (DB.companies db) = Some company ->
    ((exists u, In u (DB.users db) /\ User.company_id u = Some company_id) ->
     delete_company company_id current_user db
     = (HTTPError 400
          "Cannot delete company with associated users. Please reassign users first.", db)) /\
    ((forall u, In u (DB.users db) -> User.company_id u <> Some company_id) ->
     ((exists j, In j (DB.jobs db) /\ Job.company_id j = Some company_id) ->
      delete_company company_id current_user db
      = (HTTPError 500 "Internal Server Error", db)) /\
     ((forall j, In j (DB.jobs db) -> Job.company_id j <> Some company_id) ->
      exists db',
        delete_company company_id current_user db
        = (HTTPOk "Company deleted successfully"%string, db') /\
        DB.companies db' = DB.delete_first (has_id company_id) (DB.companies db) /\
        (length (DB.companies db') + 1 = length (DB.companies db))%nat /\
        (NoDup (List.map Company.id (DB.companies db)) ->
         forall c, In c (DB.companies db') -> Company.id c <> company_id) /\
        DB.users db' = DB.users db /\ DB.jobs db' = DB.jobs db /\
        DB.applications db' = DB.applications db)).
Proof.
  intros company_id company current_user db Hcompany. split.
  - intros Husers. unfold delete_company.
    rewrite Hcompany, (users_count_positive _ _ Husers). reflexivity.
  - intros Hnone. split.
    + intros Hjobs. unfold delete_company.
      rewrite Hcompany, (users_count_zero _ _ Hnone), (jobs_of_company_some _ _ Hjobs).
      reflexivity.
    + intros Hnojobs. eexists. unfold delete_company.
      rewrite Hcompany, (users_count_zero _ _ Hnone), (jobs_of_company_none _ _ Hnojobs).
      split; [reflexivity|].
      cbn [DB.with_companies DB.companies DB.users DB.jobs DB.applications].
      split; [reflexivity|]. split; [exact (length_delete_first _ _ _ Hcompany)|].
      split; [|repeat split].
      intros Hnd c Hin Hc.
      assert (Hgone : has_id company_id c = false).
      { apply (delete_first_gone Company.id (has_id company_id) (DB.companies db));
          try assumption.
        unfold has_id. intros r r' Hr Hr'.
        apply String.eqb_eq in Hr, Hr'. congruence. }
      unfold has_id in Hgone. apply String.eqb_neq in Hgone. contradiction.
Qed.

(** The company of the sample recruiter cannot be deleted; once the
    recruiter is reassigned, as the answer asks, no user references the
    company, and the deletion fails with 500 on the job the company
    still has; the company without users and jobs can be deleted. *)
Lemma delete_company_blocked_by_users_witness :
  delete_company "c-acme" Samples.root Samples.db
  = (HTTPError 400
       "Cannot delete company with associated users. Please reassign users first.",
     Samples.db) /\
  delete_company "c-acme" Samples.root Samples.db_after_reassignment
  = (HTTPError 500 "Internal Server Error", Samples.db_after_reassignment) /\
  exists db',
    delete_company "c-initech" Samples.root Samples.db
    = (HTTPOk "Company deleted successfully"%string, db') /\
    DB.companies db' = [Samples.acme; Samples.globex].
Proof.
  split; [|split].
  - apply (proj1 (delete_company_blocked_by_users "c-acme" Samples.acme Samples.root
                    Samples.db eq_refl)).
    exists Samples.rachel. split; [right; left; reflexivity | reflexivity].
  - apply (proj1 (proj2 (delete_company_blocked_by_users "c-acme" Samples.acme Samples.root
                           Samples.db_after_reassignment eq_refl)
                    ltac:(intros u [<- | [<- | [<- | [<- | []]]]]; discriminate))).
    exists Samples.backend_job. split; [left; reflexivity | reflexivity].
  - destruct (proj2 (proj2 (delete_company_blocked_by_users "c-initech" Samples.initech
                              Samples.root Samples.db eq_refl)
                       ltac:(intros u [<- | [<- | [<- | [<- | []]]]]; discriminate))
                ltac:(intros j [<- | [<- | [<- | []]]]; discriminate))
      as (db' & Hok & Hrows & _).
    exists db'. split; [exact Hok | rewrite Hrows; reflexivity].
Defined.

End DeleteCompany.

(** ** core/rate_limiter_simple.py: five requests a minute *)

Section FivePerMinute.
Import RateLimiter.

(** [is_allowed] once ["5/minute"] is parsed *)
Lemma is_allowed_5_per_minute (self : t) (now : Z) (key : string) :
  is_allowed self now key "5/minute" =
  let kept :=
    match requests self !! key with
    | Some times => kept_at now (timedelta_seconds 60) times
    | None => []
    end in
  if Z.of_nat (length kept) <? 5
  then ((true, 0), mk (<[key := kept ++ [now]]> (requests self)))
  else ((false, Z.of_nat (length kept)), mk (<[key := kept]> (requests self))).
Proof. reflexivity. Qed.

Lemma kept_at_all (now window : Z) (times : list Z) :
  Forall (fun req_time => now - window < req_time) times ->
  kept_at now window times = times.
Proof.
  unfold kept_at. induction 1 as [|req_time times Hhd _ IH]; simpl; [reflexivity|].
  rewrite IH. destruct (req_time >? now - window) eqn:E; [reflexivity|].
  rewrite Z.gtb_ltb in E. apply Z.ltb_ge in E. lia.
Qed.

Lemma first_check_allowed (now : Z) (key : string) :
  is_allowed init now key "5/minute" = ((true, 0), mk (<[key := [now]]> ∅)).
Proof. rewrite is_allowed_5_per_minute. unfold init. cbn [requests]. rewrite lookup_empty. reflexivity. Qed.

Lemma check_allowed (m : gmap string (list Z)) (now : Z) (key : string) (times : list Z) :
  Forall (fun req_time => now - timedelta_seconds 60 < req_time) times ->
  (length times < 5)%nat ->
  is_allowed (mk (<[key := times]> m)) now key "5/minute"
  = ((true, 0), mk (<[key := times ++ [now]]> m)).
Proof.
  intros Hrecent Hfew. rewrite is_allowed_5_per_minute. cbn [requests].
  rewrite lookup_insert_eq, (kept_at_all _ _ _ Hrecent), insert_insert_eq. cbv zeta.
  destruct (Z.of_nat (length times) <? 5) eqn:E; [reflexivity|].
  apply Z.ltb_ge in E. lia.
Qed.

Lemma check_rejected (m : gmap string (list Z)) (now : Z) (key : string) (times : list Z) :
  Forall (fun req_time => now - timedelta_seconds 60 < req_time) times ->
  length times = 5%nat ->
  is_allowed (mk (<[key := times]> m)) now key "5/minute"
  = ((false, 5), mk (<[key := times]> m)).
Proof.
  intros Hrecent Hfull. rewrite is_allowed_5_per_minute. cbn [requests].
  rewrite lookup_insert_eq, (kept_at_all _ _ _ Hrecent), !insert_insert_eq, Hfull.
  reflexivity.
Qed.

(** After five requests, a check is allowed exactly when the oldest of
    them has left the window. *)
Lemma check_after_five (m : gmap string (list Z)) (key : string) (t1 t2 t3 t4 t5 now : Z) :
  t1 <= t2 -> t2 <= t3 -> t3 <= t4 -> t4 <= t5 ->
  (t1 + timedelta_seconds 60 <= now ->
   fst (is_allowed (mk (<[key := [t1; t2; t3; t4; t5]]> m)) now key "5/minute") = (true, 0)) /\
  (now < t1 + timedelta_seconds 60 ->
   fst (is_allowed (mk (<[key := [t1; t2; t3; t4; t5]]> m)) now key "5/minute") = (false, 5)).
Proof.
  intros H12 H23 H34 H45. split; intros Hnow.
  - rewrite is_allowed_5_per_minute. cbn [requests]. rewrite lookup_insert_eq. cbv zeta.
    unfold kept_at. cbn [List.filter].
    assert (E1 : (t1 >? now - timedelta_seconds 60) = false).
    { rewrite Z.gtb_ltb. apply Z.ltb_ge. lia. }
    rewrite E1.
    destruct (t2 >? _), (t3 >? _), (t4 >? _), (t5 >? _); reflexivity.
  - rewrite check_rejected; [reflexivity| |reflexivity].
    repeat constructor; lia.
Qed.

(** C6: with the limit ["5/minute"] and one key, from the empty state,
    the first five checks are allowed and a sixth check made less than
    60 seconds after the first is rejected; a later check is allowed
    again once 60 seconds have passed since the earlier requests, and
    more precisely as soon as the oldest of them has left the window. *)
Theorem five_per_minute_then_reject_then_allow :
  forall (key : string) (t1 t2 t3 t4 t5 t6 : Z),
    t1 <= t2 -> t2 <= t3 -> t3 <= t4 -> t4 <= t5 -> t5 <= t6 ->
    t6 - t1 < timedelta_seconds 60 ->
    fst (checks init key "5/minute" [t1; t2; t3; t4; t5; t6])
    = [(true, 0); (true, 0); (true, 0); (true, 0); (true, 0); (false, 5)] /\
    (forall t7 : Z,
        t5 + timedelta_seconds 60 <= t7 ->
        fst (is_allowed (snd (checks init key "5/minute" [t1; t2; t3; t4; t5; t6]))
               t7 key "5/minute") = (true, 0)) /\
    (forall t7 : Z,
        t1 + timedelta_seconds 60 <= t7 ->
        fst (is_allowed (snd (checks init key "5/minute" [t1; t2; t3; t4; t5; t6]))
               t7 key "5/minute") = (true, 0)) /\
    (forall t7 : Z,
        t7 < t1 + timedelta_seconds 60 ->
        fst (is_allowed (snd (checks init key "5/minute" [t1; t2; t3; t4; t5; t6]))
               t7 key "5/minute") = (false, 5)).
Proof.
  intros key t1 t2 t3 t4 t5 t6 H12 H23 H34 H45 H56 Hwindow.
  assert (Hrun : checks init key "5/minute" [t1; t2; t3; t4; t5; t6]
                 = ([(true, 0); (true, 0); (true, 0); (true, 0); (true, 0); (false, 5)],
                    mk (<[key := [t1; t2; t3; t4; t5]]> ∅))).
  { cbn [checks]. rewrite first_check_allowed.
    rewrite (check_allowed ∅ t2 key [t1]) by (repeat constructor; simpl; lia). cbn [app].
    rewrite (check_allowed ∅ t3 key [t1; t2]) by (repeat constructor; simpl; lia). cbn [app].
    rewrite (check_allowed ∅ t4 key [t1; t2; t3]) by (repeat constructor; simpl; lia). cbn [app].
    rewrite (check_allowed ∅ t5 key [t1; t2; t3; t4]) by (repeat constructor; simpl; lia).
    cbn [app].
    rewrite (check_rejected ∅ t6 key [t1; t2; t3; t4; t5]) by (repeat constructor; lia).
    reflexivity. }
  rewrite Hrun. cbn [fst snd].
  split; [reflexivity|]. split; [|split]; intros t7 H7.
  - apply (check_after_five ∅ key t1 t2 t3 t4 t5 t7); lia.
  - apply (check_after_five ∅ key t1 t2 t3 t4 t5 t7); lia.
  - apply (check_after_five ∅ key t1 t2 t3 t4 t5 t7); lia.
Qed.

(** Six logins ten seconds apart, then one a minute and a half after
    the first. *)
Lemma five_per_minute_then_reject_then_allow_witness :
  fst (checks init "login:10.0.0.7" "5/minute"
         [0; 10000000; 20000000; 30000000; 40000000; 50000000])
  = [(true, 0); (true, 0); (true, 0); (true, 0); (true, 0); (false, 5)] /\
  fst (is_allowed
         (snd (checks init "login:10.0.0.7" "5/minute"
                 [0; 10000000; 20000000; 30000000; 40000000; 50000000]))
         100000000 "login:10.0.0.7" "5/minute") = (true, 0).
Proof.
  destruct (five_per_minute_then_reject_then_allow "login:10.0.0.7"
              0 10000000 20000000 30000000 40000000 50000000)
    as (Hsix & Hlater & _); try (unfold timedelta_seconds; lia).
  split; [exact Hsix|]. apply Hlater. unfold timedelta_seconds. lia.
Defined.

End FivePerMinute.

(** ** services/skill_extractor.py: the similarity of two skill lists *)

Section SkillsSimilarity.
Import SkillExtractor.
Local Open Scope Q_scope.

Lemma nonempty_true {A : Type} (l : list A) : nonempty l = true <-> l <> [].
Proof. destruct l; simpl; split; congruence. Qed.

Lemma size_list_to_set_pos (l : list string) :
  l <> [] -> (0 < size (list_to_set l : gset string))%nat.
Proof.
  destruct l as [|s l]; [congruence|]. intros _.
  assert (H : size (list_to_set (s :: l) : gset string) <> 0%nat).
  { apply size_non_empty_iff. set_solver. }
  lia.
Qed.

Lemma size_inter_self (l : list string) :
  size ((list_to_set l : gset string) ∩ list_to_set l) = size (list_to_set l : gset string).
Proof. f_equal. apply intersection_idemp_L. Qed.

Lemma size_union_self (l : list string) :
  size ((list_to_set l : gset string) ∪ list_to_set l) = size (list_to_set l : gset string).
Proof. f_equal. apply union_idemp_L. Qed.

Lemma Qdiv_self (n : nat) : (0 < n)%nat -> inject_Z (Z.of_nat n) / inject_Z (Z.of_nat n) == 1.
Proof.
  intros Hn. apply Qmult_inv_r. intros H.
  assert (Hz : (Z.of_nat n = 0)%Z).
  { unfold Qeq in H. simpl in H. lia. }
  lia.
Qed.

Lemma jaccard_self (l : list string) : l <> [] -> jaccard l l == 1.
Proof.
  intros Hl. unfold jaccard.
  rewrite size_inter_self, size_union_self.
  apply Qdiv_self, size_list_to_set_pos, Hl.
Qed.

Lemma weight_of_pos (category : string) : 0 < weight_of category.
Proof.
  unfold weight_of.
  assert (H : Forall (fun item => 0 < snd item) category_weights).
  { repeat constructor. }
  induction category_weights as [|[k w] ws IH]; simpl; [reflexivity|].
  apply Forall_cons in H. destruct H as [Hw Hws].
  destruct (String.eqb k category); [exact Hw | exact (IH Hws)].
Qed.

Lemma weigh_category_self (skills : list string) (acc : Q * Q) (category : string)
  (skills_dict : list string) :
  weigh_category skills skills acc (category, skills_dict) =
  if nonempty (List.filter (is_key skills_dict) skills)
  then (fst acc + weight_of category,
        snd acc + jaccard (List.filter (is_key skills_dict) skills)
                    (List.filter (is_key skills_dict) skills) * weight_of category)
  else acc.
Proof.
  destruct acc as [total_weight weighted_score]. unfold weigh_category.
  destruct (nonempty _); reflexivity.
Qed.

(** The loop over the categories, run on twice the same list: the score
    stays equal to the weight, and the weight grows with every category
    that has one of the skills. *)
Lemma weigh_categories_self (skills : list string) (db : list (string * list string)) :
  forall total_weight weighted_score : Q,
    weighted_score == total_weight -> 0 <= total_weight ->
    let result := fold_left (weigh_category skills skills) db (total_weight, weighted_score) in
    snd result == fst result /\ total_weight <= fst result /\
    (existsb (fun item => nonempty (List.filter (is_key (snd item)) skills)) db = true ->
     total_weight < fst result) /\
    (existsb (fun item => nonempty (List.filter (is_key (snd item)) skills)) db = false ->
     fst result = total_weight).
Proof.
  induction db as [|[category skills_dict] db IH]; intros total_weight weighted_score Heq Hpos;
    cbn [fold_left existsb snd].
  - cbv zeta. cbn [fst snd]. split; [exact Heq|]. split; [apply Qle_refl|].
    split; [discriminate | reflexivity].
  - rewrite weigh_category_self. cbn [fst snd].
    destruct (nonempty (List.filter (is_key skills_dict) skills)) eqn:E.
    + pose proof (weight_of_pos category) as Hw.
      assert (Hpos' : 0 <= total_weight + weight_of category).
      { apply Qle_trans with (total_weight + 0).
        - rewrite Qplus_0_r. exact Hpos.
        - apply Qplus_le_r. apply Qlt_le_weak. exact Hw. }
      assert (Heq' : weighted_score
                     + jaccard (List.filter (is_key skills_dict) skills)
                         (List.filter (is_key skills_dict) skills) * weight_of category
                     == total_weight + weight_of category).
      { rewrite jaccard_self by (apply nonempty_true; exact E).
        rewrite Heq. ring. }
      destruct (IH _ _ Heq' Hpos') as (H1 & H2 & _ & _).
      cbv zeta in *. split; [exact H1|].
      assert (Hlt : total_weight < total_weight + weight_of category).
      { rewrite <- (Qplus_0_r total_weight) at 1. apply Qplus_lt_r. exact Hw. }
      split; [|split].
      * apply Qle_trans with (total_weight + weight_of category); [|exact H2].
        apply Qlt_le_weak. exact Hlt.
      * intros _. apply Qlt_le_trans with (total_weight + weight_of category); assumption.
      * discriminate.
    + apply IH; assumption.
Qed.

Lemma weighted_similarity_self (self : t) (skills : list string) :
  (knows_one_of self skills = true ->
   _calculate_weighted_similarity self skills skills == 1) /\
  (knows_one_of self skills = false ->
   _calculate_weighted_similarity self skills skills == 0).
Proof.
  unfold _calculate_weighted_similarity, knows_one_of.
  destruct (weigh_categories_self skills (skills_database self) 0 0 (Qeq_refl 0) (Qle_refl 0))
    as (Heq & _ & Hknown & Hunknown).
  cbv zeta in *.
  destruct (fold_left (weigh_category skills skills) (skills_database self) (0, 0))
    as [total_weight weighted_score].
  cbn [fst snd] in *. split; intros H.
  - specialize (Hknown H).
    destruct (Qeq_bool total_weight 0) eqn:E.
    + apply Qeq_bool_iff in E. rewrite E in Hknown. exfalso. exact (Qlt_irrefl 0 Hknown).
    + rewrite Heq. apply Qmult_inv_r. intros Hz. rewrite Hz in Hknown.
      exact (Qlt_irrefl 0 Hknown).
  - rewrite (Hunknown H). reflexivity.
Qed.

Lemma skills_similarity_self (self : t) (skills : list string) :
  skills <> [] ->
  calculate_skills_similarity self skills skills
  == 0.6 + _calculate_weighted_similarity self skills skills * 0.4 \/
  1 < 0.6 + _calculate_weighted_similarity self skills skills * 0.4.
Proof.
  intros Hne. unfold calculate_skills_similarity.
  rewrite (proj2 (nonempty_true skills) Hne). cbn [negb orb]. cbv zeta.
  rewrite size_inter_self, size_union_self.
  pose proof (size_list_to_set_pos skills Hne) as Hsize.
  destruct (Z.of_nat (size (list_to_set skills : gset string)) =? 0)%Z eqn:E.
  { apply Z.eqb_eq in E. lia. }
  pose proof (Qdiv_self _ Hsize) as Hj. unfold py_min.
  destruct (Qle_bool _ _) eqn:G.
  - left. rewrite Hj. ring.
  - right. apply Qle_bool_false_lt in G. rewrite Hj in G.
    assert (Heq : 0.6 + _calculate_weighted_similarity self skills skills * 0.4
                  == 1 * 0.6 + _calculate_weighted_similarity self skills skills * 0.4)
      by ring.
    rewrite Heq. apply Qle_lt_trans with 1.0; [discriminate | exact G].
Qed.

(** C4, as the code has it: for a non-empty list that names at least
    one skill of the database, the similarity of the list with itself is
    1; for a non-empty list that names none, it is 0.6, the weight of
    the Jaccard term alone; and the similarity of any list with the
    empty list is 0. *)
Theorem skills_similarity_identical_and_empty :
  forall (self : t) (skills : list string),
    (skills <> [] -> knows_one_of self skills = true ->
     calculate_skills_similarity self skills skills == 1) /\
    (skills <> [] -> knows_one_of self skills = false ->
     calculate_skills_similarity self skills skills == 0.6) /\
    calculate_skills_similarity self skills [] == 0 /\
    calculate_skills_similarity self [] skills == 0.
Proof.
  intros self skills.
  destruct (weighted_similarity_self self skills) as [Hknown Hunknown].
  split; [|split; [|split]].
  - intros Hne Hk. specialize (Hknown Hk).
    destruct (skills_similarity_self self skills Hne) as [H | H].
    + rewrite H, Hknown. reflexivity.
    + exfalso. rewrite Hknown in H. revert H. apply Qle_not_lt. discriminate.
  - intros Hne Hk. specialize (Hunknown Hk).
    destruct (skills_similarity_self self skills Hne) as [H | H].
    + rewrite H, Hunknown. reflexivity.
    + exfalso. rewrite Hunknown in H. revert H. apply Qle_not_lt. discriminate.
  - unfold calculate_skills_similarity. cbn [nonempty negb].
    rewrite orb_true_r. reflexivity.
  - unfold calculate_skills_similarity. cbn [nonempty negb orb]. reflexivity.
Qed.

(** A list of database skills, and a list with a skill the database
    does not have. *)
Lemma skills_similarity_identical_and_empty_witness :
  calculate_skills_similarity init ["Python"; "Django"; "Docker"]%string
    ["Python"; "Django"; "Docker"]%string == 1 /\
  calculate_skills_similarity init ["GraphQL"]%string ["GraphQL"]%string == 0.6.
Proof.
  split.
  - apply (proj1 (skills_similarity_identical_and_empty init
                    ["Python"; "Django"; "Docker"]%string)).
    + discriminate.
    + reflexivity.
  - apply (proj1 (proj2 (skills_similarity_identical_and_empty init ["GraphQL"]%string))).
    + discriminate.
    + reflexivity.
Defined.

(** C4, as the claim states it, fails: ["GraphQL"] is a non-empty skill
    list, the database has no such skill, and the similarity of the list
    with itself is 0.6, not 1. *)
Lemma skills_similarity_of_unknown_skill :
  calculate_skills_similarity init ["GraphQL"]%string ["GraphQL"]%string == 0.6 /\
  ~ calculate_skills_similarity init ["GraphQL"]%string ["GraphQL"]%string == 1.
Proof.
  assert (H : calculate_skills_similarity init ["GraphQL"]%string ["GraphQL"]%string == 0.6).
  { vm_compute. reflexivity. }
  split; [exact H|]. rewrite H. discriminate.
Qed.

End SkillsSimilarity.

(** ** api/v1/endpoints/candidate_features.py: the match score *)

Section JobRecommendations.
Import CandidateFeatures.
Local Open Scope Q_scope.

Lemma In_take {A : Type} (n : nat) (l : list A) (x : A) : In x (take n l) -> In x l.
Proof.
  revert l. induction n as [|n IH]; intros [|y l]; simpl; try tauto.
  intros [-> | H]; [left; reflexivity | right; exact (IH l H)].
Qed.

Lemma In_insert_by_score (r x : JobRecommendation) (sorted : list JobRecommendation) :
  In x (insert_by_score r sorted) -> x = r \/ In x sorted.
Proof.
  induction sorted as [|r' sorted IH]; simpl.
  - intros [<- | []]. left. reflexivity.
  - destruct (Qle_bool (match_score r') (match_score r)); simpl.
    + intros [<- | H]; [left; reflexivity | right; exact H].
    + intros [<- | H]; [right; left; reflexivity|].
      destruct (IH H) as [-> | H']; [left; reflexivity | right; right; exact H'].
Qed.

Lemma In_sort_by_score (x : JobRecommendation) (l : list JobRecommendation) :
  In x (sort_by_score l) -> In x l.
Proof.
  unfold sort_by_score. induction l as [|r l IH]; simpl; [tauto|].
  intros H. destruct (In_insert_by_score _ _ _ H) as [-> | H'].
  - left. reflexivity.
  - right. exact (IH H').
Qed.



Lemma prefix_app (p s : string) :
  String.prefix p s = true <-> exists rest, s = p +:+ rest.
Proof.
  revert s. induction p as [|c p IH]; intros s.
  - destruct s; simpl; (split; [intros _; eexists; reflexivity | reflexivity]).
  - destruct s as [|d s]; simpl.
    + split; [discriminate | intros [rest H]; discriminate].
    + destruct (Ascii.ascii_dec c d) as [<- | Hne].
      * rewrite IH. split.
        -- intros [rest ->]. exists rest. reflexivity.
        -- intros [rest H]. injection H as ->. exists rest. reflexivity.
      * split; [discriminate|].
        intros [rest H]. injection H as Hc Hs. exact (False_ind _ (Hne (eq_sym Hc))).
Qed.








End JobRecommendations.

(** ** services/resume_parser.py: the name from the e-mail address *)

Section NameFromEmail.
Import ResumeParser.

Lemma in_blocklist_In (name : string) : in_blocklist name = true <-> In name BLOCKLIST.
Proof.
  unfold in_blocklist. rewrite existsb_exists. split.
  - intros (entry & Hin & Heq). apply String.eqb_eq in Heq. subst. exact Hin.
  - intros Hin. exists name. split; [exact Hin | apply String.eqb_refl].
Qed.

(** The entries of the blocklist are in lower case. *)
Lemma blocklist_is_lower_case (entry : string) :
  In entry BLOCKLIST -> PyStr.lower entry = entry.
Proof.
  assert (H : forallb (fun e => String.eqb (PyStr.lower e) e) BLOCKLIST = true)
    by (vm_compute; reflexivity).
  rewrite forallb_forall in H. intros Hin. apply String.eqb_eq, H, Hin.
Qed.

Lemma validated_name_not_blocked (name result : string) :
  validated_name name = Some result ->
  result = name /\ in_blocklist (PyStr.lower name) = false.
Proof.
  unfold validated_name. destruct (_ && _); [|discriminate].
  destruct (in_blocklist (PyStr.lower name)); cbn [negb]; [discriminate|].
  intros H. injection H as <-. split; reflexivity.
Qed.

Lemma extract_name_from_email_validated (email name : string) :
  _extract_name_from_email email = Some name -> validated_name name = Some name.
Proof.
  unfold _extract_name_from_email.
  destruct (hd EmptyString (PyStr.split_on (Ascii.eqb "@") email)) as [|c local_part];
    [discriminate|].
  destruct (take 3 _) as [|part parts]; [discriminate|].
  intros H. pose proof H as H'. apply validated_name_not_blocked in H'.
  destruct H' as [-> _]. exact H.
Qed.

Lemma extract_name_from_email_not_blocked (email name : string) :
  _extract_name_from_email email = Some name ->
  ~ In (PyStr.lower name) BLOCKLIST /\ ~ In name BLOCKLIST.
Proof.
  intros H. apply extract_name_from_email_validated, validated_name_not_blocked in H.
  destruct H as [_ H].
  assert (Hlower : ~ In (PyStr.lower name) BLOCKLIST).
  { intros Hin. apply in_blocklist_In in Hin. congruence. }
  split; [exact Hlower|].
  intros Hin. apply Hlower. rewrite (blocklist_is_lower_case _ Hin). exact Hin.
Qed.

(** C8: at the e-mail stage, that is with lines to read and nothing
    from the heuristic pass, the spaCy pass and the metadata pass,
    [extract_candidate_name] turns ["jane.doe2024@example.com"] into
    ["Jane Doe"]: the digits that end the local part go, the rest is
    split at the dot, and each part is put in title case.  Whatever the
    address, a name the e-mail stage returns is not an entry of the
    blocklist, compared as it is or in lower case. *)
Theorem name_from_email_fallback :
  (forall (PdfMeta : Type)
          (_preprocess_text_lines : string -> list string)
          (_extract_name_heuristic : list string -> list string -> option string)
          (nlp : bool)
          (_extract_name_spacy_ner : string -> list string -> option string)
          (_extract_name_from_metadata : PdfMeta -> list string -> option string)
          (text : string) (pdf_meta : option PdfMeta),
      _preprocess_text_lines text <> [] ->
      nonblank (_extract_name_heuristic (take 15 (_preprocess_text_lines text)) BLOCKLIST)
      = None ->
      (nlp = true -> nonblank (_extract_name_spacy_ner text BLOCKLIST) = None) ->
      (forall meta, pdf_meta = Some meta ->
                    nonblank (_extract_name_from_metadata meta BLOCKLIST) = None) ->
      extract_candidate_name PdfMeta _preprocess_text_lines _extract_name_heuristic nlp
        _extract_name_spacy_ner _extract_name_from_metadata text
        (Some "jane.doe2024@example.com"%string) pdf_meta
      = "Jane Doe"%string) /\
  _extract_name_from_email "jane.doe2024@example.com" = Some "Jane Doe"%string /\
  strip_digit_suffix "jane.doe2024" = "jane.doe"%string /\
  PyStr.split_on is_separator "jane.doe" = ["jane"; "doe"]%string /\
  List.map PyStr.title ["jane"; "doe"]%string = ["Jane"; "Doe"]%string /\
  (forall email name : string,
      _extract_name_from_email email = Some name ->
      ~ In name BLOCKLIST /\ ~ In (PyStr.lower name) BLOCKLIST).
Proof.
  split; [|split; [|split; [|split; [|split]]]]; try reflexivity.
  - intros PdfMeta pre heuristic nlp ner metadata text pdf_meta Hlines Hheuristic Hner Hmeta.
    unfold extract_candidate_name.
    destruct (pre text) as [|line lines] eqn:E; [congruence|].
    rewrite Hheuristic.
    assert (Hn : (if nlp then nonblank (ner text BLOCKLIST) else None) = None).
    { destruct nlp; [apply Hner|]; reflexivity. }
    rewrite Hn.
    assert (Hm : match pdf_meta with
                 | Some meta => nonblank (metadata meta BLOCKLIST)
                 | None => None
                 end = None).
    { destruct pdf_meta as [meta|]; [apply Hmeta|]; reflexivity. }
    rewrite Hm. reflexivity.
  - intros email name H. apply extract_name_from_email_not_blocked in H. tauto.
Qed.

(** A resume whose text gives no name, read without a language model
    and without metadata. *)
Lemma name_from_email_fallback_witness :
  extract_candidate_name unit (fun text => [text]) (fun _ _ => None) false
    (fun _ _ => None) (fun _ _ => None) "curriculum vitae"
    (Some "jane.doe2024@example.com"%string) None
  = "Jane Doe"%string.
Proof.
  apply (proj1 name_from_email_fallback).
  - discriminate.
  - reflexivity.
  - discriminate.
  - discriminate.
Defined.

End NameFromEmail.

(** ** A [dict] in insertion order *)

Section PyDictFacts.
Context {V : Type}.
Implicit Types (d : list (string * V)) (key : string) (value : V).

Lemma get_None_not_In key d :
  PyDict.get key d = None <-> forall value, ~ In (key, value) d.
Proof.
  induction d as [|[k v] d IH]; simpl.
  - split; [intros _ value [] | reflexivity].
  - destruct (String.eqb_spec k key) as [-> | Hne].
    + split; [discriminate | intros H; exfalso; apply (H v); left; reflexivity].
    + rewrite IH. split.
      * intros H value [Heq | Hin]; [congruence | exact (H value Hin)].
      * intros H value Hin. apply (H value). right. exact Hin.
Qed.

Lemma In_set key value d k v :
  In (k, v) (PyDict.set key value d) -> (k = key /\ v = value) \/ In (k, v) d.
Proof.
  induction d as [|[k' v'] d IH]; simpl.
  - intros [H | []]. left. split; congruence.
  - destruct (String.eqb_spec k' key) as [-> | Hne]; simpl.
    + intros [H | H]; [left; split; congruence | right; right; exact H].
    + intros [H | H]; [right; left; exact H|].
      destruct (IH H) as [? | ?]; [left; assumption | right; right; assumption].
Qed.

Lemma In_del key d kv : In kv (PyDict.del key d) -> In kv d.
Proof.
  induction d as [|[k' v'] d IH]; simpl; [tauto|].
  destruct (String.eqb k' key); simpl; [tauto|].
  intros [H | H]; [left; exact H | right; exact (IH H)].
Qed.

Lemma In_del_all (keys : list string) d kv :
  In kv (fold_left (fun d key => PyDict.del key d) keys d) -> In kv d.
Proof.
  revert d. induction keys as [|key keys IH]; simpl; intros d H; [exact H|].
  apply (In_del key). exact (IH _ H).
Qed.

Lemma get_set_other key value d k :
  k <> key -> PyDict.get k (PyDict.set key value d) = PyDict.get k d.
Proof.
  intros Hne. induction d as [|[k' v'] d IH]; simpl.
  - destruct (String.eqb_spec key k); [congruence | reflexivity].
  - destruct (String.eqb_spec k' key) as [-> | Hne']; simpl.
    + destruct (String.eqb_spec key k); [congruence | reflexivity].
    + rewrite IH. reflexivity.
Qed.

Lemma get_set_same key value d : PyDict.get key (PyDict.set key value d) = Some value.
Proof.
  induction d as [|[k' v'] d IH]; simpl.
  - rewrite String.eqb_refl. reflexivity.
  - destruct (String.eqb_spec k' key) as [-> | Hne]; simpl.
    + rewrite String.eqb_refl. reflexivity.
    + destruct (String.eqb_spec k' key); [contradiction | exact IH].
Qed.

Lemma get_del_other key d k :
  k <> key -> PyDict.get k (PyDict.del key d) = PyDict.get k d.
Proof.
  intros Hne. induction d as [|[k' v'] d IH]; simpl; [reflexivity|].
  destruct (String.eqb_spec k' key) as [-> | Hne']; simpl.
  - destruct (String.eqb_spec key k); [congruence | reflexivity].
  - rewrite IH. reflexivity.
Qed.

(** An entry a filter rejects whatever its value does not show in the
    filtered items, set or deleted. *)
Lemma filter_set (keep : string * V -> bool) key value d :
  (forall v, keep (key, v) = false) ->
  List.filter keep (PyDict.set key value d) = List.filter keep d.
Proof.
  intros Hkey. induction d as [|[k v] d IH]; simpl.
  - rewrite Hkey. reflexivity.
  - destruct (String.eqb_spec k key) as [-> | Hne]; simpl.
    + rewrite !Hkey. reflexivity.
    + rewrite IH. reflexivity.
Qed.

Lemma filter_del (keep : string * V -> bool) key d :
  (forall v, keep (key, v) = false) ->
  List.filter keep (PyDict.del key d) = List.filter keep d.
Proof.
  intros Hkey. induction d as [|[k v] d IH]; simpl; [reflexivity|].
  destruct (String.eqb_spec k key) as [-> | Hne]; simpl.
  - rewrite Hkey. reflexivity.
  - rewrite IH. reflexivity.
Qed.

Lemma In_keys_set key value d k :
  In k (List.map fst (PyDict.set key value d)) -> k = key \/ In k (List.map fst d).
Proof.
  rewrite !in_map_iff. intros ([k' v'] & <- & Hin). apply In_set in Hin.
  destruct Hin as [[-> _] | Hin]; [left; reflexivity|].
  right. exists (k', v'). split; [reflexivity | exact Hin].
Qed.

Lemma In_keys_del key d k :
  In k (List.map fst (PyDict.del key d)) -> In k (List.map fst d).
Proof.
  rewrite !in_map_iff. intros (kv & <- & Hin). exists kv. split; [reflexivity|].
  exact (In_del _ _ _ Hin).
Qed.

Lemma unique_keys_set key value d :
  List.NoDup (List.map fst d) -> List.NoDup (List.map fst (PyDict.set key value d)).
Proof.
  induction d as [|[k v] d IH]; simpl; intros Hnd.
  - constructor; [intros [] | constructor].
  - apply List.NoDup_cons_iff in Hnd. destruct Hnd as [Hfresh Hnd].
    destruct (String.eqb_spec k key) as [-> | Hne]; simpl.
    + constructor; assumption.
    + constructor; [|exact (IH Hnd)].
      intros Hin. apply In_keys_set in Hin. destruct Hin as [-> | Hin]; contradiction.
Qed.

Lemma unique_keys_del key d :
  List.NoDup (List.map fst d) -> List.NoDup (List.map fst (PyDict.del key d)).
Proof.
  induction d as [|[k v] d IH]; simpl; intros Hnd; [constructor|].
  apply List.NoDup_cons_iff in Hnd. destruct Hnd as [Hfresh Hnd].
  destruct (String.eqb k key); simpl; [exact Hnd|].
  constructor; [|exact (IH Hnd)].
  intros Hin. apply Hfresh. exact (In_keys_del _ _ _ Hin).
Qed.

Lemma unique_keys_del_all (keys : list string) d :
  List.NoDup (List.map fst d) ->
  List.NoDup (List.map fst (fold_left (fun d key => PyDict.del key d) keys d)).
Proof.
  revert d. induction keys as [|key keys IH]; simpl; intros d Hnd; [exact Hnd|].
  apply IH, unique_keys_del, Hnd.
Qed.

Lemma get_del_same key d :
  List.NoDup (List.map fst d) -> PyDict.get key (PyDict.del key d) = None.
Proof.
  induction d as [|[k v] d IH]; simpl; intros Hnd; [reflexivity|].
  apply List.NoDup_cons_iff in Hnd. destruct Hnd as [Hfresh Hnd].
  destruct (String.eqb_spec k key) as [-> | Hne]; simpl.
  - apply get_None_not_In. intros value Hin. apply Hfresh.
    apply in_map_iff. exists (key, value). split; [reflexivity | exact Hin].
  - destruct (String.eqb_spec k key); [contradiction | exact (IH Hnd)].
Qed.

End PyDictFacts.

(** ** api/v1/endpoints/auth.py: what logout leaves in the store *)

Section Logout.
Import SimpleRedisClient Auth.

Lemma last_char_cons (c : ascii) (s : string) : PyStr.last_char (String c s) <> None.
Proof.
  revert c. induction s as [|d s IH]; intros c; [discriminate|].
  cbn [PyStr.last_char]. apply IH.
Qed.

Lemma last_char_app (a b : string) :
  PyStr.last_char (a +:+ b)
  = match PyStr.last_char b with
    | Some c => Some c
    | None => PyStr.last_char a
    end.
Proof.
  induction a as [|c a IH].
  - change (EmptyString +:+ b) with b. destruct (PyStr.last_char b); reflexivity.
  - change (String c a +:+ b) with (String c (a +:+ b)).
    destruct a as [|c' a].
    + change (EmptyString +:+ b) with b. destruct b as [|d b]; [reflexivity|].
      pose proof (last_char_cons d b) as Hd.
      change (PyStr.last_char (String c (String d b))) with (PyStr.last_char (String d b)).
      destruct (PyStr.last_char (String d b)); [reflexivity | contradiction].
    + change (String c' a +:+ b) with (String c' (a +:+ b)) in *.
      change (PyStr.last_char (String c (String c' (a +:+ b))))
        with (PyStr.last_char (String c' (a +:+ b))).
      rewrite IH. reflexivity.
Qed.

Lemma uuid_text_last_char (s : string) :
  uuid_text s = true -> PyStr.last_char s <> Some "*"%char.
Proof.
  induction s as [|c s IH]; simpl; [discriminate|].
  intros H. apply andb_true_iff in H. destruct H as [Hc Hs].
  destruct s as [|c' s'].
  - intros Heq. injection Heq as ->. discriminate Hc.
  - exact (IH Hs).
Qed.

Lemma session_text_last_char (s : string) :
  session_text s = true -> PyStr.last_char s <> Some "*"%char.
Proof.
  unfold session_text. intros H. apply orb_true_iff in H. destruct H as [H | H].
  - apply uuid_text_last_char. exact H.
  - apply String.eqb_eq in H. subst s. discriminate.
Qed.

(** The key [logout] hands to [delete_session] is none that
    [store_session] writes for a session. *)
Lemma star_key_never_stored (uid sid user_id : string) :
  session_text sid = true ->
  session_key (session_id_of uid sid) <> session_key (user_id +:+ ":*").
Proof.
  intros Hsid Heq. apply (f_equal PyStr.last_char) in Heq.
  unfold session_key, session_id_of in Heq. rewrite !last_char_app in Heq.
  cbn [PyStr.last_char] in Heq.
  pose proof (session_text_last_char sid Hsid) as Hlast.
  destruct (PyStr.last_char sid) as [c|]; [|discriminate].
  injection Heq as ->. contradiction.
Qed.

Lemma star_key_not_blacklist (token user_id : string) :
  blacklist_key token <> session_key (user_id +:+ ":*").
Proof. discriminate. Qed.

Lemma star_key_not_refresh (token user_id : string) :
  refresh_key token <> session_key (user_id +:+ ":*").
Proof. discriminate. Qed.

Lemma reachable_no_star_key (self : data) : reachable self -> no_star_key self.
Proof.
  induction 1 as [ | self now token expires_in _ IH | self now token _ IH
                 | self now uid sid session expires_in _ IH Hsid
                 | self user_id _ IH | self now token user_id expires_in _ IH
                 | self now token _ IH | self token _ IH | self user_id _ IH ];
    intros u e Hin.
  - destruct Hin.
  - apply In_set in Hin. destruct Hin as [[Hk _] | Hin]; [|exact (IH u e Hin)].
    symmetry in Hk. exact (star_key_not_blacklist _ _ Hk).
  - unfold is_token_blacklisted in Hin.
    destruct (PyDict.get _ self) as [e'|]; [|exact (IH u e Hin)].
    destruct (now <? expires e'); [exact (IH u e Hin)|].
    apply In_del in Hin. exact (IH u e Hin).
  - apply In_set in Hin. destruct Hin as [[Hk _] | Hin]; [|exact (IH u e Hin)].
    symmetry in Hk. exact (star_key_never_stored _ _ _ Hsid Hk).
  - unfold delete_session in Hin. destruct (PyDict.mem _ self); [apply In_del in Hin|];
      exact (IH u e Hin).
  - apply In_set in Hin. destruct Hin as [[Hk _] | Hin]; [|exact (IH u e Hin)].
    symmetry in Hk. exact (star_key_not_refresh _ _ Hk).
  - unfold get_refresh_token_data in Hin.
    destruct (PyDict.get _ self) as [e'|]; [|exact (IH u e Hin)].
    destruct (now <? expires e'); [exact (IH u e Hin)|].
    apply In_del in Hin. exact (IH u e Hin).
  - unfold delete_refresh_token in Hin. destruct (PyDict.mem _ self); [apply In_del in Hin|];
      exact (IH u e Hin).
  - apply In_del_all in Hin. exact (IH u e Hin).
Qed.

Lemma delete_session_star (self : data) (user_id : string) :
  no_star_key self -> delete_session self (user_id +:+ ":*") = self.
Proof.
  intros H. unfold delete_session, PyDict.mem.
  rewrite (proj2 (get_None_not_In (session_key (user_id +:+ ":*")) self) (H user_id)).
  reflexivity.
Qed.

Lemma reachable_after_token_steps access_token refresh_token now self :
  reachable self -> reachable (after_token_steps access_token refresh_token now self).
Proof.
  intros H. unfold after_token_steps.
  destruct (present refresh_token); [apply reach_delete_refresh_token|];
    (destruct (present access_token); [apply reach_blacklist_token|]); exact H.
Qed.

(** The token steps leave alone whatever a filter on session keys
    keeps. *)
Lemma filter_after_token_steps (keep : string * entry -> bool)
  access_token refresh_token now self :
  (forall token v, keep (blacklist_key token, v) = false) ->
  (forall token v, keep (refresh_key token, v) = false) ->
  List.filter keep (after_token_steps access_token refresh_token now self)
  = List.filter keep self.
Proof.
  intros Hb Hr. unfold after_token_steps, blacklist_token, delete_refresh_token.
  destruct (present refresh_token) as [rt|].
  - destruct (PyDict.mem _ _).
    + rewrite filter_del by apply Hr.
      destruct (present access_token); [apply filter_set, Hb | reflexivity].
    + destruct (present access_token); [apply filter_set, Hb | reflexivity].
  - destruct (present access_token); [apply filter_set, Hb | reflexivity].
Qed.

Lemma reachable_unique_keys (self : data) :
  reachable self -> List.NoDup (List.map fst self).
Proof.
  induction 1 as [ | self now token expires_in _ IH | self now token _ IH
                 | self now uid sid session expires_in _ IH Hsid
                 | self user_id _ IH | self now token user_id expires_in _ IH
                 | self now token _ IH | self token _ IH | self user_id _ IH ].
  - constructor.
  - apply unique_keys_set, IH.
  - unfold is_token_blacklisted. destruct (PyDict.get _ self) as [e|]; [|exact IH].
    destruct (now <? expires e); [exact IH | apply unique_keys_del, IH].
  - apply unique_keys_set, IH.
  - unfold delete_session. destruct (PyDict.mem _ self); [apply unique_keys_del|]; exact IH.
  - apply unique_keys_set, IH.
  - unfold get_refresh_token_data. destruct (PyDict.get _ self) as [e|]; [|exact IH].
    destruct (now <? expires e); [exact IH | apply unique_keys_del, IH].
  - unfold delete_refresh_token. destruct (PyDict.mem _ self); [apply unique_keys_del|];
      exact IH.
  - apply unique_keys_del_all, IH.
Qed.

Lemma get_after_token_steps access_token refresh_token now self key :
  (forall token, present access_token = Some token -> key <> blacklist_key token) ->
  (forall token, present refresh_token = Some token -> key <> refresh_key token) ->
  PyDict.get key (after_token_steps access_token refresh_token now self) = PyDict.get key self.
Proof.
  intros Ha Hr. unfold after_token_steps, blacklist_token, delete_refresh_token.
  assert (Hset : PyDict.get key
                   match present access_token with
                   | Some token =>
                       PyDict.set (blacklist_key token)
                         (mk_entry (Flag "1")
                            (now + timedelta_seconds (ACCESS_TOKEN_EXPIRE_MINUTES * 60))) self
                   | None => self
                   end = PyDict.get key self).
  { destruct (present access_token) as [token|]; [|reflexivity].
    apply get_set_other, Ha. reflexivity. }
  destruct (present refresh_token) as [token|]; [|exact Hset].
  destruct (PyDict.mem _ _); [|exact Hset].
  rewrite get_del_other by (apply Hr; reflexivity). exact Hset.
Qed.

Lemma get_blacklisted_after_token_steps token refresh_token now self :
  PyDict.get (blacklist_key token) (after_token_steps (Some token) refresh_token now self)
  = match token with
    | EmptyString => PyDict.get (blacklist_key token) self
    | _ => Some (mk_entry (Flag "1") (now + timedelta_seconds 900))
    end.
Proof.
  unfold after_token_steps, blacklist_token, delete_refresh_token.
  assert (Hdel : forall (d : data) (rt : string), PyDict.get (blacklist_key token)
                                (if PyDict.mem (refresh_key rt) d
                                 then PyDict.del (refresh_key rt) d else d)
                              = PyDict.get (blacklist_key token) d).
  { intros d rt. destruct (PyDict.mem _ d); [|reflexivity].
    apply get_del_other. discriminate. }
  destruct token as [|c token]; cbn [present].
  - destruct (present refresh_token); [apply Hdel | reflexivity].
  - destruct (present refresh_token); [rewrite Hdel|]; apply get_set_same.
Qed.

Lemma get_refresh_after_token_steps access_token token now self :
  reachable self -> token <> EmptyString ->
  PyDict.get (refresh_key token) (after_token_steps access_token (Some token) now self) = None.
Proof.
  intros Hreach Hne.
  pose proof (reachable_unique_keys _
                (reachable_after_token_steps access_token None now self Hreach)) as Hnd.
  unfold after_token_steps in *. cbn [present] in Hnd.
  destruct token as [|c token]; [congruence|]. cbn [present].
  unfold delete_refresh_token, PyDict.mem.
  set (d := match present access_token with
            | Some t => blacklist_token self now t (ACCESS_TOKEN_EXPIRE_MINUTES * 60)
            | None => self
            end) in *.
  destruct (PyDict.get (refresh_key (String c token)) d) eqn:E; [|exact E].
  apply get_del_same. exact Hnd.
Qed.

(** The handler of [logout], on a store the application has built,
    removes no session record.  The key it hands to [delete_session] is
    ["session:{user_id}:*"], which [store_session] never writes for a
    session [f"{user.id}:{session_id}"] and which the store does not
    hold; so the call changes nothing, and the store after the handler
    is the store after the two token steps.  The handler leaves the
    session records and the answers of [get_user_sessions] as they
    were when it started; only the blacklist entry of the access token
    is added and the entry of the refresh token presented is deleted,
    every other key keeping its entry; and the response deletes the two
    cookies. *)
Lemma logout_handler_keeps_every_session :
  (forall uid sid user_id : string,
      session_text sid = true ->
      session_key (session_id_of uid sid) <> session_key (user_id +:+ ":*")) /\
  forall self : data,
    reachable self ->
    forall (access_token refresh_token : option string) (current_user : User.t) (now : Z),
    exists after : data,
      logout access_token refresh_token current_user now self
      = ("Successfully logged out"%string, [SESSION_COOKIE_NAME; REFRESH_COOKIE_NAME], after) /\
      PyDict.get (session_key (User.id current_user +:+ ":*")) self = None /\
      after = after_token_steps access_token refresh_token now self /\
      session_records after = session_records self /\
      (forall (user_id : string) (now' : Z),
          get_user_sessions after now' user_id = get_user_sessions self now' user_id) /\
      (forall key : string,
          (forall token, present access_token = Some token -> key <> blacklist_key token) ->
          (forall token, present refresh_token = Some token -> key <> refresh_key token) ->
          PyDict.get key after = PyDict.get key self) /\
      (forall token : string,
          present access_token = Some token ->
          PyDict.get (blacklist_key token) after
          = Some (mk_entry (Flag "1") (now + timedelta_seconds 900))) /\
      (forall token : string,
          present refresh_token = Some token ->
          PyDict.get (refresh_key token) after = None).
Proof.
  split; [exact star_key_never_stored|].
  intros self Hreach access_token refresh_token current_user now.
  exists (after_token_steps access_token refresh_token now self).
  pose proof (reachable_no_star_key _ Hreach) as Hstar.
  pose proof (reachable_no_star_key _
                (reachable_after_token_steps access_token refresh_token now self Hreach))
    as Hstar'.
  split; [|split; [|split; [|split; [|split; [|split; [|split]]]]]].
  - unfold logout. fold (after_token_steps access_token refresh_token now self).
    rewrite (delete_session_star _ (User.id current_user) Hstar'). reflexivity.
  - apply get_None_not_In. apply Hstar.
  - reflexivity.
  - unfold session_records. apply filter_after_token_steps; reflexivity.
  - intros user_id now'. unfold get_user_sessions. f_equal.
    apply filter_after_token_steps; reflexivity.
  - intros key. apply get_after_token_steps.
  - intros token Htoken.
    destruct access_token as [[|c a]|]; try discriminate. injection Htoken as <-.
    apply (get_blacklisted_after_token_steps (String c a)).
  - intros token Htoken.
    destruct refresh_token as [[|c r]|]; try discriminate. injection Htoken as <-.
    apply get_refresh_after_token_steps; [exact Hreach | discriminate].
Qed.

Lemma samples_redis_reachable : reachable Samples.redis.
Proof.
  unfold Samples.redis.
  apply reach_store_refresh_token.
  apply reach_store_session; [|reflexivity].
  apply reach_store_session; [|reflexivity].
  apply reach_init.
Qed.

End Logout.

(** ** Further properties of api/v1/endpoints/jobs.py *)

Section JobListing.
Import Jobs.

Lemma first_app_fresh {A : Type} (cond : A -> bool) (table : list A) (row : A) :
  (forall r, In r table -> cond r = false) -> cond row = true ->
  DB.first cond (table ++ [row]) = Some row.
Proof.
  intros Hfresh Hrow. unfold DB.first. induction table as [|r table IH]; simpl.
  - rewrite Hrow. reflexivity.
  - rewrite (Hfresh r (or_introl eq_refl)). apply IH. intros r' Hin. apply Hfresh. right. exact Hin.
Qed.

(** With unique keys, a row of the table is the one its key finds. *)
Lemma first_by_key {A : Type} (key : A -> string) (table : list A) (row : A) :
  NoDup (List.map key table) -> In row table ->
  DB.first (fun r => String.eqb (key r) (key row)) table = Some row.
Proof.
  unfold DB.first. induction table as [|r table IH]; simpl; intros Hnd Hin; [contradiction|].
  apply NoDup_cons in Hnd. destruct Hnd as [Hfresh Hnd].
  destruct Hin as [-> | Hin].
  - rewrite String.eqb_refl. reflexivity.
  - destruct (String.eqb_spec (key r) (key row)) as [Heq | _]; [|exact (IH Hnd Hin)].
    exfalso. apply Hfresh. rewrite Heq. apply list_elem_of_In, in_map, Hin.
Qed.

Lemma uuid_ne_refl (a : option UUID) : uuid_ne a a = false.
Proof. unfold uuid_ne. rewrite bool_decide_eq_true_2; reflexivity. Qed.

(** A user without a company cannot create a job.  With a company and a
    fresh key, the job is stored with the creator's identifier and
    company and the status ["active"], and the creator reads it back
    through [get_job] and finds it in [get_jobs]. *)
Theorem create_job_belongs_to_creator :
  forall (new_id : UUID) (job_data : JobCreate.t) (current_user : User.t) (db : DB.t),
    (User.company_id current_user = None ->
     create_job new_id job_data current_user db
     = (HTTPError 400 "Recruiter must be assigned to a company to create jobs", db)) /\
    (forall company_id : UUID,
        User.company_id current_user = Some company_id ->
        (forall job, In job (DB.jobs db) -> Job.id job <> new_id) ->
        exists job : Job.t,
          create_job new_id job_data current_user db
          = (HTTPOk job, DB.with_jobs db (DB.jobs db ++ [job])) /\
          Job.id job = new_id /\ Job.user_id job = User.id current_user /\
          Job.company_id job = Some company_id /\ Job.status job = Some "active"%string /\
          Job.title job = Some (JobCreate.title job_data) /\
          get_job new_id current_user (snd (create_job new_id job_data current_user db))
          = HTTPOk job /\
          In job (get_jobs current_user (snd (create_job new_id job_data current_user db)))).
Proof.
  intros new_id job_data current_user db. split.
  - intros Hnone. unfold create_job. rewrite Hnone. reflexivity.
  - intros company_id Hcompany Hfresh. unfold create_job. rewrite Hcompany. cbn [truthy negb].
    cbn [DB.with_jobs DB.jobs].
    set (job := Job.mk new_id (User.id current_user) (Some company_id)
                  (Some (JobCreate.title job_data)) (JobCreate.location job_data)
                  (Some (JobCreate.description job_data)) (JobCreate.requirements job_data)
                  (JobCreate.experience_level job_data) (JobCreate.salary_range job_data)
                  (Some "active"%string)).
    assert (Hfirst : DB.first (has_id new_id) (DB.jobs db ++ [job]) = Some job).
    { apply first_app_fresh.
      - intros r Hin. unfold has_id. apply String.eqb_neq. exact (Hfresh r Hin).
      - unfold has_id, job. cbn [Job.id]. apply String.eqb_refl. }
    rewrite Hfirst. exists job. repeat split.
    + unfold get_job. cbn [snd DB.with_jobs DB.jobs]. rewrite Hfirst, Hcompany.
      cbn [truthy]. unfold job at 1. cbn [Job.company_id]. rewrite uuid_ne_refl.
      rewrite !andb_false_r. reflexivity.
    + unfold get_jobs. cbn [snd DB.with_jobs DB.jobs]. rewrite Hcompany.
      assert (Hin : In job (List.filter is_active_job (DB.jobs db ++ [job]))).
      { apply filter_In. split; [apply in_or_app; right; left; reflexivity | reflexivity]. }
      destruct (_ && _); [|exact Hin].
      apply filter_In. split; [exact Hin|]. apply bool_decide_eq_true_2. reflexivity.
Qed.

(** The sample recruiter posts a job. *)
Lemma create_job_belongs_to_creator_witness :
  exists job : Job.t,
    create_job "j-new" Samples.new_job Samples.rachel Samples.db
    = (HTTPOk job, DB.with_jobs Samples.db (DB.jobs Samples.db ++ [job])) /\
    Job.company_id job = Some "c-acme"%string /\
    get_job "j-new" Samples.rachel
      (snd (create_job "j-new" Samples.new_job Samples.rachel Samples.db))
    = HTTPOk job.
Proof.
  destruct (proj2 (create_job_belongs_to_creator "j-new" Samples.new_job Samples.rachel
                     Samples.db) "c-acme"%string eq_refl)
    as (job & Hcreate & _ & _ & Hcompany & _ & _ & Hget & _).
  - intros job [<- | [<- | [<- | []]]]; discriminate.
  - exists job. split; [exact Hcreate|]. split; [exact Hcompany | exact Hget].
Defined.

(** Every job [get_jobs] lists is an active job of the table, of the
    recruiter's own company when the user is a recruiter with a company;
    and, keys being unique, [get_job] serves it to the same user. *)
Theorem get_jobs_lists_what_get_job_serves :
  forall (current_user : User.t) (db : DB.t) (job : Job.t),
    In job (get_jobs current_user db) ->
    In job (DB.jobs db) /\ Job.status job = Some "active"%string /\
    (User.role current_user = "recruiter"%string ->
     forall company_id : UUID,
       User.company_id current_user = Some company_id ->
       Job.company_id job = Some company_id) /\
    (NoDup (List.map Job.id (DB.jobs db)) ->
     get_job (Job.id job) current_user db = HTTPOk job).
Proof.
  intros current_user db job Hin. unfold get_jobs in Hin.
  assert (Hbase : In job (DB.jobs db) /\ Job.status job = Some "active"%string /\
                  (String.eqb (User.role current_user) "recruiter"
                   && truthy (User.company_id current_user) = true ->
                   Job.company_id job = User.company_id current_user)).
  { destruct (_ && _) eqn:E.
    - apply filter_In in Hin. destruct Hin as [Hin Hc]. apply filter_In in Hin.
      destruct Hin as [Hin Ha]. apply bool_decide_eq_true in Hc, Ha. tauto.
    - apply filter_In in Hin. destruct Hin as [Hin Ha]. apply bool_decide_eq_true in Ha.
      split; [exact Hin|]. split; [exact Ha | discriminate]. }
  destruct Hbase as (Htable & Hactive & Hcompany).
  split; [exact Htable|]. split; [exact Hactive|]. split.
  - intros Hrole company_id Hc. rewrite <- Hc. apply Hcompany.
    rewrite Hrole, Hc. reflexivity.
  - intros Hnd. unfold get_job.
    assert (Hfirst : DB.first (has_id (Job.id job)) (DB.jobs db) = Some job)
      by exact (first_by_key Job.id (DB.jobs db) job Hnd Htable).
    rewrite Hfirst.
    destruct (String.eqb (User.role current_user) "recruiter"
              && truthy (User.company_id current_user)) eqn:E; [|reflexivity].
    rewrite (Hcompany eq_refl), uuid_ne_refl. reflexivity.
Qed.

Lemma get_jobs_lists_what_get_job_serves_witness :
  get_jobs Samples.rachel Samples.db = [Samples.backend_job] /\
  get_job "j-backend" Samples.rachel Samples.db = HTTPOk Samples.backend_job.
Proof.
  assert (E : get_jobs Samples.rachel Samples.db = [Samples.backend_job])
    by (vm_compute; reflexivity).
  split; [exact E|].
  apply (get_jobs_lists_what_get_job_serves Samples.rachel Samples.db Samples.backend_job).
  - rewrite E. left. reflexivity.
  - cbn. repeat (apply NoDup_cons_2; [rewrite ?elem_of_cons, elem_of_nil; intuition discriminate|]).
    apply NoDup_nil_2.
Defined.

End JobListing.

(** ** Further properties of api/v1/endpoints/applications.py *)

Section ApplicationAccess.
Import Applications.

(** A candidate reads and deletes no application but their own: the
    list holds their own applications only, and [get_application] and
    [delete_application] answer 403 on another user's application, the
    table staying as it was; their own application they read. *)
Theorem candidate_is_confined_to_own_applications :
  forall (candidate : User.t) (db : DB.t),
    User.role candidate = "candidate"%string ->
    (forall a, In a (get_applications candidate db) <->
               In a (DB.applications db) /\ Application.user_id a = User.id candidate) /\
    (forall (application_id : string) (a : Application.t),
        DB.first (has_id application_id) (DB.applications db) = Some a ->
        (Application.user_id a <> User.id candidate ->
         get_application application_id candidate db
         = HTTPError 403 "Not enough permissions to view this application" /\
         delete_application application_id candidate db
         = (HTTPError 403 "Not enough permissions to delete this application", db)) /\
        (Application.user_id a = User.id candidate ->
         get_application application_id candidate db = HTTPOk a)).
Proof.
  intros candidate db Hrole. split.
  - intros a. unfold get_applications. rewrite Hrole. cbn [String.eqb Ascii.eqb Bool.eqb].
    rewrite filter_In, String.eqb_eq. reflexivity.
  - intros application_id a Hfirst. split.
    + intros Hother. unfold get_application, delete_application, check_permissions.
      rewrite Hfirst, Hrole. cbn [String.eqb Ascii.eqb Bool.eqb andb].
      rewrite (proj2 (String.eqb_neq _ _) Hother). cbn [negb]. split; reflexivity.
    + intros Hown. unfold get_application, check_permissions.
      rewrite Hfirst, Hrole, Hown, !String.eqb_refl. reflexivity.
Qed.

Lemma candidate_is_confined_to_own_applications_witness :
  get_applications Samples.carl Samples.db_with_two_applications = [Samples.carl_application] /\
  get_application "a-9" Samples.carl Samples.db_with_two_applications
  = HTTPError 403 "Not enough permissions to view this application" /\
  delete_application "a-9" Samples.carl Samples.db_with_two_applications
  = (HTTPError 403 "Not enough permissions to delete this application",
     Samples.db_with_two_applications).
Proof.
  destruct (candidate_is_confined_to_own_applications Samples.carl
              Samples.db_with_two_applications eq_refl) as [_ Hother].
  split; [reflexivity|].
  apply (proj1 (Hother "a-9"%string Samples.dora_application eq_refl)). discriminate.
Defined.

(** A recruiter without a company is shown every application by
    [get_applications], and yet is refused each of them, with 403, by
    [get_application] and [delete_application]. *)
Theorem recruiter_without_company_lists_all_reads_none :
  forall (recruiter : User.t) (db : DB.t),
    User.role recruiter = "recruiter"%string ->
    User.company_id recruiter = None ->
    get_applications recruiter db = DB.applications db /\
    forall (application_id : string) (a : Application.t),
      DB.first (has_id application_id) (DB.applications db) = Some a ->
      get_application application_id recruiter db
      = HTTPError 403 "Not enough permissions to view this application" /\
      delete_application application_id recruiter db
      = (HTTPError 403 "Not enough permissions to delete this application", db).
Proof.
  intros recruiter db Hrole Hcompany. split.
  - unfold get_applications. rewrite Hrole, Hcompany. reflexivity.
  - intros application_id a Hfirst.
    unfold get_application, delete_application, check_permissions.
    rewrite Hfirst, Hrole, Hcompany. split; reflexivity.
Qed.

Lemma recruiter_without_company_lists_all_reads_none_witness :
  get_applications Samples.freelancer Samples.db_with_two_applications
  = [Samples.carl_application; Samples.dora_application] /\
  get_application "a-3" Samples.freelancer Samples.db_with_two_applications
  = HTTPError 403 "Not enough permissions to view this application".
Proof.
  destruct (recruiter_without_company_lists_all_reads_none Samples.freelancer
              Samples.db_with_two_applications eq_refl eq_refl) as [Hlist Hread].
  split; [exact Hlist|].
  exact (proj1 (Hread "a-3"%string Samples.carl_application eq_refl)).
Defined.

Lemma In_join_jobs_of_company (company_id : option UUID) (db : DB.t) (a : Application.t) :
  In a (join_jobs_of_company company_id db) <->
  In a (DB.applications db) /\
  exists job, In job (DB.jobs db) /\ Job.id job = Application.job_id a /\
              Job.company_id job = company_id.
Proof.
  unfold join_jobs_of_company. rewrite in_flat_map. split.
  - intros (a' & Hin & Hmap). apply in_map_iff in Hmap. destruct Hmap as (job & <- & Hjob).
    apply filter_In in Hjob. destruct Hjob as [Hjob Hcond].
    apply andb_true_iff in Hcond. destruct Hcond as [Hid Hc].
    apply String.eqb_eq in Hid. apply bool_decide_eq_true in Hc.
    split; [exact Hin|]. exists job. tauto.
  - intros (Hin & job & Hjob & Hid & Hc). exists a. split; [exact Hin|].
    apply in_map_iff. exists job. split; [reflexivity|]. apply filter_In. split; [exact Hjob|].
    apply andb_true_iff. split; [apply String.eqb_eq; exact Hid|].
    apply bool_decide_eq_true_2. exact Hc.
Qed.

(** For a recruiter with a company, keys being unique, the list of
    [get_applications] holds exactly the applications [get_application]
    serves: those whose job is a job of the company. *)
Theorem recruiter_list_is_what_get_application_serves :
  forall (recruiter : User.t) (company_id : UUID) (db : DB.t),
    User.role recruiter = "recruiter"%string ->
    User.company_id recruiter = Some company_id ->
    NoDup (List.map Job.id (DB.jobs db)) ->
    NoDup (List.map Application.id (DB.applications db)) ->
    forall a : Application.t,
      In a (get_applications recruiter db) <->
      In a (DB.applications db) /\
      get_application (Application.id a) recruiter db = HTTPOk a.
Proof.
  intros recruiter company_id db Hrole Hcompany Hjobs Hkeys a.
  unfold get_applications. rewrite Hrole, Hcompany.
  cbn [String.eqb Ascii.eqb Bool.eqb orb andb Jobs.truthy].
  rewrite In_join_jobs_of_company.
  assert (Hget : In a (DB.applications db) ->
                 get_application (Application.id a) recruiter db
                 = match job_of a db with
                   | None => HTTPError 500 "Internal Server Error"
                   | Some job =>
                       if Jobs.uuid_ne (Job.company_id job) (Some company_id)
                       then HTTPError 403 "Not enough permissions to view this application"
                       else HTTPOk a
                   end).
  { intros Hin. unfold get_application, check_permissions.
    assert (Hfirst : DB.first (has_id (Application.id a)) (DB.applications db) = Some a)
      by exact (first_by_key Application.id (DB.applications db) a Hkeys Hin).
    rewrite Hfirst, Hrole, Hcompany. cbn [String.eqb Ascii.eqb Bool.eqb andb Jobs.truthy negb].
    destruct (job_of a db) as [job|]; [|reflexivity].
    destruct (Jobs.uuid_ne _ _); reflexivity. }
  split.
  - intros (Hin & job & Hjob & Hid & Hc). split; [exact Hin|]. rewrite (Hget Hin).
    unfold job_of. rewrite <- Hid.
    change (Jobs.has_id (Job.id job)) with (fun r => String.eqb (Job.id r) (Job.id job)).
    rewrite (first_by_key Job.id (DB.jobs db) job Hjobs Hjob), Hc, uuid_ne_refl. reflexivity.
  - intros [Hin Hserved]. split; [exact Hin|]. rewrite (Hget Hin) in Hserved.
    unfold job_of in Hserved.
    destruct (DB.first _ (DB.jobs db)) as [job|] eqn:E; [|discriminate].
    apply first_Some_In in E. destruct E as [Hjob Hid].
    exists job. split; [exact Hjob|]. split; [apply String.eqb_eq; exact Hid|].
    unfold Jobs.uuid_ne in Hserved.
    destruct (bool_decide (Job.company_id job = Some company_id)) eqn:G;
      [apply bool_decide_eq_true in G; exact G | discriminate].
Qed.

Lemma recruiter_list_is_what_get_application_serves_witness :
  get_applications Samples.rachel Samples.db_with_two_applications
  = [Samples.carl_application] /\
  get_application "a-3" Samples.rachel Samples.db_with_two_applications
  = HTTPOk Samples.carl_application.
Proof.
  assert (E : get_applications Samples.rachel Samples.db_with_two_applications
              = [Samples.carl_application]) by (vm_compute; reflexivity).
  split; [exact E|].
  refine (proj2 (proj1 (recruiter_list_is_what_get_application_serves Samples.rachel
                          "c-acme"%string Samples.db_with_two_applications eq_refl eq_refl
                          _ _ Samples.carl_application) _)).
  - cbn. repeat (apply NoDup_cons_2; [rewrite ?elem_of_cons, elem_of_nil; intuition discriminate|]).
    apply NoDup_nil_2.
  - cbn. repeat (apply NoDup_cons_2; [rewrite ?elem_of_cons, elem_of_nil; intuition discriminate|]).
    apply NoDup_nil_2.
  - rewrite E. left. reflexivity.
Defined.

End ApplicationAccess.

(** ** Further properties of api/v1/endpoints/companies.py *)

Section CreateCompany.
Import Companies.

Lemma NoDup_snoc {A : Type} (l : list A) (x : A) :
  List.NoDup l -> ~ In x l -> List.NoDup (l ++ [x]).
Proof.
  induction l as [|y l IH]; simpl; intros Hnd Hx.
  - constructor; [intros [] | constructor].
  - apply List.NoDup_cons_iff in Hnd. destruct Hnd as [Hy Hnd].
    constructor; [|apply IH; tauto].
    intros Hin. apply in_app_or in Hin. destruct Hin as [Hin | [-> | []]]; tauto.
Qed.

(** [create_company] refuses a name a company already has, with 400 and
    no change; it stores a company under a new name, which [get_company]
    then serves when the key is fresh; and either way the names of the
    table stay free of duplicates. *)
Theorem create_company_keeps_names_unique :
  forall (new_id : UUID) (company_data : CompanyCreate.t) (current_user : User.t) (db : DB.t),
    ((exists c, In c (DB.companies db) /\ Company.name c = CompanyCreate.name company_data) ->
     create_company new_id company_data current_user db
     = (HTTPError 400 "Company with this name already exists", db)) /\
    ((forall c, In c (DB.companies db) -> Company.name c <> CompanyCreate.name company_data) ->
     exists company : Company.t,
       create_company new_id company_data current_user db
       = (HTTPOk company, DB.with_companies db (DB.companies db ++ [company])) /\
       Company.id company = new_id /\
       Company.name company = CompanyCreate.name company_data /\
       ((forall c, In c (DB.companies db) -> Company.id c <> new_id) ->
        get_company new_id current_user
          (snd (create_company new_id company_data current_user db))
        = HTTPOk company)) /\
    (List.NoDup (List.map Company.name (DB.companies db)) ->
     List.NoDup (List.map Company.name
                   (DB.companies (snd (create_company new_id company_data current_user db))))).
Proof.
  intros new_id company_data current_user db.
  set (same_name := fun c => String.eqb (Company.name c) (CompanyCreate.name company_data)).
  split; [|split].
  - intros (c & Hin & Hname). unfold create_company. fold same_name.
    destruct (first_exists same_name (DB.companies db) c Hin) as [c' Hc'].
    { unfold same_name. apply String.eqb_eq. exact Hname. }
    rewrite Hc'. reflexivity.
  - intros Hnew. unfold create_company. fold same_name.
    destruct (DB.first same_name (DB.companies db)) as [c|] eqn:E.
    { apply first_Some_In in E. destruct E as [Hin Hc]. unfold same_name in Hc.
      apply String.eqb_eq in Hc. exfalso. exact (Hnew c Hin Hc). }
    eexists. split; [reflexivity|]. split; [reflexivity|]. split; [reflexivity|].
    intros Hfresh. unfold get_company. cbn [snd DB.with_companies DB.companies].
    rewrite first_app_fresh; [reflexivity| |].
    + intros r Hin. unfold has_id. apply String.eqb_neq. exact (Hfresh r Hin).
    + unfold has_id. cbn [Company.id]. apply String.eqb_refl.
  - intros Hnd. unfold create_company. fold same_name.
    destruct (DB.first same_name (DB.companies db)) as [c|] eqn:E; [exact Hnd|].
    cbn [snd DB.with_companies DB.companies]. rewrite map_app. cbn [List.map Company.name].
    apply NoDup_snoc; [exact Hnd|].
    intros Hin. apply in_map_iff in Hin. destruct Hin as (c & Hname & Hin).
    pose proof (find_none _ _ E c Hin) as Hc. unfold same_name in Hc.
    apply String.eqb_neq in Hc. congruence.
Qed.

Lemma create_company_keeps_names_unique_witness :
  create_company "c-new" Samples.acme_again Samples.root Samples.db
  = (HTTPError 400 "Company with this name already exists", Samples.db) /\
  exists company : Company.t,
    create_company "c-new" Samples.umbrella Samples.root Samples.db
    = (HTTPOk company, DB.with_companies Samples.db (DB.companies Samples.db ++ [company])) /\
    Company.name company = "Umbrella"%string.
Proof.
  destruct (create_company_keeps_names_unique "c-new" Samples.acme_again Samples.root
              Samples.db) as (Hdup & _ & _).
  destruct (create_company_keeps_names_unique "c-new" Samples.umbrella Samples.root
              Samples.db) as (_ & Hnew & _).
  split.
  - apply Hdup. exists Samples.acme. split; [left; reflexivity | reflexivity].
  - destruct Hnew as (company & Hcreate & _ & Hname & _).
    + intros c [<- | [<- | [<- | []]]]; discriminate.
    + exists company. split; [exact Hcreate | exact Hname].
Defined.

End CreateCompany.

(** ** Further properties of core/rate_limiter_simple.py *)

Section RateLimiterInGeneral.
Import RateLimiter.

(** A limit is [count/period] when it splits at its one slash into a
    count [int] reads as [n] and a period whose window is [window]. *)
Lemma is_allowed_parsed (self : t) (now : Z) (key limit count period : string) (n window : Z) :
  PyStr.split_on (Ascii.eqb "/") limit = [count; period] ->
  PyStr.int count = Some n -> window_of period = Some window ->
  is_allowed self now key limit =
  let kept :=
    match requests self !! key with
    | Some times => kept_at now window times
    | None => []
    end in
  if Z.of_nat (length kept) <? n
  then ((true, 0), mk (<[key := kept ++ [now]]> (requests self)))
  else ((false, Z.of_nat (length kept)), mk (<[key := kept]> (requests self))).
Proof. intros Hsplit Hint Hwindow. unfold is_allowed. rewrite Hsplit, Hint, Hwindow. reflexivity. Qed.

Lemma split_no_separator (is_sep : ascii -> bool) (s : string) :
  (forall c, In c (list_ascii_of_string s) -> is_sep c = false) ->
  PyStr.split_on is_sep s = [s].
Proof.
  induction s as [|c s IH]; simpl; intros H; [reflexivity|].
  rewrite (H c (or_introl eq_refl)), IH; [reflexivity|].
  intros c' Hin. apply H. right. exact Hin.
Qed.

Lemma split_at_separator (is_sep : ascii -> bool) (a b : string) (sep : ascii) :
  (forall c, In c (list_ascii_of_string a) -> is_sep c = false) ->
  is_sep sep = true ->
  PyStr.split_on is_sep (a +:+ String sep b) = a :: PyStr.split_on is_sep b.
Proof.
  induction a as [|c a IH]; intros Ha Hsep.
  - change (EmptyString +:+ String sep b) with (String sep b). simpl. rewrite Hsep. reflexivity.
  - change (String c a +:+ String sep b) with (String c (a +:+ String sep b)).
    cbn [PyStr.split_on]. rewrite (Ha c (or_introl eq_refl)).
    rewrite IH; [reflexivity| |exact Hsep].
    intros c' Hin. apply Ha. right. exact Hin.
Qed.

Lemma split_limit (count period : string) :
  slash_free count -> slash_free period ->
  PyStr.split_on (Ascii.eqb "/") (count +:+ "/" +:+ period) = [count; period].
Proof.
  intros Hc Hp. change (count +:+ "/" +:+ period) with (count +:+ String "/" period).
  rewrite (split_at_separator _ count period "/" Hc eq_refl).
  rewrite (split_no_separator _ period Hp). reflexivity.
Qed.

(** The limiter fails open: a limit without a slash, an ASCII count that
    [int] does not read, or a period other than minute, hour and day
    lets every request through and records nothing. *)
Theorem unreadable_limit_allows_everything :
  forall (self : t) (now : Z) (key : string),
    (forall limit : string,
        slash_free limit -> is_allowed self now key limit = ((true, 0), self)) /\
    (forall count period : string,
        slash_free count -> slash_free period ->
        PyStr.isascii count = true ->
        PyStr.int count = None ->
        is_allowed self now key (count +:+ "/" +:+ period) = ((true, 0), self)) /\
    (forall count period : string,
        slash_free count -> slash_free period ->
        period <> "minute"%string -> period <> "hour"%string -> period <> "day"%string ->
        is_allowed self now key (count +:+ "/" +:+ period) = ((true, 0), self)).
Proof.
  intros self now key. split; [|split].
  - intros limit Hfree. unfold is_allowed. rewrite (split_no_separator _ limit Hfree).
    reflexivity.
  - intros count period Hc Hp _ Hint. unfold is_allowed. rewrite (split_limit _ _ Hc Hp), Hint.
    reflexivity.
  - intros count period Hc Hp Hm Hh Hd. unfold is_allowed. rewrite (split_limit _ _ Hc Hp).
    destruct (PyStr.int count); [|reflexivity].
    unfold window_of.
    rewrite (proj2 (String.eqb_neq _ _) Hm), (proj2 (String.eqb_neq _ _) Hh),
      (proj2 (String.eqb_neq _ _) Hd).
    reflexivity.
Qed.

Lemma slash_free_decide (s : string) :
  forallb (fun c => negb (Ascii.eqb "/" c)) (list_ascii_of_string s) = true -> slash_free s.
Proof.
  intros H c Hin. rewrite forallb_forall in H. apply negb_true_iff, H, Hin.
Qed.

(** After the five requests that exhaust ["5/minute"]: a limit per
    second, which the limiter does not know, and a count that starts
    with the separator [\x1c], which [int] does not skip. *)
Lemma unreadable_limit_allows_everything_witness :
  is_allowed (snd (checks init "k" "5/minute" [0; 1; 2; 3; 4])) 5 "k" "5/second"
  = ((true, 0), snd (checks init "k" "5/minute" [0; 1; 2; 3; 4])) /\
  is_allowed (snd (checks init "k" "5/minute" [0; 1; 2; 3; 4])) 5 "k"
    (String (ascii_of_N 28) "5" +:+ "/" +:+ "minute")
  = ((true, 0), snd (checks init "k" "5/minute" [0; 1; 2; 3; 4])) /\
  fst (is_allowed (snd (checks init "k" "5/minute" [0; 1; 2; 3; 4])) 5 "k" "5/minute")
  = (false, 5).
Proof.
  split; [|split].
  - apply (proj2 (proj2 (unreadable_limit_allows_everything
                           (snd (checks init "k" "5/minute" [0; 1; 2; 3; 4])) 5 "k"))
             "5"%string "second"%string).
    + apply slash_free_decide. reflexivity.
    + apply slash_free_decide. reflexivity.
    + discriminate.
    + discriminate.
    + discriminate.
  - apply (proj1 (proj2 (unreadable_limit_allows_everything
                           (snd (checks init "k" "5/minute" [0; 1; 2; 3; 4])) 5 "k"))
             (String (ascii_of_N 28) "5") "minute"%string).
    + apply slash_free_decide. reflexivity.
    + apply slash_free_decide. reflexivity.
    + reflexivity.
    + reflexivity.
  - vm_compute. reflexivity.
Defined.

Section Parsed.
Variables (limit count period : string) (n window : Z).
Hypothesis Hsplit : PyStr.split_on (Ascii.eqb "/") limit = [count; period].
Hypothesis Hint : PyStr.int count = Some n.
Hypothesis Hwindow : window_of period = Some window.

Lemma kept_at_stored (self : t) (now : Z) (key : string) :
  match requests self !! key with
  | Some times => kept_at now window times
  | None => []
  end = kept_at now window (stored self key).
Proof. unfold stored. destruct (requests self !! key); reflexivity. Qed.

Lemma is_allowed_step (self : t) (now : Z) (key : string) :
  is_allowed self now key limit =
  if Z.of_nat (length (kept_at now window (stored self key))) <? n
  then ((true, 0),
        mk (<[key := kept_at now window (stored self key) ++ [now]]> (requests self)))
  else ((false, Z.of_nat (length (kept_at now window (stored self key)))),
        mk (<[key := kept_at now window (stored self key)]> (requests self))).
Proof.
  rewrite (is_allowed_parsed self now key limit count period n window Hsplit Hint Hwindow).
  cbv zeta. rewrite kept_at_stored. reflexivity.
Qed.

Lemma stored_after (self : t) (now : Z) (key : string) :
  stored (snd (is_allowed self now key limit)) key
  = if Z.of_nat (length (kept_at now window (stored self key))) <? n
    then kept_at now window (stored self key) ++ [now]
    else kept_at now window (stored self key).
Proof.
  rewrite is_allowed_step. unfold stored at 1.
  destruct (_ <? n); cbn [snd requests]; rewrite lookup_insert_eq; reflexivity.
Qed.

Lemma stored_other (self : t) (now : Z) (key key' : string) :
  key' <> key -> stored (snd (is_allowed self now key limit)) key' = stored self key'.
Proof.
  intros Hne. rewrite is_allowed_step. unfold stored.
  destruct (_ <? n); cbn [snd requests]; rewrite lookup_insert_ne by congruence; reflexivity.
Qed.

Lemma length_kept_at (now : Z) (times : list Z) :
  (length (kept_at now window times) <= length times)%nat.
Proof. unfold kept_at. apply List.filter_length_le. Qed.

(** The list stored for a key never grows beyond the count. *)
Lemma stored_bounded (self : t) (now : Z) (key : string) :
  Z.of_nat (length (stored self key)) <= Z.max 0 n ->
  Z.of_nat (length (stored (snd (is_allowed self now key limit)) key)) <= Z.max 0 n.
Proof.
  intros H. rewrite stored_after. pose proof (length_kept_at now (stored self key)) as Hk.
  destruct (_ <? n) eqn:E.
  - apply Z.ltb_lt in E. rewrite length_app. simpl. lia.
  - lia.
Qed.

Lemma checks_stored_bounded (key : string) (times : list Z) (self : t) :
  Z.of_nat (length (stored self key)) <= Z.max 0 n ->
  Z.of_nat (length (stored (snd (checks self key limit times)) key)) <= Z.max 0 n.
Proof.
  revert self. induction times as [|now times IH]; intros self H; cbn [checks]; [exact H|].
  destruct (is_allowed self now key limit) as [answer self'] eqn:E.
  specialize (IH self'). destruct (checks self' key limit times) as [answers self''].
  cbn [snd] in *. apply IH.
  replace self' with (snd (is_allowed self now key limit)) by (rewrite E; reflexivity).
  apply stored_bounded. exact H.
Qed.

(** In a burst, every check sees all the timestamps of the burst inside
    its window: the answers then depend on how many are stored. *)
Lemma checks_in_burst (key : string) (times : list Z) :
  forall (self : t),
    (forall t now, In t (stored self key ++ times) -> In now times -> now - window < t) ->
    forall (i : nat) (answer : bool * Z),
      nth_error (fst (checks self key limit times)) i = Some answer ->
      (fst answer = true <-> Z.of_nat (length (stored self key) + i) < n).
Proof.
  induction times as [|now times IH]; intros self Hburst i answer Hnth; cbn [checks] in Hnth.
  - destruct i; discriminate.
  - assert (Hkept : kept_at now window (stored self key) = stored self key).
    { apply kept_at_all. apply Forall_forall. intros t Hin. apply list_elem_of_In in Hin.
      apply Hburst; [apply in_or_app; left; exact Hin | left; reflexivity]. }
    pose proof (stored_after self now key) as Hafter.
    rewrite is_allowed_step, Hkept in Hnth. rewrite Hkept in Hafter.
    rewrite is_allowed_step, Hkept in Hafter.
    destruct (Z.of_nat (length (stored self key)) <? n) eqn:E.
    + set (self' := mk (<[key:=stored self key ++ [now]]> (requests self))) in *.
      cbn [snd] in Hafter.
      specialize (IH self').
      destruct (checks self' key limit times) as [answers self''].
      cbn [fst] in *. apply Z.ltb_lt in E.
      destruct i as [|i]; cbn [nth_error] in Hnth.
      * injection Hnth as <-. cbn [fst]. rewrite Nat.add_0_r. tauto.
      * rewrite (IH ltac:(rewrite Hafter; intros t now' Hin Hnow; apply Hburst;
                          [rewrite <- app_assoc in Hin; exact Hin | right; exact Hnow])
                   i answer Hnth).
        rewrite Hafter, length_app. simpl. lia.
    + set (self' := mk (<[key:=stored self key]> (requests self))) in *.
      cbn [snd] in Hafter.
      specialize (IH self').
      destruct (checks self' key limit times) as [answers self''].
      cbn [fst] in *. apply Z.ltb_ge in E.
      destruct i as [|i]; cbn [nth_error] in Hnth.
      * injection Hnth as <-. cbn [fst]. rewrite Nat.add_0_r. split; [discriminate | lia].
      * rewrite (IH ltac:(rewrite Hafter; intros t now' Hin Hnow; apply Hburst;
                          [apply in_app_or in Hin; apply in_or_app;
                           destruct Hin as [Hin | Hin]; [left; exact Hin | right; right; exact Hin]
                          | right; exact Hnow])
                   i answer Hnth).
        rewrite Hafter. lia.
Qed.

Lemma length_checks (key : string) (times : list Z) (self : t) :
  (length (fst (checks self key limit times)) = length times)%nat.
Proof.
  revert self. induction times as [|now times IH]; intros self; cbn [checks]; [reflexivity|].
  destruct (is_allowed self now key limit) as [answer self'].
  specialize (IH self'). destruct (checks self' key limit times) as [answers self''].
  cbn [fst length] in *. rewrite IH. reflexivity.
Qed.

End Parsed.

Lemma answer_of_stored (s1 s2 : t) (now : Z) (key limit : string) :
  requests s1 !! key = requests s2 !! key ->
  fst (is_allowed s1 now key limit) = fst (is_allowed s2 now key limit).
Proof.
  intros H. unfold is_allowed.
  destruct (PyStr.split_on _ limit) as [|count [|period [|]]]; try reflexivity.
  destruct (PyStr.int count); [|reflexivity].
  destruct (window_of period); [|reflexivity].
  rewrite H. destruct (_ <? _); reflexivity.
Qed.

Lemma requests_other (self : t) (now : Z) (key key' limit : string) :
  key' <> key -> requests (snd (is_allowed self now key limit)) !! key' = requests self !! key'.
Proof.
  intros Hne. unfold is_allowed.
  destruct (PyStr.split_on _ limit) as [|count [|period [|]]]; try reflexivity.
  destruct (PyStr.int count); [|reflexivity].
  destruct (window_of period); [|reflexivity].
  destruct (_ <? _); cbn [snd requests]; rewrite lookup_insert_ne by congruence; reflexivity.
Qed.

(** Whatever the limit ([n] requests per [window], the count written in
    no more than the 4300 characters up to which [int] converts a run of
    digits of any length), a burst of requests of one client, any two of
    them less than a window apart, is cut at the count: of the answers,
    one per request, exactly the first [n] allow. *)
Theorem burst_is_cut_at_the_count :
  forall (limit count period : string) (n window : Z) (key : string) (times : list Z),
    PyStr.split_on (Ascii.eqb "/") limit = [count; period] ->
    (String.length count <= 4300)%nat ->
    PyStr.int count = Some n ->
    window_of period = Some window ->
    (forall t now, In t times -> In now times -> now - window < t) ->
    (length (fst (checks init key limit times)) = length times)%nat /\
    forall (i : nat) (answer : bool * Z),
      nth_error (fst (checks init key limit times)) i = Some answer ->
      (fst answer = true <-> Z.of_nat i < n).
Proof.
  intros limit count period n window key times Hsplit _ Hint Hwindow Hburst. split.
  - exact (length_checks limit key times init).
  - intros i answer Hnth.
    rewrite (checks_in_burst limit count period n window Hsplit Hint Hwindow key times init
               Hburst i answer Hnth).
    reflexivity.
Qed.

(** Three requests an hour: of four requests within twenty minutes,
    not in the order of their clocks, the fourth is refused. *)
Lemma burst_is_cut_at_the_count_witness :
  length (fst (checks init "10.0.0.7" "3/hour" [0; 1200000000; 600000000; 900000000]))
  = 4%nat /\
  forall (i : nat) (answer : bool * Z),
    nth_error (fst (checks init "10.0.0.7" "3/hour" [0; 1200000000; 600000000; 900000000])) i
    = Some answer ->
    (fst answer = true <-> Z.of_nat i < 3).
Proof.
  apply (burst_is_cut_at_the_count "3/hour" "3" "hour" 3 (timedelta_seconds 3600)
           "10.0.0.7" [0; 1200000000; 600000000; 900000000] eq_refl
           ltac:(simpl; lia) eq_refl eq_refl).
  unfold timedelta_seconds. simpl. intros t now Ht Hnow. lia.
Defined.

(** The limits of two clients do not touch: a check of one key, under
    any limit, changes neither what is stored for another key nor the
    answer that key's next check gets. *)
Theorem keys_are_limited_apart :
  forall (self : t) (now now' : Z) (key key' limit limit' : string),
    key' <> key ->
    stored (snd (is_allowed self now key limit)) key' = stored self key' /\
    fst (is_allowed (snd (is_allowed self now key limit)) now' key' limit')
    = fst (is_allowed self now' key' limit').
Proof.
  intros self now now' key key' limit limit' Hne. split.
  - unfold stored. rewrite requests_other by exact Hne. reflexivity.
  - apply answer_of_stored. apply requests_other. exact Hne.
Qed.

(** One client used up its five requests; another is still served. *)
Lemma keys_are_limited_apart_witness :
  fst (is_allowed (snd (checks init "a" "5/minute" [0; 1; 2; 3; 4])) 5 "a" "5/minute")
  = (false, 5) /\
  fst (is_allowed (snd (is_allowed (snd (checks init "a" "5/minute" [0; 1; 2; 3; 4]))
                          5 "a" "5/minute")) 6 "b" "5/minute")
  = (true, 0).
Proof.
  split; [vm_compute; reflexivity|].
  rewrite (proj2 (keys_are_limited_apart (snd (checks init "a" "5/minute" [0; 1; 2; 3; 4]))
                    5 6 "a" "b" "5/minute" "5/minute" ltac:(discriminate))).
  vm_compute. reflexivity.
Defined.

(** The limiter's memory is bounded: however many requests a client
    makes, and whenever, the limiter holds at most [n] timestamps for
    it. *)
Theorem stored_timestamps_are_bounded :
  forall (limit count period : string) (n window : Z) (key : string) (times : list Z),
    PyStr.split_on (Ascii.eqb "/") limit = [count; period] ->
    PyStr.int count = Some n ->
    window_of period = Some window ->
    Z.of_nat (length (stored (snd (checks init key limit times)) key)) <= Z.max 0 n.
Proof.
  intros limit count period n window key times Hsplit Hint Hwindow.
  apply (checks_stored_bounded limit count period n window Hsplit Hint Hwindow).
  unfold stored, init. cbn [requests]. rewrite lookup_empty. simpl. lia.
Qed.

(** Eight requests against two a minute leave two timestamps. *)
Lemma stored_timestamps_are_bounded_witness :
  Z.of_nat (length (stored (snd (checks init "k" "2/minute" [0; 1; 2; 3; 4; 5; 6; 7])) "k"))
  <= Z.max 0 2.
Proof.
  exact (stored_timestamps_are_bounded "2/minute" "2" "minute" 2 (timedelta_seconds 60) "k"
           [0; 1; 2; 3; 4; 5; 6; 7] eq_refl eq_refl eq_refl).
Defined.

End RateLimiterInGeneral.

(** ** Further properties of core/redis_client_simple.py and core/auth.py *)

Section TokensAndSessions.
Import SimpleRedisClient Auth.

Lemma blacklist_key_inj (t t' : string) : blacklist_key t = blacklist_key t' -> t = t'.
Proof. unfold blacklist_key. cbn. intros H. injection H as H. exact H. Qed.

Lemma refresh_key_inj (t t' : string) : refresh_key t = refresh_key t' -> t = t'.
Proof. unfold refresh_key. cbn. intros H. injection H as H. exact H. Qed.

Lemma session_key_inj (t t' : string) : session_key t = session_key t' -> t = t'.
Proof. unfold session_key. cbn. intros H. injection H as H. exact H. Qed.

Lemma blacklist_not_session (t u : string) : blacklist_key t <> session_key u.
Proof. unfold blacklist_key, session_key. cbn. discriminate. Qed.

Lemma refresh_not_session (t u : string) : refresh_key t <> session_key u.
Proof. unfold refresh_key, session_key. cbn. discriminate. Qed.

Lemma blacklist_not_refresh (t u : string) : blacklist_key t <> refresh_key u.
Proof. unfold blacklist_key, refresh_key. cbn. discriminate. Qed.

Lemma get_delete_session_other (self : data) (user_id key : string) :
  key <> session_key user_id -> PyDict.get key (delete_session self user_id) = PyDict.get key self.
Proof.
  intros Hne. unfold delete_session. destruct (PyDict.mem _ self); [|reflexivity].
  apply get_del_other. exact Hne.
Qed.

Lemma get_delete_session_same (self : data) (user_id : string) :
  List.NoDup (List.map fst self) ->
  PyDict.get (session_key user_id) (delete_session self user_id) = None.
Proof.
  intros Hnd. unfold delete_session, PyDict.mem.
  destruct (PyDict.get (session_key user_id) self) eqn:E; [|exact E].
  apply get_del_same. exact Hnd.
Qed.

Lemma get_delete_refresh_other (self : data) (token key : string) :
  key <> refresh_key token ->
  PyDict.get key (delete_refresh_token self token) = PyDict.get key self.
Proof.
  intros Hne. unfold delete_refresh_token. destruct (PyDict.mem _ self); [|reflexivity].
  apply get_del_other. exact Hne.
Qed.

Lemma get_delete_refresh_same (self : data) (token : string) :
  List.NoDup (List.map fst self) ->
  PyDict.get (refresh_key token) (delete_refresh_token self token) = None.
Proof.
  intros Hnd. unfold delete_refresh_token, PyDict.mem.
  destruct (PyDict.get (refresh_key token) self) eqn:E; [|exact E].
  apply get_del_same. exact Hnd.
Qed.

Lemma get_del_all_other (keys : list string) (d : data) (k : string) :
  ~ In k keys ->
  PyDict.get k (fold_left (fun d key => PyDict.del key d) keys d) = PyDict.get k d.
Proof.
  revert d. induction keys as [|key keys IH]; simpl; intros d Hk; [reflexivity|].
  rewrite IH by tauto. apply get_del_other. intros ->. apply Hk. left. reflexivity.
Qed.

Lemma del_all_gone (keys : list string) (d : data) (kv : string * entry) :
  List.NoDup (List.map fst d) ->
  In kv (fold_left (fun d key => PyDict.del key d) keys d) -> ~ In (fst kv) keys.
Proof.
  revert d. induction keys as [|key keys IH]; simpl; intros d Hnd Hin; [tauto|].
  intros [Heq | Hk].
  - subst key. pose proof (In_del_all keys _ kv Hin) as Hdel.
    pose proof (get_del_same (fst kv) d Hnd) as Hget.
    destruct kv as [k v]. exact (proj1 (get_None_not_In k _) Hget v Hdel).
  - exact (IH _ (unique_keys_del key d Hnd) Hin Hk).
Qed.

Lemma filter_nil {A : Type} (f : A -> bool) (l : list A) :
  (forall x, In x l -> f x = false) -> List.filter f l = [].
Proof.
  induction l as [|x l IH]; simpl; intros H; [reflexivity|].
  rewrite (H x (or_introl eq_refl)). apply IH. intros y Hy. apply H. right. exact Hy.
Qed.

Lemma get_delete_all_other (self : data) (user_id key : string) :
  PyStr.startswith (session_key user_id) key = false ->
  PyDict.get key (delete_all_user_sessions self user_id) = PyDict.get key self.
Proof.
  intros Hkey. unfold delete_all_user_sessions. apply get_del_all_other.
  rewrite in_map_iff. intros ([k v] & Hk & Hin). apply filter_In in Hin.
  cbn [fst] in *. subst k. destruct Hin as [_ Hin]. congruence.
Qed.

Lemma prefix_same_length (a b rest : string) :
  String.length a = String.length b -> String.prefix a (b +:+ rest) = true -> a = b.
Proof.
  revert b. induction a as [|c a IH]; intros [|d b] Hlen; try discriminate; [reflexivity|].
  change (String d b +:+ rest) with (String d (b +:+ rest)). simpl.
  destruct (Ascii.ascii_dec c d) as [<- | Hne]; [|discriminate].
  intros H. f_equal. apply IH; [simpl in Hlen; congruence | exact H].
Qed.

Lemma other_user_not_prefixed (user_id other sid : string) :
  String.length other = String.length user_id -> other <> user_id ->
  PyStr.startswith (session_key user_id) (session_key (session_id_of other sid)) = false.
Proof.
  intros Hlen Hne. unfold PyStr.startswith, session_key, session_id_of.
  destruct (String.prefix _ _) eqn:E; [|reflexivity]. exfalso. apply Hne. symmetry.
  cbn in E. repeat (destruct (Ascii.ascii_dec _ _); [|discriminate]).
  apply (prefix_same_length user_id other (":" +:+ sid)); [congruence | exact E].
Qed.

Lemma uuid_text_split (u u' s s' : string) :
  uuid_text u = true -> uuid_text u' = true ->
  session_id_of u s = session_id_of u' s' -> u = u' /\ s = s'.
Proof.
  unfold session_id_of. revert u'.
  induction u as [|c u IH]; intros [|c' u'] Hu Hu'.
  - cbn. intros H. injection H as H. tauto.
  - change (String c' u' +:+ ":" +:+ s') with (String c' (u' +:+ ":" +:+ s')).
    change (EmptyString +:+ ":" +:+ s) with (String ":" s).
    intros H. injection H as <- _. simpl in Hu'. discriminate.
  - change (String c u +:+ ":" +:+ s) with (String c (u +:+ ":" +:+ s)).
    change (EmptyString +:+ ":" +:+ s') with (String ":" s').
    intros H. injection H as -> _. simpl in Hu. discriminate.
  - change (String c u +:+ ":" +:+ s) with (String c (u +:+ ":" +:+ s)).
    change (String c' u' +:+ ":" +:+ s') with (String c' (u' +:+ ":" +:+ s')).
    intros H. injection H as -> H.
    simpl in Hu, Hu'. apply andb_true_iff in Hu, Hu'.
    destruct (IH u' (proj2 Hu) (proj2 Hu') H) as [-> ->]. tauto.
Qed.

(** A token on the blacklist is refused until its entry expires, and
    from then on it is accepted again and the check removes the entry;
    the answers for other tokens do not change. *)
Theorem token_is_blacklisted_until_expiry :
  forall (self : data) (now later expires_in : Z) (token : string),
    List.NoDup (List.map fst self) ->
    let self' := blacklist_token self now token expires_in in
    (later < now + timedelta_seconds expires_in ->
     is_token_blacklisted self' later token = (true, self')) /\
    (now + timedelta_seconds expires_in <= later ->
     fst (is_token_blacklisted self' later token) = false /\
     PyDict.get (blacklist_key token) (snd (is_token_blacklisted self' later token)) = None) /\
    (forall other : string,
        other <> token ->
        fst (is_token_blacklisted self' later other)
        = fst (is_token_blacklisted self later other)).
Proof.
  intros self now later expires_in token Hnd self'.
  assert (Hget : PyDict.get (blacklist_key token) self'
                 = Some (mk_entry (Flag "1") (now + timedelta_seconds expires_in))).
  { apply get_set_same. }
  split; [|split].
  - intros Hlt. unfold is_token_blacklisted. rewrite Hget. cbn [expires].
    rewrite (proj2 (Z.ltb_lt _ _) Hlt). reflexivity.
  - intros Hge. unfold is_token_blacklisted. rewrite Hget. cbn [expires].
    rewrite (proj2 (Z.ltb_ge _ _) Hge). cbn [fst snd]. split; [reflexivity|].
    apply get_del_same. apply unique_keys_set. exact Hnd.
  - intros other Hne. unfold is_token_blacklisted.
    replace (PyDict.get (blacklist_key other) self')
      with (PyDict.get (blacklist_key other) self).
    + destruct (PyDict.get (blacklist_key other) self) as [e|]; [|reflexivity].
      destruct (later <? expires e); reflexivity.
    + symmetry. apply get_set_other. intros H. apply Hne. apply blacklist_key_inj. exact H.
Qed.

Lemma samples_redis_unique_keys : List.NoDup (List.map fst Samples.redis).
Proof. vm_compute. repeat (constructor; [simpl; intuition discriminate|]). constructor. Qed.

(** The access token of the example, blacklisted for a quarter of an
    hour at second 10, is refused at minute 10. *)
Lemma token_is_blacklisted_until_expiry_witness :
  is_token_blacklisted (blacklist_token Samples.redis 10000000 "access.jwt" 900)
    600000000 "access.jwt"
  = (true, blacklist_token Samples.redis 10000000 "access.jwt" 900).
Proof.
  apply (proj1 (token_is_blacklisted_until_expiry Samples.redis 10000000 600000000 900
                  "access.jwt" samples_redis_unique_keys)).
  unfold timedelta_seconds. lia.
Defined.

Section Codec.
Variable jwt_decode : Z -> string -> option Payload.
Variable isoformat : Z -> string.

Lemma present_Some (cookie : option string) (token : string) :
  present cookie = Some token -> cookie = Some token /\ token <> EmptyString.
Proof.
  destruct cookie as [[|c s]|]; simpl; intros H; try discriminate.
  injection H as <-. split; [reflexivity | discriminate].
Qed.

(** Who is authenticated depends on the store through the entry of the
    token on the blacklist only. *)
Lemma get_current_user_of_blacklist (request : Request) (db : DB.t) (now : Z)
  (r1 r2 : data) :
  (forall token, PyDict.get (blacklist_key token) r1 = PyDict.get (blacklist_key token) r2) ->
  fst (get_current_user jwt_decode isoformat request db now r1)
  = fst (get_current_user jwt_decode isoformat request db now r2).
Proof.
  intros H. unfold get_current_user.
  destruct (present (token_of request)) as [token|]; [|reflexivity].
  unfold verify_token, is_token_blacklisted. rewrite (H token).
  destruct (PyDict.get (blacklist_key token) r2) as [e|].
  - destruct (now <? expires e); [reflexivity|].
    destruct (jwt_decode now token) as [payload|]; [|reflexivity].
    destruct (sub payload) as [address|]; [|reflexivity]. cbn [email].
    destruct (DB.first _ _); reflexivity.
  - destruct (jwt_decode now token) as [payload|]; [|reflexivity].
    destruct (sub payload) as [address|]; [|reflexivity]. cbn [email].
    destruct (DB.first _ _); reflexivity.
Qed.

End Codec.

(** After [logout], a request with the access token of the cookie is
    turned away for as long as the token lives (fifteen minutes),
    whatever the token decodes to. *)
Theorem logout_revokes_the_access_cookie :
  forall (jwt_decode : Z -> string -> option Payload) (isoformat : Z -> string)
         (request : Request) (db : DB.t) (current_user : User.t) (now later : Z)
         (redis_client : data) (token : string),
    present (session_cookie request) = Some token ->
    later < now + timedelta_seconds (ACCESS_TOKEN_EXPIRE_MINUTES * 60) ->
    fst (get_current_user jwt_decode isoformat request db later
           (snd (logout (session_cookie request) (refresh_cookie request) current_user
                   now redis_client)))
    = HTTPError HTTP_401_UNAUTHORIZED "Could not validate credentials".
Proof.
  intros jwt_decode isoformat request db current_user now later redis_client token
    Hcookie Hlater.
  destruct (present_Some _ _ Hcookie) as [Hsome Hne].
  unfold get_current_user, token_of. rewrite Hcookie. cbn [present].
  destruct token as [|c token]; [congruence|].
  unfold verify_token, is_token_blacklisted.
  change (snd (logout (session_cookie request) (refresh_cookie request) current_user
                 now redis_client))
    with (delete_session
            (after_token_steps (session_cookie request) (refresh_cookie request) now
               redis_client)
            (User.id current_user +:+ ":*")).
  rewrite get_delete_session_other by apply blacklist_not_session.
  rewrite Hsome, get_blacklisted_after_token_steps. cbn [expires].
  change (later < now + timedelta_seconds 900) in Hlater.
  rewrite (proj2 (Z.ltb_lt _ _) Hlater). reflexivity.
Qed.

(** The candidate logs out at second 10; the browser's next request,
    five minutes later, is turned away. *)
Lemma logout_revokes_the_access_cookie_witness :
  fst (get_current_user Samples.jwt_decode Samples.isoformat Samples.browser Samples.db
         310000000
         (snd (logout (session_cookie Samples.browser) (refresh_cookie Samples.browser)
                 Samples.carl 10000000 Samples.redis)))
  = HTTPError HTTP_401_UNAUTHORIZED "Could not validate credentials".
Proof.
  apply (logout_revokes_the_access_cookie Samples.jwt_decode Samples.isoformat
           Samples.browser Samples.db Samples.carl 10000000 310000000 Samples.redis
           "access.jwt" eq_refl).
  unfold timedelta_seconds, ACCESS_TOKEN_EXPIRE_MINUTES. lia.
Defined.

(** Ending sessions does not end tokens: after [revoke_session] and
    after [logout_all_devices] a request is authenticated exactly as
    before, since neither touches the blacklist. *)
Theorem revoking_sessions_keeps_tokens_valid :
  forall (jwt_decode : Z -> string -> option Payload) (isoformat : Z -> string)
         (request : Request) (db : DB.t) (now : Z) (current_user : User.t)
         (session_id : string) (redis_client : data),
    fst (get_current_user jwt_decode isoformat request db now
           (snd (revoke_session session_id current_user redis_client)))
    = fst (get_current_user jwt_decode isoformat request db now redis_client) /\
    fst (get_current_user jwt_decode isoformat request db now
           (snd (logout_all_devices current_user redis_client)))
    = fst (get_current_user jwt_decode isoformat request db now redis_client).
Proof.
  intros jwt_decode isoformat request db now current_user session_id redis_client. split.
  - apply get_current_user_of_blacklist. intros token. cbn [revoke_session snd].
    apply get_delete_session_other, blacklist_not_session.
  - apply get_current_user_of_blacklist. intros token. cbn [logout_all_devices snd].
    apply get_delete_all_other. unfold PyStr.startswith, session_key, blacklist_key.
    cbn. reflexivity.
Qed.

(** [revoke_session] removes the session it names and nothing else: no
    other key of the store changes, and with user identifiers that are
    UUIDs no session of another user is touched, whatever the session
    identifier of the request. *)
Theorem revoke_session_removes_that_session :
  forall (session_id : string) (current_user : User.t) (redis_client : data),
    List.NoDup (List.map fst redis_client) ->
    let redis_client' := snd (revoke_session session_id current_user redis_client) in
    (forall now : Z,
        fst (get_session redis_client' now (session_id_of (User.id current_user) session_id))
        = None) /\
    (forall key : string,
        key <> session_key (session_id_of (User.id current_user) session_id) ->
        PyDict.get key redis_client' = PyDict.get key redis_client) /\
    (forall (now : Z) (other other_session : string),
        uuid_text (User.id current_user) = true -> uuid_text other = true ->
        other <> User.id current_user ->
        fst (get_session redis_client' now (session_id_of other other_session))
        = fst (get_session redis_client now (session_id_of other other_session))).
Proof.
  intros session_id current_user redis_client Hnd redis_client'.
  subst redis_client'. cbn [revoke_session snd]. split; [|split].
  - intros now. unfold get_session. rewrite get_delete_session_same by exact Hnd.
    reflexivity.
  - intros key Hne. apply get_delete_session_other. exact Hne.
  - intros now other other_session Hu Ho Hne. unfold get_session.
    rewrite get_delete_session_other.
    + destruct (PyDict.get _ redis_client) as [e|]; [|reflexivity].
      destruct (now <? expires e); reflexivity.
    + intros H. apply session_key_inj in H.
      apply (uuid_text_split _ _ _ _ Ho Hu) in H. tauto.
Qed.

(** The candidate revokes the first of the two sessions. *)
Lemma revoke_session_removes_that_session_witness :
  (forall now : Z,
      fst (get_session
             (snd (revoke_session "0f8fad5b-d9cb-469f-a165-70867728950e" Samples.carl
                     Samples.redis))
             now (session_id_of "u-carl" "0f8fad5b-d9cb-469f-a165-70867728950e"))
      = None) /\
  length (get_user_sessions
            (snd (revoke_session "0f8fad5b-d9cb-469f-a165-70867728950e" Samples.carl
                    Samples.redis))
            6000000 "u-carl") = 1%nat.
Proof.
  split.
  - exact (proj1 (revoke_session_removes_that_session
                    "0f8fad5b-d9cb-469f-a165-70867728950e" Samples.carl Samples.redis
                    samples_redis_unique_keys)).
  - vm_compute. reflexivity.
Defined.

(** [logout_all_devices] ends the sessions of the user and leaves the
    rest: afterwards no session of the user is listed, while refresh
    tokens, the blacklist and the sessions of a user with another
    identifier of the same length are as before. *)
Theorem logout_all_devices_ends_the_sessions_only :
  forall (current_user : User.t) (redis_client : data),
    List.NoDup (List.map fst redis_client) ->
    let redis_client' := snd (logout_all_devices current_user redis_client) in
    (forall now : Z, get_user_sessions redis_client' now (User.id current_user) = []) /\
    (forall (now : Z) (token : string),
        fst (get_refresh_token_data redis_client' now token)
        = fst (get_refresh_token_data redis_client now token)) /\
    (forall (now : Z) (token : string),
        fst (is_token_blacklisted redis_client' now token)
        = fst (is_token_blacklisted redis_client now token)) /\
    (forall (now : Z) (other other_session : string),
        String.length other = String.length (User.id current_user) ->
        other <> User.id current_user ->
        fst (get_session redis_client' now (session_id_of other other_session))
        = fst (get_session redis_client now (session_id_of other other_session))).
Proof.
  intros current_user redis_client Hnd redis_client'.
  subst redis_client'. cbn [logout_all_devices snd]. split; [|split; [|split]].
  - intros now. unfold get_user_sessions. rewrite filter_nil; [reflexivity|].
    intros kv Hin. apply andb_false_iff. left.
    destruct (PyStr.startswith _ (fst kv)) eqn:E; [|reflexivity]. exfalso.
    unfold delete_all_user_sessions in Hin.
    apply (del_all_gone _ _ _ Hnd Hin).
    rewrite in_map_iff. exists kv. split; [reflexivity|].
    apply filter_In. split; [|exact E].
    exact (In_del_all _ _ _ Hin).
  - intros now token. unfold get_refresh_token_data.
    rewrite get_delete_all_other.
    + destruct (PyDict.get _ redis_client) as [e|]; [|reflexivity].
      destruct (now <? expires e); reflexivity.
    + unfold PyStr.startswith, session_key, refresh_key. cbn. reflexivity.
  - intros now token. unfold is_token_blacklisted.
    rewrite get_delete_all_other.
    + destruct (PyDict.get _ redis_client) as [e|]; [|reflexivity].
      destruct (now <? expires e); reflexivity.
    + unfold PyStr.startswith, session_key, blacklist_key. cbn. reflexivity.
  - intros now other other_session Hlen Hne. unfold get_session.
    rewrite get_delete_all_other.
    + destruct (PyDict.get _ redis_client) as [e|]; [|reflexivity].
      destruct (now <? expires e); reflexivity.
    + apply other_user_not_prefixed; assumption.
Qed.

(** The candidate logs out everywhere: no session is left, the refresh
    token is. *)
Lemma logout_all_devices_ends_the_sessions_only_witness :
  (forall now : Z,
      get_user_sessions (snd (logout_all_devices Samples.carl Samples.redis)) now "u-carl"
      = []) /\
  fst (get_refresh_token_data (snd (logout_all_devices Samples.carl Samples.redis))
         6000000 "refresh.jwt")
  = Some (RefreshData "u-carl" 5000000).
Proof.
  split.
  - exact (proj1 (logout_all_devices_ends_the_sessions_only Samples.carl Samples.redis
                    samples_redis_unique_keys)).
  - vm_compute. reflexivity.
Defined.

(** A request that is authenticated carries a token that is not on the
    blacklist and decodes to the e-mail address of the user found, and
    it leaves the user a session that is listed for the next thirty
    minutes. *)
Theorem authenticated_request_records_the_session :
  forall (jwt_decode : Z -> string -> option Payload) (isoformat : Z -> string)
         (request : Request) (db : DB.t) (now later : Z) (redis_client redis_client' : data)
         (user : User.t),
    get_current_user jwt_decode isoformat request db now redis_client
    = (HTTPOk user, redis_client') ->
    later < now + timedelta_seconds (IDLE_TIMEOUT_MINUTES * 60) ->
    (exists (token : string) (payload : Payload),
        present (token_of request) = Some token /\
        fst (is_token_blacklisted redis_client now token) = false /\
        jwt_decode now token = Some payload /\
        sub payload = Some (User.email user) /\
        In user (DB.users db)) /\
    In (SessionData [("user_id", Text (User.id user));
                     ("email", Text (User.email user));
                     ("last_activity", Text (isoformat now));
                     ("client_info", get_client_info request)]%string)
       (get_user_sessions redis_client' later (User.id user)).
Proof.
  intros jwt_decode isoformat request db now later redis_client redis_client' user
    Hget Hlater.
  unfold get_current_user in Hget.
  destruct (present (token_of request)) as [token|]; [|discriminate].
  unfold verify_token in Hget.
  destruct (is_token_blacklisted redis_client now token) as [blacklisted redis1] eqn:Hbl.
  destruct blacklisted; [discriminate|].
  destruct (jwt_decode now token) as [payload|] eqn:Hdecode; [|discriminate].
  destruct (sub payload) as [address|] eqn:Hsub; [|discriminate].
  cbn [email session_id] in Hget.
  destruct (DB.first _ (DB.users db)) as [found|] eqn:Hfirst; [|discriminate].
  injection Hget as -> <-.
  destruct (first_Some_In _ _ _ Hfirst) as [Hin Hmail].
  apply String.eqb_eq in Hmail. split.
  - exists token, payload. split; [reflexivity|]. split; [rewrite Hbl; reflexivity|].
    split; [exact Hdecode|]. split; [|exact Hin]. rewrite Hsub, Hmail. reflexivity.
  - unfold get_user_sessions, store_session.
    set (key := session_key (session_id_of (User.id user) (str_of (claimed_session_id payload)))).
    set (e := mk_entry _ _).
    apply in_map_iff. exists (key, e). split; [reflexivity|].
    apply filter_In. split.
    + clear. induction redis1 as [|[k v] d IH]; simpl.
      * left. reflexivity.
      * destruct (String.eqb_spec k key) as [-> | Hne]; [left; reflexivity | right; exact IH].
    + cbn [fst snd]. apply andb_true_iff. split.
      * unfold key, session_key, session_id_of, PyStr.startswith.
        apply prefix_app. exists (":" +:+ str_of (claimed_session_id payload)).
        reflexivity.
      * subst e. cbn [expires]. apply Z.ltb_lt. exact Hlater.
Qed.

(** The script's request with the bearer token is authenticated as the
    candidate, and the session shows a minute later. *)
Lemma authenticated_request_records_the_session_witness :
  In (SessionData [("user_id", Text "u-carl");
                   ("email", Text "carl@mail.test");
                   ("last_activity", Text (Samples.isoformat 10000000));
                   ("client_info", get_client_info Samples.script)]%string)
     (get_user_sessions
        (snd (get_current_user Samples.jwt_decode Samples.isoformat Samples.script
                Samples.db 10000000 Samples.redis))
        70000000 "u-carl").
Proof.
  refine (proj2 (authenticated_request_records_the_session Samples.jwt_decode
                   Samples.isoformat Samples.script Samples.db 10000000 70000000
                   Samples.redis _ Samples.carl _ _)).
  - vm_compute. reflexivity.
  - unfold timedelta_seconds, IDLE_TIMEOUT_MINUTES. lia.
Defined.

End TokensAndSessions.

(** ** api/v1/endpoints/auth.py: the logout endpoint with its dependency *)

Section LogoutEndpoint.
Import SimpleRedisClient Auth.

Lemma session_key_not_blacklist (key token : string) :
  PyStr.startswith "session:" key = true -> key <> blacklist_key token.
Proof. intros H ->. discriminate H. Qed.

Lemma session_key_not_refresh (key token : string) :
  PyStr.startswith "session:" key = true -> key <> refresh_key token.
Proof. intros H ->. discriminate H. Qed.

Lemma session_key_is_session (user_id : string) :
  PyStr.startswith "session:" (session_key user_id) = true.
Proof.
  unfold PyStr.startswith, session_key. apply prefix_app. exists user_id. reflexivity.
Qed.

(** The check of the blacklist changes the entry of the token at most. *)
Lemma get_is_token_blacklisted_other (self : data) (now : Z) (token key : string) :
  key <> blacklist_key token ->
  PyDict.get key (snd (is_token_blacklisted self now token)) = PyDict.get key self.
Proof.
  intros Hne. unfold is_token_blacklisted.
  destruct (PyDict.get (blacklist_key token) self) as [e|]; [|reflexivity].
  destruct (now <? expires e); [reflexivity|]. apply get_del_other. exact Hne.
Qed.

Lemma filter_is_token_blacklisted (keep : string * entry -> bool) (self : data) (now : Z)
  (token : string) :
  (forall t v, keep (blacklist_key t, v) = false) ->
  List.filter keep (snd (is_token_blacklisted self now token)) = List.filter keep self.
Proof.
  intros Hkeep. unfold is_token_blacklisted.
  destruct (PyDict.get (blacklist_key token) self) as [e|]; [|reflexivity].
  destruct (now <? expires e); [reflexivity|]. apply filter_del. apply Hkeep.
Qed.

Section Codec.
Variable jwt_decode : Z -> string -> option Payload.
Variable isoformat : Z -> string.

(** What [get_current_user] does to the store: when it raises, the
    check of the blacklist is all that ran; when it returns a user, it
    has stored the session of the token. *)
Lemma get_current_user_store (request : Request) (db : DB.t) (now : Z) (self : data) :
  match get_current_user jwt_decode isoformat request db now self with
  | (HTTPError status_code detail, after) =>
      status_code = 401 /\
      (after = self \/
       exists token, present (token_of request) = Some token /\
                     after = snd (is_token_blacklisted self now token))
  | (HTTPOk user, after) =>
      exists (token : string) (payload : Payload),
        present (token_of request) = Some token /\
        jwt_decode now token = Some payload /\
        after = store_session (snd (is_token_blacklisted self now token)) now
                  (session_id_of (User.id user) (str_of (claimed_session_id payload)))
                  [("user_id", Text (User.id user));
                   ("email", Text (User.email user));
                   ("last_activity", Text (isoformat now));
                   ("client_info", get_client_info request)]%string
                  (IDLE_TIMEOUT_MINUTES * 60)
  end.
Proof.
  unfold get_current_user.
  destruct (present (token_of request)) as [token|]; [|split; [reflexivity | left; reflexivity]].
  unfold verify_token.
  destruct (is_token_blacklisted self now token) as [blacklisted mid] eqn:Hbl.
  assert (Hmid : mid = snd (is_token_blacklisted self now token)) by (rewrite Hbl; reflexivity).
  destruct blacklisted; [split; [reflexivity | right; exists token; tauto]|].
  destruct (jwt_decode now token) as [payload|] eqn:Hdecode;
    [|split; [reflexivity | right; exists token; tauto]].
  destruct (sub payload) as [address|]; [|split; [reflexivity | right; exists token; tauto]].
  cbn [email session_id].
  destruct (DB.first _ (DB.users db)) as [user|];
    [|split; [reflexivity | right; exists token; tauto]].
  exists token, payload. split; [reflexivity|]. split; [exact Hdecode|].
  rewrite Hmid. reflexivity.
Qed.

End Codec.

(** C10, for the endpoint as a request meets it, on a store the
    application has built and with tokens whose session identifiers
    are those the backend issues.  When the dependency turns the
    request away, the answer is 401 and the session records are what
    they were.  Otherwise the answer is the message with the two
    cookies deleted, and no session record is removed: every session
    key the store held, it still holds.  The records are not all what
    they were: the dependency has written the record of the caller's
    own session, with the time of the request and thirty minutes to
    live.  Every other key keeps its entry, but for the blacklist entry
    of the token presented and of the access cookie, which is added,
    and the entry of the refresh cookie, which is deleted. *)
Theorem logout_endpoint_removes_no_session :
  forall (jwt_decode : Z -> string -> option Payload) (isoformat : Z -> string),
    (forall (now : Z) (token : string) (payload : Payload) (sid : string),
        jwt_decode now token = Some payload ->
        claimed_session_id payload = Some sid ->
        session_text sid = true) ->
    forall (request : Request) (db : DB.t) (now later : Z) (self : data),
      reachable self ->
      match logout_endpoint jwt_decode isoformat request db now later self with
      | (HTTPError status_code detail, after) =>
          status_code = 401 /\
          session_records after = session_records self /\
          (forall (user_id : string) (now' : Z),
              get_user_sessions after now' user_id = get_user_sessions self now' user_id)
      | (HTTPOk answer, after) =>
          answer = ("Successfully logged out"%string,
                    [SESSION_COOKIE_NAME; REFRESH_COOKIE_NAME]) /\
          exists (current_user : User.t) (token : string) (payload : Payload),
            present (token_of request) = Some token /\
            jwt_decode now token = Some payload /\
            fst (get_current_user jwt_decode isoformat request db now self)
            = HTTPOk current_user /\
            (forall key : string,
                PyStr.startswith "session:" key = true ->
                PyDict.mem key self = true -> PyDict.mem key after = true) /\
            PyDict.get
              (session_key (session_id_of (User.id current_user)
                              (str_of (claimed_session_id payload))))
              after
            = Some (mk_entry
                      (SessionData [("user_id", Text (User.id current_user));
                                    ("email", Text (User.email current_user));
                                    ("last_activity", Text (isoformat now));
                                    ("client_info", get_client_info request)]%string)
                      (now + timedelta_seconds 1800)) /\
            (forall key : string,
                key <> session_key (session_id_of (User.id current_user)
                                      (str_of (claimed_session_id payload))) ->
                key <> blacklist_key token ->
                (forall t, present (session_cookie request) = Some t ->
                           key <> blacklist_key t) ->
                (forall t, present (refresh_cookie request) = Some t ->
                           key <> refresh_key t) ->
                PyDict.get key after = PyDict.get key self) /\
            (forall t : string,
                present (session_cookie request) = Some t ->
                PyDict.get (blacklist_key t) after
                = Some (mk_entry (Flag "1") (later + timedelta_seconds 900))) /\
            (forall t : string,
                present (refresh_cookie request) = Some t ->
                PyDict.get (refresh_key t) after = None)
      end.
Proof.
  intros jwt_decode isoformat Hissued request db now later self Hreach.
  unfold logout_endpoint.
  pose proof (get_current_user_store jwt_decode isoformat request db now self) as Hstore.
  destruct (get_current_user jwt_decode isoformat request db now self)
    as [[current_user | status_code detail] mid] eqn:Hget.
  - destruct Hstore as (token & payload & Htoken & Hdecode & Hmid).
    set (own := session_key (session_id_of (User.id current_user)
                               (str_of (claimed_session_id payload)))) in *.
    assert (Hsid : session_text (str_of (claimed_session_id payload)) = true).
    { destruct (claimed_session_id payload) as [sid|] eqn:Hclaimed; [|reflexivity].
      exact (Hissued now token payload sid Hdecode Hclaimed). }
    assert (Hreach' : reachable mid).
    { rewrite Hmid. apply reach_store_session; [|exact Hsid].
      apply reach_is_token_blacklisted. exact Hreach. }
    destruct (proj2 logout_handler_keeps_every_session mid Hreach'
                (session_cookie request) (refresh_cookie request) current_user later)
      as (after & Hout & _ & _ & _ & _ & Hother & Hblack & Hrefresh).
    rewrite Hout.
    assert (Hown_mid : PyDict.get own mid
                       = Some (mk_entry
                                 (SessionData
                                    [("user_id", Text (User.id current_user));
                                     ("email", Text (User.email current_user));
                                     ("last_activity", Text (isoformat now));
                                     ("client_info", get_client_info request)]%string)
                                 (now + timedelta_seconds 1800))).
    { rewrite Hmid. unfold store_session. apply get_set_same. }
    assert (Hmid_other : forall key, key <> own -> key <> blacklist_key token ->
                                     PyDict.get key mid = PyDict.get key self).
    { intros key Hown Hbl. rewrite Hmid. unfold store_session.
      rewrite get_set_other by exact Hown.
      apply get_is_token_blacklisted_other. exact Hbl. }
    assert (Hsession : forall key, PyStr.startswith "session:" key = true ->
                                   PyDict.get key after = PyDict.get key mid).
    { intros key Hkey. apply Hother; intros t _.
      - apply session_key_not_blacklist. exact Hkey.
      - apply session_key_not_refresh. exact Hkey. }
    split; [reflexivity|]. exists current_user, token, payload.
    split; [exact Htoken|]. split; [exact Hdecode|]. split; [reflexivity|].
    fold own. split; [|split; [|split; [|split]]].
    + intros key Hkey Hmem. unfold PyDict.mem in *. rewrite (Hsession key Hkey).
      destruct (String.eqb_spec key own) as [-> | Hne].
      * rewrite Hown_mid. reflexivity.
      * rewrite (Hmid_other key Hne (session_key_not_blacklist _ _ Hkey)). exact Hmem.
    + rewrite (Hsession own (session_key_is_session _)). exact Hown_mid.
    + intros key Hown Hbl Hcookie Hrefresh'.
      rewrite (Hother key Hcookie Hrefresh'). apply Hmid_other; assumption.
    + exact Hblack.
    + exact Hrefresh.
  - destruct Hstore as [Hstatus Hmid]. split; [exact Hstatus|].
    destruct Hmid as [-> | (token & _ & ->)].
    + split; [reflexivity | intros; reflexivity].
    + split.
      * unfold session_records. apply filter_is_token_blacklisted. reflexivity.
      * intros user_id now'. unfold get_user_sessions. f_equal.
        apply filter_is_token_blacklisted. reflexivity.
Qed.

Lemma samples_tokens_issued :
  forall (now : Z) (token : string) (payload : Payload) (sid : string),
    Samples.jwt_decode now token = Some payload ->
    claimed_session_id payload = Some sid ->
    session_text sid = true.
Proof.
  intros now token payload sid. unfold Samples.jwt_decode.
  destruct (String.eqb token "access.jwt"); [intros [= <-] [= <-]; reflexivity|].
  destruct (String.eqb token "refresh.jwt"); [intros [= <-]; discriminate | discriminate].
Qed.

(** The candidate logs out from the browser, with both cookies, ten
    seconds in: the two sessions are still stored, the second as it
    was, and the refresh token is gone. *)
Lemma logout_endpoint_removes_no_session_witness :
  exists after : data,
    logout_endpoint Samples.jwt_decode Samples.isoformat Samples.browser Samples.db
      10000000 10000001 Samples.redis
    = (HTTPOk ("Successfully logged out"%string, [SESSION_COOKIE_NAME; REFRESH_COOKIE_NAME]),
       after) /\
    PyDict.mem (session_key "u-carl:0f8fad5b-d9cb-469f-a165-70867728950e") after = true /\
    PyDict.mem (session_key "u-carl:7c9e6679-7425-40de-944b-e07fc1f90ae7") after = true /\
    PyDict.get (session_key "u-carl:7c9e6679-7425-40de-944b-e07fc1f90ae7") after
    = PyDict.get (session_key "u-carl:7c9e6679-7425-40de-944b-e07fc1f90ae7") Samples.redis /\
    PyDict.get (blacklist_key "access.jwt") after
    = Some (mk_entry (Flag "1") (10000001 + timedelta_seconds 900)) /\
    PyDict.get (refresh_key "refresh.jwt") after = None.
Proof.
  pose proof (logout_endpoint_removes_no_session Samples.jwt_decode Samples.isoformat
                samples_tokens_issued Samples.browser Samples.db 10000000 10000001
                Samples.redis samples_redis_reachable) as H.
  destruct (logout_endpoint Samples.jwt_decode Samples.isoformat Samples.browser Samples.db
              10000000 10000001 Samples.redis) as [[answer | status_code detail] after] eqn:E.
  - destruct H as (-> & user & token & payload & Htoken & Hdecode & Huser & Hkept & _
                   & Hothers & Hblack & Hrefresh).
    vm_compute in Htoken. injection Htoken as <-.
    vm_compute in Hdecode. injection Hdecode as <-.
    vm_compute in Huser. injection Huser as <-.
    exists after. split; [reflexivity|].
    split; [apply Hkept; reflexivity|]. split; [apply Hkept; reflexivity|].
    split; [|split].
    + apply Hothers.
      * intros Heq. vm_compute in Heq. discriminate Heq.
      * apply session_key_not_blacklist. reflexivity.
      * intros t _. apply session_key_not_blacklist. reflexivity.
      * intros t _. apply session_key_not_refresh. reflexivity.
    + apply Hblack. reflexivity.
    + apply Hrefresh. reflexivity.
  - exfalso. vm_compute in E. discriminate E.
Defined.

(** C10, as the claim states it, fails on the endpoint: the
    candidate's logout from the browser leaves session records, and
    answers of [get_user_sessions], that are not what they were, the
    dependency having rewritten the session of the request. *)
Lemma logout_rewrites_the_session_of_the_caller :
  fst (logout_endpoint Samples.jwt_decode Samples.isoformat Samples.browser Samples.db
         10000000 10000001 Samples.redis)
  = HTTPOk ("Successfully logged out"%string, [SESSION_COOKIE_NAME; REFRESH_COOKIE_NAME]) /\
  get_user_sessions
    (snd (logout_endpoint Samples.jwt_decode Samples.isoformat Samples.browser Samples.db
            10000000 10000001 Samples.redis))
    10000002 "u-carl"
  <> get_user_sessions Samples.redis 10000002 "u-carl" /\
  session_records
    (snd (logout_endpoint Samples.jwt_decode Samples.isoformat Samples.browser Samples.db
            10000000 10000001 Samples.redis))
  <> session_records Samples.redis.
Proof.
  split; [vm_compute; reflexivity|].
  split; vm_compute; intros H; discriminate H.
Qed.

End LogoutEndpoint.

(** ** Further properties of api/v1/endpoints/auth.py: refresh and signup *)

Section RefreshAndSignup.
Import SimpleRedisClient Auth.

Section Codec.
Variable jwt_decode : Z -> string -> option Payload.
Variable create_access_token : Z -> string -> string -> string.
Variable create_refresh_token : Z -> string -> string -> string.

Lemma refresh_needs_the_stored_token (refresh_token : string) (db : DB.t) (now : Z)
  (drawn_session_id drawn_jti : string) (redis_client : data) :
  PyDict.get (refresh_key refresh_token) redis_client = None ->
  fst (refresh_access_token jwt_decode create_access_token create_refresh_token
         refresh_token db now drawn_session_id drawn_jti redis_client) = None.
Proof.
  intros Hget. unfold refresh_access_token.
  destruct (jwt_decode now refresh_token) as [payload|]; [|reflexivity].
  destruct (sub payload); [|reflexivity]. destruct (jti payload); [|reflexivity].
  unfold get_refresh_token_data. rewrite Hget. reflexivity.
Qed.

Lemma refresh_success (refresh_token : string) (db : DB.t) (now : Z)
  (drawn_session_id drawn_jti : string) (redis_client redis_client' : data)
  (tokens : string * string * string) :
  refresh_access_token jwt_decode create_access_token create_refresh_token
    refresh_token db now drawn_session_id drawn_jti redis_client
  = (Some tokens, redis_client') ->
  exists user : User.t,
    In user (DB.users db) /\
    tokens = (create_access_token now (User.email user) drawn_session_id,
              create_refresh_token now (User.email user) drawn_jti, drawn_session_id) /\
    redis_client'
    = delete_refresh_token
        (store_refresh_token redis_client now
           (create_refresh_token now (User.email user) drawn_jti) (User.id user)
           (REFRESH_TOKEN_EXPIRE_DAYS * 24 * 60 * 60))
        refresh_token.
Proof.
  unfold refresh_access_token.
  destruct (jwt_decode now refresh_token) as [payload|]; [|discriminate].
  destruct (sub payload) as [address|]; [|discriminate].
  destruct (jti payload); [|discriminate].
  unfold get_refresh_token_data.
  destruct (PyDict.get (refresh_key refresh_token) redis_client) as [e|];
    [|cbn; discriminate].
  destruct (now <? expires e); [|cbn; discriminate].
  destruct (negb (truthy (Some (entry_value e)))); [discriminate|].
  destruct (DB.first _ (DB.users db)) as [user|] eqn:Hfirst; [|discriminate].
  destruct (negb (User.is_active user)); [discriminate|].
  intros H. injection H as <- <-. exists user.
  split; [exact (proj1 (first_Some_In _ _ _ Hfirst))|]. split; reflexivity.
Qed.

End Codec.

(** A refresh token is redeemed once: when [refresh_access_token] has
    exchanged it, no later call accepts it again, while the token
    issued in exchange is stored for the user for seven days. *)
Theorem refresh_token_is_redeemed_once :
  forall (jwt_decode : Z -> string -> option Payload)
         (create_access_token create_refresh_token : Z -> string -> string -> string)
         (refresh_token : string) (db : DB.t) (now : Z) (drawn_session_id drawn_jti : string)
         (redis_client redis_client' : data) (access issued session : string),
    List.NoDup (List.map fst redis_client) ->
    refresh_access_token jwt_decode create_access_token create_refresh_token
      refresh_token db now drawn_session_id drawn_jti redis_client
    = (Some (access, issued, session), redis_client') ->
    issued <> refresh_token ->
    (forall (db' : DB.t) (later : Z) (drawn_session_id' drawn_jti' : string),
        fst (refresh_access_token jwt_decode create_access_token create_refresh_token
               refresh_token db' later drawn_session_id' drawn_jti' redis_client') = None) /\
    (forall later : Z,
        later < now + timedelta_seconds (REFRESH_TOKEN_EXPIRE_DAYS * 24 * 60 * 60) ->
        exists user : User.t,
          In user (DB.users db) /\
          get_refresh_token_data redis_client' later issued
          = (Some (RefreshData (User.id user) now), redis_client')).
Proof.
  intros jwt_decode create_access_token create_refresh_token refresh_token db now
    drawn_session_id drawn_jti redis_client redis_client' access issued session
    Hnd Hrefresh Hne.
  destruct (refresh_success _ _ _ _ _ _ _ _ _ _ _ Hrefresh) as (user & Hin & Htokens & ->).
  injection Htokens as _ Hissued _. rewrite <- Hissued. split.
  - intros db' later drawn_session_id' drawn_jti'.
    apply refresh_needs_the_stored_token.
    apply get_delete_refresh_same. apply unique_keys_set. exact Hnd.
  - intros later Hlater. exists user. split; [exact Hin|].
    unfold get_refresh_token_data.
    rewrite get_delete_refresh_other
      by (intros H; apply refresh_key_inj in H; congruence).
    unfold store_refresh_token at 1. rewrite get_set_same. cbn [expires entry_value].
    rewrite (proj2 (Z.ltb_lt _ _) Hlater). reflexivity.
Qed.

(** The candidate's refresh token is exchanged at second 10 and offered
    again at second 20. *)
Lemma refresh_token_is_redeemed_once_witness :
  fst (refresh_access_token Samples.jwt_decode Samples.create_token Samples.create_token
         "refresh.jwt" Samples.db 10000000 "s-1" "j-1" Samples.redis)
  = Some ("carl@mail.test.s-1", "carl@mail.test.j-1", "s-1")%string /\
  fst (refresh_access_token Samples.jwt_decode Samples.create_token Samples.create_token
         "refresh.jwt" Samples.db 20000000 "s-2" "j-2"
         (snd (refresh_access_token Samples.jwt_decode Samples.create_token
                 Samples.create_token "refresh.jwt" Samples.db 10000000 "s-1" "j-1"
                 Samples.redis)))
  = None.
Proof.
  split; [vm_compute; reflexivity|].
  refine (proj1 (refresh_token_is_redeemed_once Samples.jwt_decode Samples.create_token
                   Samples.create_token "refresh.jwt" Samples.db 10000000 "s-1" "j-1"
                   Samples.redis _ "carl@mail.test.s-1" "carl@mail.test.j-1" "s-1"
                   samples_redis_unique_keys _ _) Samples.db 20000000 "s-2" "j-2").
  - vm_compute. reflexivity.
  - discriminate.
Defined.

Section Signup.
Variable create_access_token : Z -> string -> string -> string.
Variable create_refresh_token : Z -> string -> string -> string.
Variable get_password_hash : string -> string.

Lemma signup_taken (request : Request) (user_data : UserCreate) (now : Z) (new_id : UUID)
  (drawn_session_id drawn_jti : string) (db : DB.t) (redis_client : data) (user : User.t) :
  In user (DB.users db) ->
  User.email user = new_email user_data \/ User.username user = new_username user_data ->
  signup create_access_token create_refresh_token get_password_hash request user_data now
    new_id drawn_session_id drawn_jti db redis_client
  = (HTTPError HTTP_400_BAD_REQUEST "Email or username already registered", db, redis_client).
Proof.
  intros Hin Htaken. unfold signup.
  destruct (first_exists
              (fun user => String.eqb (User.email user) (new_email user_data)
                           || String.eqb (User.username user) (new_username user_data))
              (DB.users db) user Hin) as [found ->]; [|reflexivity].
  apply orb_true_iff. rewrite !String.eqb_eq. exact Htaken.
Qed.

Lemma signup_users (request : Request) (user_data : UserCreate) (now : Z) (new_id : UUID)
  (drawn_session_id drawn_jti : string) (db : DB.t) (redis_client : data) :
  let db' := snd (fst (signup create_access_token create_refresh_token get_password_hash
                         request user_data now new_id drawn_session_id drawn_jti db
                         redis_client)) in
  DB.users db' = DB.users db \/
  ((forall user, In user (DB.users db) ->
                 User.email user <> new_email user_data /\
                 User.username user <> new_username user_data) /\
   DB.users db'
   = DB.users db ++ [User.mk new_id (new_email user_data) (new_username user_data)
                       (new_full_name user_data) (get_password_hash (password user_data))
                       (new_role user_data) (new_company_id user_data) true]).
Proof.
  unfold signup.
  destruct (DB.first _ (DB.users db)) as [found|] eqn:Hfirst; [left; reflexivity|].
  destruct (_ && _); [left; reflexivity|].
  destruct (negb _); [left; reflexivity|].
  right. cbn [fst snd DB.with_users DB.users].
  split; [|reflexivity].
  intros user Hin. pose proof (find_none _ _ Hfirst user Hin) as H. cbv beta in H.
  apply orb_false_iff in H. rewrite !String.eqb_neq in H. exact H.
Qed.

End Signup.

(** [signup] keeps e-mail addresses and user names unique: a request
    with an address or a name that a user already has is refused with
    400 and changes nothing, and if no two users shared an address or a
    name before, none do afterwards. *)
Theorem signup_keeps_emails_and_usernames_unique :
  forall (create_access_token create_refresh_token : Z -> string -> string -> string)
         (get_password_hash : string -> string)
         (request : Request) (user_data : UserCreate) (now : Z) (new_id : UUID)
         (drawn_session_id drawn_jti : string) (db : DB.t) (redis_client : data),
    let outcome :=
      signup create_access_token create_refresh_token get_password_hash request user_data
        now new_id drawn_session_id drawn_jti db redis_client in
    (forall user : User.t,
        In user (DB.users db) ->
        User.email user = new_email user_data \/ User.username user = new_username user_data ->
        outcome = (HTTPError HTTP_400_BAD_REQUEST "Email or username already registered",
                   db, redis_client)) /\
    (List.NoDup (List.map User.email (DB.users db)) ->
     List.NoDup (List.map User.email (DB.users (snd (fst outcome))))) /\
    (List.NoDup (List.map User.username (DB.users db)) ->
     List.NoDup (List.map User.username (DB.users (snd (fst outcome))))).
Proof.
  intros create_access_token create_refresh_token get_password_hash request user_data now
    new_id drawn_session_id drawn_jti db redis_client outcome.
  subst outcome. split; [|split].
  - intros user Hin Htaken. apply (signup_taken _ _ _ _ _ _ _ _ _ _ _ user Hin Htaken).
  - intros Hnd.
    destruct (signup_users create_access_token create_refresh_token get_password_hash
                request user_data now new_id drawn_session_id drawn_jti db redis_client)
      as [-> | [Hfresh ->]]; [exact Hnd|].
    rewrite map_app. apply NoDup_snoc; [exact Hnd|]. cbn [User.email].
    rewrite in_map_iff. intros (user & Hmail & Hin). exact (proj1 (Hfresh user Hin) Hmail).
  - intros Hnd.
    destruct (signup_users create_access_token create_refresh_token get_password_hash
                request user_data now new_id drawn_session_id drawn_jti db redis_client)
      as [-> | [Hfresh ->]]; [exact Hnd|].
    rewrite map_app. apply NoDup_snoc; [exact Hnd|]. cbn [User.username].
    rewrite in_map_iff. intros (user & Hname & Hin). exact (proj2 (Hfresh user Hin) Hname).
Qed.

Lemma samples_emails_unique : List.NoDup (List.map User.email (DB.users Samples.db)).
Proof. vm_compute. repeat (constructor; [simpl; intuition discriminate|]). constructor. Qed.

(** A second sign-up with the candidate's address is refused, and the
    addresses stay unique when a new user signs up. *)
Lemma signup_keeps_emails_and_usernames_unique_witness :
  signup Samples.create_token Samples.create_token Samples.get_password_hash Samples.browser
    (mk_user_create "carl@mail.test" "carl2" "Carl Jones" "candidate" None "pw")
    10000000 "u-new" "s-1" "j-1" Samples.db Samples.redis
  = (HTTPError HTTP_400_BAD_REQUEST "Email or username already registered",
     Samples.db, Samples.redis) /\
  List.NoDup
    (List.map User.email
       (DB.users (snd (fst (signup Samples.create_token Samples.create_token
                              Samples.get_password_hash Samples.browser Samples.mallory
                              10000000 "u-new" "s-1" "j-1" Samples.db Samples.redis))))).
Proof.
  split.
  - apply (proj1 (signup_keeps_emails_and_usernames_unique Samples.create_token
                    Samples.create_token Samples.get_password_hash Samples.browser
                    (mk_user_create "carl@mail.test" "carl2" "Carl Jones" "candidate" None "pw")
                    10000000 "u-new" "s-1" "j-1" Samples.db Samples.redis) Samples.carl).
    + simpl. tauto.
    + left. reflexivity.
  - apply (proj1 (proj2 (signup_keeps_emails_and_usernames_unique Samples.create_token
                           Samples.create_token Samples.get_password_hash Samples.browser
                           Samples.mallory 10000000 "u-new" "s-1" "j-1" Samples.db
                           Samples.redis))).
    exact samples_emails_unique.
Defined.

(** [signup] takes the role as the request gives it: with an address
    and a name that are free, and a company that exists if the request
    names one, any role but a recruiter without a company is granted to
    an active user; a sign-up as [admin] so yields a user whom
    [get_current_admin_user] lets through.  A request that names a
    company that does not exist, and is not refused before, fails when
    the row is committed, and stores nothing. *)
Theorem signup_grants_the_role_asked_for :
  forall (create_access_token create_refresh_token : Z -> string -> string -> string)
         (get_password_hash : string -> string)
         (request : Request) (user_data : UserCreate) (now : Z) (new_id : UUID)
         (drawn_session_id drawn_jti : string) (db : DB.t) (redis_client : data),
    (forall user : User.t,
        In user (DB.users db) ->
        User.email user <> new_email user_data /\
        User.username user <> new_username user_data) ->
    new_role user_data <> "recruiter"%string \/ new_company_id user_data <> None ->
    ((forall company_id : UUID,
         new_company_id user_data = Some company_id ->
         exists company : Company.t,
           In company (DB.companies db) /\ Company.id company = company_id) ->
     exists (db_user : User.t) (access_token refresh_token : string),
       fst (signup create_access_token create_refresh_token get_password_hash request
              user_data now new_id drawn_session_id drawn_jti db redis_client)
       = (HTTPOk (db_user, access_token, refresh_token, drawn_session_id),
          DB.with_users db (DB.users db ++ [db_user])) /\
       User.role db_user = new_role user_data /\
       User.is_active db_user = true /\
       (new_role user_data = "admin"%string ->
        CoreAuth.get_current_admin_user db_user = HTTPOk db_user)) /\
    (forall company_id : UUID,
        new_company_id user_data = Some company_id ->
        (forall company : Company.t,
            In company (DB.companies db) -> Company.id company <> company_id) ->
        signup create_access_token create_refresh_token get_password_hash request
          user_data now new_id drawn_session_id drawn_jti db redis_client
        = (HTTPError 500 "Internal Server Error", db, redis_client)).
Proof.
  intros create_access_token create_refresh_token get_password_hash request user_data now
    new_id drawn_session_id drawn_jti db redis_client Hfresh Hrole.
  assert (Hnone_taken :
            DB.first (fun user => String.eqb (User.email user) (new_email user_data)
                                  || String.eqb (User.username user) (new_username user_data))
              (DB.users db) = None).
  { destruct (DB.first _ (DB.users db)) as [found|] eqn:Hfirst; [exfalso | reflexivity].
    destruct (first_Some_In _ _ _ Hfirst) as [Hin Hcond].
    apply orb_true_iff in Hcond. rewrite !String.eqb_eq in Hcond.
    destruct (Hfresh found Hin). tauto. }
  assert (Hgate : String.eqb (new_role user_data) "recruiter"
                  && match new_company_id user_data with None => true | Some _ => false end
                  = false).
  { apply andb_false_iff. destruct Hrole as [Hr | Hc].
    - left. apply String.eqb_neq. exact Hr.
    - right. destruct (new_company_id user_data); [reflexivity | congruence]. }
  split.
  - intros Hcompany. unfold signup. rewrite Hnone_taken, Hgate.
    assert (Hknown : company_known user_data db = true).
    { unfold company_known. destruct (new_company_id user_data) as [company_id|] eqn:Hc;
        [|reflexivity].
      destruct (Hcompany company_id eq_refl) as (company & Hin & Hid).
      apply existsb_exists. exists company. split; [exact Hin|].
      unfold Companies.has_id. apply String.eqb_eq. exact Hid. }
    rewrite Hknown. cbn [negb fst]. eexists _, _, _. split; [reflexivity|].
    cbn [User.role User.is_active]. split; [reflexivity|]. split; [reflexivity|].
    intros Hadmin. unfold CoreAuth.get_current_admin_user, CoreAuth.get_current_active_user.
    cbn [User.is_active User.role negb]. rewrite Hadmin. reflexivity.
  - intros company_id Hnamed Hnone. unfold signup. rewrite Hnone_taken, Hgate.
    assert (Hknown : company_known user_data db = false).
    { unfold company_known. rewrite Hnamed.
      destruct (existsb _ (DB.companies db)) eqn:E; [|reflexivity].
      apply existsb_exists in E. destruct E as (company & Hin & Hid).
      unfold Companies.has_id in Hid. apply String.eqb_eq in Hid.
      destruct (Hnone company Hin Hid). }
    rewrite Hknown. reflexivity.
Qed.

(** Mallory signs up as an administrator; a sign-up as a recruiter of a
    company that does not exist fails and stores nothing. *)
Lemma signup_grants_the_role_asked_for_witness :
  (exists (db_user : User.t) (access_token refresh_token : string),
      fst (signup Samples.create_token Samples.create_token Samples.get_password_hash
             Samples.browser Samples.mallory 10000000 "u-new" "s-1" "j-1" Samples.db
             Samples.redis)
      = (HTTPOk (db_user, access_token, refresh_token, "s-1"%string),
         DB.with_users Samples.db (DB.users Samples.db ++ [db_user])) /\
      User.role db_user = "admin"%string /\
      User.is_active db_user = true /\
      (new_role Samples.mallory = "admin"%string ->
       CoreAuth.get_current_admin_user db_user = HTTPOk db_user)) /\
  signup Samples.create_token Samples.create_token Samples.get_password_hash
    Samples.browser
    (mk_user_create "eve@mail.test" "eve" "Eve Adams" "recruiter" (Some "c-nowhere"%string)
       "pw")
    10000000 "u-new" "s-1" "j-1" Samples.db Samples.redis
  = (HTTPError 500 "Internal Server Error", Samples.db, Samples.redis).
Proof.
  split.
  - apply (proj1 (signup_grants_the_role_asked_for Samples.create_token Samples.create_token
                    Samples.get_password_hash Samples.browser Samples.mallory 10000000
                    "u-new" "s-1" "j-1" Samples.db Samples.redis
                    ltac:(simpl; intros user Hin; intuition (subst; discriminate))
                    ltac:(left; discriminate))).
    intros company_id Hnamed. discriminate.
  - apply (proj2 (signup_grants_the_role_asked_for Samples.create_token Samples.create_token
                    Samples.get_password_hash Samples.browser
                    (mk_user_create "eve@mail.test" "eve" "Eve Adams" "recruiter"
                       (Some "c-nowhere"%string) "pw")
                    10000000 "u-new" "s-1" "j-1" Samples.db Samples.redis
                    ltac:(simpl; intros user Hin; intuition (subst; discriminate))
                    ltac:(right; discriminate))
             "c-nowhere"%string eq_refl).
    simpl. intros company Hin. intuition (subst; discriminate).
Defined.

End RefreshAndSignup.

(** ** api/v1/endpoints/applications.py: the applications of one job *)

Section ApplicationsForJob.
Import Applications.

(** When [get_applications_for_job] serves a list, the user is an
    administrator or a recruiter, the job exists (and is a job of the
    recruiter's company), and the list holds exactly the applications
    for that job among those [get_applications] gives the same user. *)
Theorem applications_for_job_follow_the_listing :
  forall (job_id : string) (current_user : User.t) (db : DB.t)
         (applications : list Application.t),
    get_applications_for_job job_id current_user db = HTTPOk applications ->
    (User.role current_user = "admin"%string \/ User.role current_user = "recruiter"%string) /\
    (exists job : Job.t,
        In job (DB.jobs db) /\ Job.id job = job_id /\
        (User.role current_user = "recruiter"%string ->
         exists company_id : UUID,
           User.company_id current_user = Some company_id /\
           Job.company_id job = Some company_id)) /\
    (forall a : Application.t,
        In a applications <->
        In a (get_applications current_user db) /\ Application.job_id a = job_id).
Proof.
  intros job_id current_user db applications. unfold get_applications_for_job.
  destruct (DB.first (Jobs.has_id job_id) (DB.jobs db)) as [job|] eqn:Hjob; [|discriminate].
  destruct (first_Some_In _ _ _ Hjob) as [Hin Hid]. apply String.eqb_eq in Hid.
  destruct (String.eqb_spec (User.role current_user) "admin") as [Hadmin | Hnot].
  - intros H. injection H as <-. split; [left; exact Hadmin|]. split.
    + exists job. split; [exact Hin|]. split; [exact Hid|]. rewrite Hadmin. discriminate.
    + intros a. unfold get_applications. rewrite Hadmin.
      cbn [String.eqb Ascii.eqb Bool.eqb orb andb].
      rewrite filter_In, String.eqb_eq. reflexivity.
  - destruct (String.eqb_spec (User.role current_user) "recruiter") as [Hrec | Hnot'];
      [|discriminate].
    destruct (User.company_id current_user) as [company_id|] eqn:Hcompany;
      cbn [Jobs.truthy negb orb]; [|discriminate].
    unfold Jobs.uuid_ne. destruct (bool_decide_reflect (Job.company_id job = Some company_id))
      as [Hsame | Hother]; cbn [negb]; [|discriminate].
    intros H. injection H as <-. split; [right; exact Hrec|]. split.
    + exists job. split; [exact Hin|]. split; [exact Hid|]. intros _. exists company_id.
      split; [reflexivity | exact Hsame].
    + intros a. unfold get_applications. rewrite Hrec, Hcompany.
      cbn [String.eqb Ascii.eqb Bool.eqb orb andb Jobs.truthy].
      rewrite filter_In, String.eqb_eq, In_join_jobs_of_company. split.
      * intros [Ha Hjid]. split; [|exact Hjid]. split; [exact Ha|].
        exists job. split; [exact Hin|]. split; [congruence | exact Hsame].
      * intros [[Ha _] Hjid]. split; assumption.
Qed.

(** The recruiter of the second company asks for the applications for
    the sales job. *)
Lemma applications_for_job_follow_the_listing_witness :
  get_applications_for_job "j-sales" Samples.gina Samples.db_with_two_applications
  = HTTPOk [Samples.dora_application] /\
  (In Samples.dora_application [Samples.dora_application] <->
   In Samples.dora_application
      (get_applications Samples.gina Samples.db_with_two_applications) /\
   Application.job_id Samples.dora_application = "j-sales"%string).
Proof.
  split; [reflexivity|].
  exact (proj2 (proj2 (applications_for_job_follow_the_listing "j-sales" Samples.gina
                         Samples.db_with_two_applications [Samples.dora_application]
                         eq_refl)) Samples.dora_application).
Defined.

End ApplicationsForJob.

(** ** services/skill_extractor.py: the similarity as a measure *)

Section SimilarityMeasure.
Import SkillExtractor.
Local Open Scope Q_scope.

Lemma size_inter_comm (a b : list string) :
  size ((list_to_set a : gset string) ∩ list_to_set b)
  = size ((list_to_set b : gset string) ∩ list_to_set a).
Proof. f_equal. apply intersection_comm_L. Qed.

Lemma size_union_comm (a b : list string) :
  size ((list_to_set a : gset string) ∪ list_to_set b)
  = size ((list_to_set b : gset string) ∪ list_to_set a).
Proof. f_equal. apply union_comm_L. Qed.

Lemma jaccard_comm (a b : list string) : jaccard a b = jaccard b a.
Proof. unfold jaccard. rewrite size_inter_comm, size_union_comm. reflexivity. Qed.

Lemma weigh_category_comm (a b : list string) (acc : Q * Q) (item : string * list string) :
  weigh_category a b acc item = weigh_category b a acc item.
Proof.
  unfold weigh_category. destruct acc as [total_weight weighted_score].
  destruct item as [category skills_dict].
  rewrite (jaccard_comm (List.filter (is_key skills_dict) a)).
  destruct (nonempty (List.filter (is_key skills_dict) a)),
    (nonempty (List.filter (is_key skills_dict) b)); reflexivity.
Qed.

Lemma weighted_similarity_comm (self : t) (a b : list string) :
  _calculate_weighted_similarity self a b = _calculate_weighted_similarity self b a.
Proof.
  unfold _calculate_weighted_similarity.
  assert (H : forall db acc, fold_left (weigh_category a b) db acc
                             = fold_left (weigh_category b a) db acc).
  { induction db as [|item db IH]; intros acc; simpl; [reflexivity|].
    rewrite weigh_category_comm. apply IH. }
  rewrite H. reflexivity.
Qed.

(** The similarity of two skill lists does not depend on their order. *)
Theorem skills_similarity_is_symmetric :
  forall (self : t) (skills1 skills2 : list string),
    calculate_skills_similarity self skills1 skills2
    = calculate_skills_similarity self skills2 skills1.
Proof.
  intros self skills1 skills2. unfold calculate_skills_similarity.
  rewrite (orb_comm (negb (nonempty skills1))).
  rewrite size_inter_comm, size_union_comm, weighted_similarity_comm. reflexivity.
Qed.

Lemma inject_nat_nonneg (n : nat) : 0 <= inject_Z (Z.of_nat n).
Proof. unfold Qle. simpl. lia. Qed.

Lemma ratio_range (n d : nat) :
  (n <= d)%nat -> 0 <= inject_Z (Z.of_nat n) / inject_Z (Z.of_nat d) <= 1.
Proof.
  intros Hle. destruct d as [|d].
  - assert (n = 0%nat) as -> by lia. split; discriminate.
  - assert (Hd : 0 < inject_Z (Z.of_nat (S d))) by (unfold Qlt; simpl; lia).
    split.
    + apply Qle_shift_div_l; [exact Hd|]. rewrite Qmult_0_l. apply inject_nat_nonneg.
    + apply Qle_shift_div_r; [exact Hd|]. rewrite Qmult_1_l.
      unfold Qle. simpl. lia.
Qed.

Lemma ratio_zero (n d : nat) :
  (0 < d)%nat -> (inject_Z (Z.of_nat n) / inject_Z (Z.of_nat d) == 0 <-> n = 0%nat).
Proof.
  intros Hd. split.
  - intros H. destruct n as [|n]; [reflexivity|]. exfalso.
    assert (Hpos : 0 < inject_Z (Z.of_nat (S n)) / inject_Z (Z.of_nat d)).
    { apply Qlt_shift_div_l; [unfold Qlt; simpl; lia|]. rewrite Qmult_0_l.
      unfold Qlt. simpl. lia. }
    rewrite H in Hpos. discriminate.
  - intros ->. unfold Qdiv. apply Qmult_0_l.
Qed.

Lemma size_inter_le_union (a b : list string) :
  (size ((list_to_set a : gset string) ∩ list_to_set b)
   <= size ((list_to_set a : gset string) ∪ list_to_set b))%nat.
Proof.
  apply subseteq_size. intros s Hs. apply elem_of_intersection in Hs.
  apply elem_of_union. left. exact (proj1 Hs).
Qed.

Lemma jaccard_range (a b : list string) : 0 <= jaccard a b <= 1.
Proof. unfold jaccard. apply ratio_range, size_inter_le_union. Qed.

Lemma size_inter_zero (a b : list string) :
  size ((list_to_set a : gset string) ∩ list_to_set b) = 0%nat <-> disjoint_skills a b.
Proof.
  rewrite size_empty_iff. unfold disjoint_skills. split.
  - intros H s Ha Hb. apply (not_elem_of_empty (C := gset string) s).
    rewrite <- (H s). apply elem_of_intersection.
    split; apply elem_of_list_to_set, list_elem_of_In; assumption.
  - intros H s. split; [|intros Hs; exfalso; exact (not_elem_of_empty s Hs)].
    intros Hs. apply elem_of_intersection in Hs. destruct Hs as [Ha Hb].
    apply elem_of_list_to_set, list_elem_of_In in Ha, Hb. exfalso. exact (H s Ha Hb).
Qed.

Lemma jaccard_disjoint (a b : list string) : disjoint_skills a b -> jaccard a b == 0.
Proof.
  intros H. unfold jaccard. rewrite (proj2 (size_inter_zero a b) H).
  unfold Qdiv. apply Qmult_0_l.
Qed.

Lemma disjoint_filter (f : string -> bool) (a b : list string) :
  disjoint_skills a b -> disjoint_skills (List.filter f a) (List.filter f b).
Proof.
  intros H s Ha Hb. apply filter_In in Ha, Hb. exact (H s (proj1 Ha) (proj1 Hb)).
Qed.

(** The loop keeps the score between zero and the total weight, and at
    zero when the lists share no skill. *)
Lemma weigh_category_range (a b : list string) (acc : Q * Q) (item : string * list string) :
  0 <= snd acc <= fst acc ->
  0 <= snd (weigh_category a b acc item) <= fst (weigh_category a b acc item) /\
  (disjoint_skills a b -> snd acc == 0 -> snd (weigh_category a b acc item) == 0).
Proof.
  destruct acc as [total_weight weighted_score], item as [category skills_dict].
  cbn [fst snd]. intros Hacc. unfold weigh_category.
  pose proof (weight_of_pos category) as Hw.
  pose proof (jaccard_range (List.filter (is_key skills_dict) a)
                (List.filter (is_key skills_dict) b)) as Hj.
  destruct (nonempty (List.filter (is_key skills_dict) a)
            || nonempty (List.filter (is_key skills_dict) b)); [|cbn [fst snd]; tauto].
  set (cat_similarity := if nonempty (List.filter (is_key skills_dict) a)
                            && nonempty (List.filter (is_key skills_dict) b)
                         then jaccard (List.filter (is_key skills_dict) a)
                                (List.filter (is_key skills_dict) b)
                         else 0.0).
  assert (Hc : 0 <= cat_similarity <= 1).
  { subst cat_similarity. destruct (_ && _); [exact Hj | split; discriminate]. }
  cbn [fst snd]. split.
  - split.
    + rewrite <- (Qplus_0_l 0). apply Qplus_le_compat; [tauto|].
      apply Qmult_le_0_compat; [tauto | apply Qlt_le_weak; exact Hw].
    + apply Qplus_le_compat; [tauto|].
      rewrite <- (Qmult_1_l (weight_of category)) at 2.
      apply Qmult_le_compat_r; [tauto | apply Qlt_le_weak; exact Hw].
  - intros Hdis Hscore.
    assert (Hcz : cat_similarity == 0).
    { subst cat_similarity. destruct (_ && _); [|reflexivity].
      apply jaccard_disjoint, disjoint_filter, Hdis. }
    rewrite Hscore, Hcz. ring.
Qed.

(** The loop keeps the score between zero and the total weight, and at
    zero when the lists share no skill. *)
Lemma weigh_categories_range (a b : list string) (db : list (string * list string)) :
  forall acc : Q * Q,
    0 <= snd acc <= fst acc ->
    0 <= snd (fold_left (weigh_category a b) db acc)
    <= fst (fold_left (weigh_category a b) db acc) /\
    (disjoint_skills a b -> snd acc == 0 ->
     snd (fold_left (weigh_category a b) db acc) == 0).
Proof.
  induction db as [|item db IH]; intros acc Hacc; cbn [fold_left].
  - split; [exact Hacc | tauto].
  - destruct (weigh_category_range a b acc item Hacc) as [Hrange Hzero].
    destruct (IH _ Hrange) as [Hrange' Hzero']. split; [exact Hrange'|].
    intros Hdis Hscore. apply Hzero'; [exact Hdis|]. apply Hzero; assumption.
Qed.

Lemma weighted_similarity_range (self : t) (a b : list string) :
  0 <= _calculate_weighted_similarity self a b <= 1 /\
  (disjoint_skills a b -> _calculate_weighted_similarity self a b == 0).
Proof.
  unfold _calculate_weighted_similarity.
  destruct (weigh_categories_range a b (skills_database self) (0, 0)) as [Hrange Hzero];
    [split; discriminate|].
  destruct (fold_left _ _ _) as [total_weight weighted_score]. cbn [fst snd] in *.
  destruct (Qeq_bool total_weight 0) eqn:E.
  - split; [split; discriminate | reflexivity].
  - assert (Hpos : 0 < total_weight).
    { destruct Hrange as [H0 H1].
      destruct (Qlt_le_dec 0 total_weight) as [Hlt | Hle]; [exact Hlt|].
      exfalso. apply Qeq_bool_neq in E. apply E. apply Qle_antisym; [exact Hle|].
      apply Qle_trans with weighted_score; assumption. }
    split.
    + split.
      * apply Qle_shift_div_l; [exact Hpos|]. rewrite Qmult_0_l. tauto.
      * apply Qle_shift_div_r; [exact Hpos|]. rewrite Qmult_1_l. tauto.
    + intros Hdis. rewrite (Hzero Hdis (Qeq_refl 0)). unfold Qdiv. apply Qmult_0_l.
Qed.

Lemma size_union_pos (a b : list string) :
  a <> [] -> (0 < size ((list_to_set a : gset string) ∪ list_to_set b))%nat.
Proof.
  intros Ha. apply Nat.lt_le_trans with (size (list_to_set a : gset string)).
  - apply size_list_to_set_pos, Ha.
  - apply subseteq_size. intros s Hs. apply elem_of_union. left. exact Hs.
Qed.

(** The similarity is a score between 0 and 1, and it is 0 exactly for
    lists that share no skill (an empty list shares none). *)
Theorem skills_similarity_is_a_score :
  forall (self : t) (skills1 skills2 : list string),
    0 <= calculate_skills_similarity self skills1 skills2 <= 1 /\
    (disjoint_skills skills1 skills2 ->
     calculate_skills_similarity self skills1 skills2 == 0) /\
    (skills1 <> [] -> skills2 <> [] ->
     calculate_skills_similarity self skills1 skills2 == 0 ->
     disjoint_skills skills1 skills2).
Proof.
  intros self skills1 skills2. unfold calculate_skills_similarity.
  destruct skills1 as [|s1 skills1].
  { cbn. split; [split; discriminate|]. split; [reflexivity | congruence]. }
  destruct skills2 as [|s2 skills2].
  { cbn. split; [split; discriminate|]. split; [reflexivity | congruence]. }
  cbn [nonempty negb orb].
  set (a := s1 :: skills1). set (b := s2 :: skills2).
  pose proof (size_union_pos a b ltac:(discriminate)) as Hunion.
  destruct (Z.eqb_spec (Z.of_nat (size ((list_to_set a : gset string) ∪ list_to_set b))) 0)
    as [Hzero | _]; [lia|].
  change (inject_Z (Z.of_nat (size ((list_to_set a : gset string) ∩ list_to_set b)))
          / inject_Z (Z.of_nat (size ((list_to_set a : gset string) ∪ list_to_set b))))
    with (jaccard a b).
  pose proof (jaccard_range a b) as [Hj0 Hj1].
  destruct (weighted_similarity_range self a b) as [[Hw0 Hw1] Hwz].
  set (j := jaccard a b) in *. set (w := _calculate_weighted_similarity self a b) in *.
  assert (Hfinal0 : 0 <= j * 0.6 + w * 0.4).
  { rewrite <- (Qplus_0_l 0).
    apply Qplus_le_compat; apply Qmult_le_0_compat; try assumption; discriminate. }
  unfold py_min. destruct (Qle_bool (j * 0.6 + w * 0.4) 1.0) eqn:E.
  - apply Qle_bool_iff in E.
    split; [split; [exact Hfinal0 | apply Qle_trans with 1.0; [exact E | discriminate]]|].
    split.
    + intros Hdis. rewrite (Hwz Hdis). subst j. rewrite (jaccard_disjoint a b Hdis). ring.
    + intros _ _ Hsum.
      assert (Hjz : j == 0).
      { apply Qle_antisym; [|exact Hj0].
        apply Qmult_le_r with 0.6; [reflexivity|]. rewrite Qmult_0_l.
        rewrite <- Hsum. rewrite <- (Qplus_0_r (j * 0.6)) at 1.
        apply Qplus_le_compat; [apply Qle_refl|].
        apply Qmult_le_0_compat; [exact Hw0 | discriminate]. }
      apply size_inter_zero. subst j. unfold jaccard in Hjz.
      apply ratio_zero in Hjz; [exact Hjz | exact Hunion].
  - split; [split; discriminate|]. split.
    + intros Hdis. exfalso.
      assert (Hle : j * 0.6 + w * 0.4 <= 1.0).
      { rewrite (Hwz Hdis). subst j. rewrite (jaccard_disjoint a b Hdis). discriminate. }
      apply Qle_bool_iff in Hle. congruence.
    + intros _ _ H. discriminate.
Qed.

End SimilarityMeasure.

(** ** api/v1/endpoints/candidate_features.py: the list of recommendations *)

Section RecommendationList.
Import CandidateFeatures.
Local Open Scope Q_scope.

Lemma insert_by_score_sorted (r : JobRecommendation) (sorted : list JobRecommendation) :
  StronglySorted not_below sorted -> StronglySorted not_below (insert_by_score r sorted).
Proof.
  induction sorted as [|r' sorted IH]; intros Hsorted; cbn [insert_by_score].
  - constructor; [constructor | constructor].
  - apply StronglySorted_inv in Hsorted. destruct Hsorted as [Htail Hhead].
    destruct (Qle_bool (match_score r') (match_score r)) eqn:E.
    + apply Qle_bool_iff in E. constructor; [constructor; assumption|].
      constructor; [exact E|].
      apply Forall_forall. intros x Hx. apply list_elem_of_In in Hx.
      rewrite Forall_forall in Hhead.
      unfold not_below. apply Qle_trans with (match_score r'); [|exact E].
      apply Hhead. apply list_elem_of_In. exact Hx.
    + constructor; [apply IH; exact Htail|].
      apply Forall_forall. intros x Hx. apply list_elem_of_In in Hx.
      destruct (In_insert_by_score _ _ _ Hx) as [-> | Hin].
      * unfold not_below. apply Qlt_le_weak, Qnot_le_lt. intros Hle.
        apply Qle_bool_iff in Hle. congruence.
      * rewrite Forall_forall in Hhead. apply Hhead. apply list_elem_of_In. exact Hin.
Qed.

Lemma sort_by_score_sorted (l : list JobRecommendation) :
  StronglySorted not_below (sort_by_score l).
Proof.
  unfold sort_by_score. induction l as [|r l IH]; cbn [fold_right]; [constructor|].
  apply insert_by_score_sorted, IH.
Qed.

Lemma take_sorted {A : Type} (R : A -> A -> Prop) (n : nat) (l : list A) :
  StronglySorted R l -> StronglySorted R (take n l).
Proof.
  revert l. induction n as [|n IH]; intros [|x l] H; cbn [take]; try constructor.
  - apply IH. apply StronglySorted_inv in H. tauto.
  - apply StronglySorted_inv in H. destruct H as [_ H].
    apply Forall_forall. intros y Hy. rewrite Forall_forall in H. apply H.
    apply list_elem_of_In. apply list_elem_of_In in Hy. exact (In_take _ _ _ Hy).
Qed.

Lemma job_skills_are_candidate_skills (job : Job.t) (skill : string) :
  In skill (job_skills job) -> In skill candidate_skills.
Proof. unfold job_skills. intros H. apply filter_In in H. tauto. Qed.

Lemma recommend_missing_skills (job : Job.t) : missing_skills (recommend job) = [].
Proof.
  unfold recommend. cbn [missing_skills].
  assert (E : (list_to_set (job_skills job) : gset string) ∖ list_to_set candidate_skills = ∅).
  { apply elem_of_equiv_empty_L. intros s Hs. apply elem_of_difference in Hs.
    destruct Hs as [Hjob Hnot]. apply Hnot.
    apply elem_of_list_to_set in Hjob. apply list_elem_of_In in Hjob.
    apply elem_of_list_to_set. apply list_elem_of_In.
    exact (job_skills_are_candidate_skills job s Hjob). }
  rewrite E, elements_empty. reflexivity.
Qed.

(** [get_job_recommendations] returns at most five recommendations,
    the highest score first; each is the recommendation of an active
    job the user has not applied to; and none ever names a missing
    skill, the skills of a job being looked for among the candidate's
    own. *)
Theorem recommendations_are_five_sorted_and_unapplied :
  forall (current_user : User.t) (db : DB.t),
    (length (get_job_recommendations current_user db) <= 5)%nat /\
    StronglySorted not_below (get_job_recommendations current_user db) /\
    forall r : JobRecommendation,
      In r (get_job_recommendations current_user db) ->
      missing_skills r = [] /\
      exists job : Job.t,
        In job (DB.jobs db) /\ r = recommend job /\
        Job.status job = Some "active"%string /\
        forall app : Application.t,
          In app (DB.applications db) ->
          Application.user_id app = User.id current_user ->
          Application.job_id app <> Job.id job.
Proof.
  intros current_user db. split; [|split].
  - unfold get_job_recommendations. rewrite length_take. lia.
  - unfold get_job_recommendations. apply take_sorted, sort_by_score_sorted.
  - unfold get_job_recommendations. intros r H.
    apply In_take, In_sort_by_score, in_map_iff in H. destruct H as (job & <- & H).
    split; [apply recommend_missing_skills|].
    apply In_take, filter_In in H. destruct H as [Hin Hcond].
    apply andb_true_iff in Hcond. destruct Hcond as [Hactive Hnew].
    apply bool_decide_eq_true in Hactive. apply negb_true_iff in Hnew.
    exists job. split; [exact Hin|]. split; [reflexivity|]. split; [exact Hactive|].
    intros app Happ Huser Hjob.
    assert (Hex : existsb (String.eqb (Job.id job))
                    (List.map Application.job_id
                       (List.filter
                          (fun app => String.eqb (Application.user_id app) (User.id current_user))
                          (DB.applications db))) = true).
    { apply existsb_exists. exists (Application.job_id app). split.
      - apply in_map. apply filter_In. split; [exact Happ|]. apply String.eqb_eq. exact Huser.
      - apply String.eqb_eq. symmetry. exact Hjob. }
    congruence.
Qed.

End RecommendationList.

(** ** api/v1/endpoints/candidate_features.py: saved jobs and job alerts *)

Section SavedJobsAndAlerts.
Import CandidateFeatures.

Lemma delete_first_fresh {A : Type} (is_row : A -> bool) (table : list A) (row : A) :
  (forall r, In r table -> is_row r = false) -> is_row row = true ->
  DB.delete_first is_row (table ++ [row]) = table.
Proof.
  intros Hfresh Hrow. induction table as [|r table IH]; simpl.
  - rewrite Hrow. reflexivity.
  - rewrite (Hfresh r (or_introl eq_refl)). f_equal. apply IH.
    intros r' Hin. apply Hfresh. right. exact Hin.
Qed.

Lemma In_delete_first_other {A : Type} (is_row : A -> bool) (table : list A) (row : A) :
  In row table -> is_row row = false -> In row (DB.delete_first is_row table).
Proof.
  induction table as [|r table IH]; simpl; [tauto|].
  intros [-> | Hin] Hrow.
  - rewrite Hrow. left. reflexivity.
  - destruct (is_row r); [exact Hin | right; exact (IH Hin Hrow)].
Qed.

Lemma In_delete_first {A : Type} (is_row : A -> bool) (table : list A) (row : A) :
  In row (DB.delete_first is_row table) -> In row table.
Proof.
  induction table as [|r table IH]; simpl; [tauto|].
  destruct (is_row r); [tauto|]. intros [-> | Hin]; [left; reflexivity | right; exact (IH Hin)].
Qed.

Lemma same_key_same_row {A : Type} (key : A -> string) (table : list A) (r r' : A) :
  List.NoDup (List.map key table) -> In r table -> In r' table -> key r = key r' -> r = r'.
Proof.
  induction table as [|x table IH]; simpl; intros Hnd Hr Hr' Hkey; [contradiction|].
  apply List.NoDup_cons_iff in Hnd. destruct Hnd as [Hfresh Hnd].
  destruct Hr as [-> | Hr], Hr' as [-> | Hr'].
  - reflexivity.
  - exfalso. apply Hfresh. rewrite Hkey. apply in_map. exact Hr'.
  - exfalso. apply Hfresh. rewrite <- Hkey. apply in_map. exact Hr.
  - exact (IH Hnd Hr Hr' Hkey).
Qed.

(** Saving and removing a job are inverse to each other and confined
    to the candidate: a job saved with a fresh key is refused a second
    time (400) and [unsave_job] restores the table; and, keys being
    unique, [unsave_job] removes one row of the candidate for that job
    and no row of anyone else. *)
Theorem save_job_and_unsave_job_are_inverse :
  forall (new_id : UUID) (now : Z) (job_id : string) (current_user : User.t) (db : DB.t)
         (saved_jobs : list SavedJob.t),
    List.NoDup (List.map SavedJob.id saved_jobs) ->
    ~ In new_id (List.map SavedJob.id saved_jobs) ->
    (forall response : SavedJobResponse.t,
        fst (save_job new_id now job_id current_user db saved_jobs) = HTTPOk response ->
        let saved_jobs' := snd (save_job new_id now job_id current_user db saved_jobs) in
        (forall (new_id' : UUID) (now' : Z),
            save_job new_id' now' job_id current_user db saved_jobs'
            = (HTTPError HTTP_400_BAD_REQUEST "Job already saved", saved_jobs')) /\
        unsave_job job_id current_user saved_jobs'
        = (HTTPOk "Job removed from saved jobs", saved_jobs)) /\
    (forall row : SavedJob.t,
        In row saved_jobs ->
        In row (snd (unsave_job job_id current_user saved_jobs)) \/
        (SavedJob.candidate_id row = User.id current_user /\ SavedJob.job_id row = job_id)).
Proof.
  intros new_id now job_id current_user db saved_jobs Hnd Hfresh. split.
  - intros response. unfold save_job.
    destruct (DB.first (Jobs.has_id job_id) (DB.jobs db)) as [job|] eqn:Hjob;
      [|discriminate].
    destruct (DB.first (saved_by (User.id current_user) job_id) saved_jobs) eqn:Hsaved;
      [discriminate|].
    intros _. cbn [snd].
    set (saved_job := SavedJob.mk new_id (User.id current_user) job_id (Some 85.0%Q) now).
    assert (Hnone : forall r, In r saved_jobs ->
                              saved_by (User.id current_user) job_id r = false).
    { intros r Hin. exact (find_none _ _ Hsaved r Hin). }
    assert (Hnew : saved_by (User.id current_user) job_id saved_job = true).
    { unfold saved_by. cbn. rewrite !String.eqb_refl. reflexivity. }
    assert (Hfirst : DB.first (saved_by (User.id current_user) job_id)
                       (saved_jobs ++ [saved_job]) = Some saved_job).
    { apply first_app_fresh; assumption. }
    split.
    + intros new_id' now'. rewrite Hfirst. reflexivity.
    + unfold unsave_job. rewrite Hfirst. f_equal. apply delete_first_fresh.
      * intros r Hin. cbn [SavedJob.id saved_job]. apply String.eqb_neq. intros Heq.
        apply Hfresh. rewrite <- Heq. apply in_map. exact Hin.
      * apply String.eqb_refl.
  - intros row Hin. unfold unsave_job.
    destruct (DB.first (saved_by (User.id current_user) job_id) saved_jobs)
      as [found|] eqn:Hfound; cbn [snd]; [|left; exact Hin].
    destruct (first_Some_In _ _ _ Hfound) as [Hfin Hcond].
    unfold saved_by in Hcond. apply andb_true_iff in Hcond. rewrite !String.eqb_eq in Hcond.
    destruct (String.eqb_spec (SavedJob.id row) (SavedJob.id found)) as [Heq | Hne].
    + right. rewrite (same_key_same_row SavedJob.id saved_jobs row found Hnd Hin Hfin Heq).
      exact Hcond.
    + left. apply In_delete_first_other; [exact Hin|]. apply String.eqb_neq. exact Hne.
Qed.

Lemma samples_saved_jobs_unique : List.NoDup (List.map SavedJob.id Samples.saved_jobs).
Proof. vm_compute. repeat (constructor; [simpl; intuition discriminate|]). constructor. Qed.

(** The candidate saves the backend job and removes it again; the
    other candidate's row stays when he removes the sales job. *)
Lemma save_job_and_unsave_job_are_inverse_witness :
  unsave_job "j-backend" Samples.carl
    (snd (save_job "s-3" 300 "j-backend" Samples.carl Samples.db Samples.saved_jobs))
  = (HTTPOk "Job removed from saved jobs", Samples.saved_jobs) /\
  In Samples.dora_saved (snd (unsave_job "j-sales" Samples.carl Samples.saved_jobs)).
Proof.
  split.
  - refine (proj2 (proj1 (save_job_and_unsave_job_are_inverse "s-3" 300 "j-backend"
                            Samples.carl Samples.db Samples.saved_jobs
                            samples_saved_jobs_unique _) _ _)).
    + simpl. intuition discriminate.
    + reflexivity.
  - vm_compute. left. reflexivity.
Defined.

Lemma alert_responses_fail (alerts : list JobAlert.t) (alert : JobAlert.t) :
  In alert alerts -> JobAlert.location alert = None -> alert_responses alerts = None.
Proof.
  intros Hin Hloc. induction alerts as [|a alerts IH]; [contradiction|].
  cbn [alert_responses]. destruct Hin as [-> | Hin].
  - unfold alert_response. rewrite Hloc. reflexivity.
  - destruct (alert_response a _); [|reflexivity]. rewrite (IH Hin). reflexivity.
Qed.

(** An alert created without a location is stored all the same, but
    the request is answered 500, and so is every later request of the
    candidate for the list of alerts, until the alert is deleted; with
    a location the alert is stored, active, and returned. *)
Theorem alert_without_location_is_stored_and_breaks_the_list :
  forall (validation_error : string) (new_id : UUID) (now : Z)
         (alert_data : JobAlertCreate.t) (current_user : User.t)
         (job_alerts : list JobAlert.t),
    exists alert : JobAlert.t,
      snd (create_job_alert validation_error new_id now alert_data current_user job_alerts)
      = job_alerts ++ [alert] /\
      JobAlert.id alert = new_id /\
      JobAlert.candidate_id alert = User.id current_user /\
      JobAlert.is_active alert = true /\
      (JobAlertCreate.location alert_data = None ->
       fst (create_job_alert validation_error new_id now alert_data current_user job_alerts)
       = HTTPError 500 ("Error creating job alert: " +:+ validation_error) /\
       (forall later : list JobAlert.t,
           get_job_alerts validation_error current_user (job_alerts ++ [alert] ++ later)
           = HTTPError 500 ("Error retrieving job alerts: " +:+ validation_error)) /\
       (~ In new_id (List.map JobAlert.id job_alerts) ->
        delete_job_alert new_id current_user (job_alerts ++ [alert])
        = (HTTPOk "Job alert deleted", job_alerts))) /\
      (forall location : string,
          JobAlertCreate.location alert_data = Some location ->
          exists response : JobAlertResponse.t,
            fst (create_job_alert validation_error new_id now alert_data current_user
                   job_alerts) = HTTPOk response /\
            JobAlertResponse.id response = new_id /\
            JobAlertResponse.location response = location /\
            JobAlertResponse.is_active response = true).
Proof.
  intros validation_error new_id now alert_data current_user job_alerts.
  unfold create_job_alert.
  set (alert := JobAlert.mk new_id (User.id current_user) _ _ _ _ _ _ _ true None 0 now None).
  exists alert. split.
  { destruct (alert_response alert 0); reflexivity. }
  split; [reflexivity|]. split; [reflexivity|]. split; [reflexivity|]. split.
  - intros Hloc. unfold alert_response. cbn [JobAlert.location alert]. rewrite Hloc.
    cbn [fst]. split; [reflexivity|]. split.
    + intros later. unfold get_job_alerts.
      rewrite (alert_responses_fail _ alert); [reflexivity| |exact Hloc].
      apply filter_In. split.
      * apply in_or_app. right. left. reflexivity.
      * apply String.eqb_refl.
    + intros Hfresh. unfold delete_job_alert.
      assert (Hfirst : DB.first (alert_of new_id (User.id current_user))
                         (job_alerts ++ [alert]) = Some alert).
      { apply first_app_fresh.
        - intros r Hin. unfold alert_of. apply andb_false_iff. left.
          apply String.eqb_neq. intros Heq. apply Hfresh. rewrite <- Heq.
          apply in_map. exact Hin.
        - unfold alert_of. cbn. rewrite !String.eqb_refl. reflexivity. }
      rewrite Hfirst. f_equal. apply delete_first_fresh.
      * intros r Hin. apply String.eqb_neq. intros Heq. apply Hfresh.
        cbn [JobAlert.id alert] in Heq. rewrite <- Heq. apply in_map. exact Hin.
      * apply String.eqb_refl.
  - intros location Hloc. unfold alert_response. cbn [JobAlert.location alert].
    rewrite Hloc. cbn [fst]. eexists. split; [reflexivity|]. cbn. tauto.
Qed.

Lemma first_by_unique_key (P : JobAlert.t -> bool) (table : list JobAlert.t)
  (alert_id : string) (x : JobAlert.t) :
  List.NoDup (List.map JobAlert.id table) ->
  (forall r, P r = true -> JobAlert.id r = alert_id) ->
  In x table -> P x = true -> DB.first P table = Some x.
Proof.
  intros Hnd Hkey Hin Hx.
  destruct (first_exists P table x Hin Hx) as [y Hy]. rewrite Hy. f_equal.
  destruct (first_Some_In _ _ _ Hy) as [Hyin HPy].
  apply (same_key_same_row JobAlert.id table y x Hnd Hyin Hin).
  rewrite (Hkey y HPy), (Hkey x Hx). reflexivity.
Qed.

Lemma update_first_map (table : list JobAlert.t) (k : string) (new_row : JobAlert.t) :
  List.NoDup (List.map JobAlert.id table) ->
  DB.update_first (fun row => String.eqb (JobAlert.id row) k) new_row table
  = List.map (fun row => if String.eqb (JobAlert.id row) k then new_row else row) table.
Proof.
  induction table as [|r table IH]; simpl; intros Hnd; [reflexivity|].
  apply List.NoDup_cons_iff in Hnd. destruct Hnd as [Hfresh Hnd].
  destruct (String.eqb_spec (JobAlert.id r) k) as [Heq | Hne].
  - f_equal. rewrite <- (map_id table) at 1. apply map_ext_in.
    intros r' Hin. destruct (String.eqb_spec (JobAlert.id r') k) as [Heq' | _]; [|reflexivity].
    exfalso. apply Hfresh. rewrite Heq, <- Heq'. apply in_map. exact Hin.
  - f_equal. apply IH. exact Hnd.
Qed.

Lemma toggled_toggled (now now' : Z) (alert : JobAlert.t) :
  toggled now' (toggled now alert) = with_updated_at (Some now') alert.
Proof. destruct alert. unfold toggled, with_updated_at. cbn. rewrite negb_involutive. reflexivity. Qed.

Lemma toggle_job_alert_map (now : Z) (alert_id : string) (current_user : User.t)
  (job_alerts : list JobAlert.t) (found : JobAlert.t) :
  List.NoDup (List.map JobAlert.id job_alerts) ->
  DB.first (alert_of alert_id (User.id current_user)) job_alerts = Some found ->
  snd (toggle_job_alert now alert_id current_user job_alerts)
  = List.map (fun row => if String.eqb (JobAlert.id row) alert_id then toggled now found
                         else row)
      job_alerts.
Proof.
  intros Hnd Hfound. unfold toggle_job_alert. rewrite Hfound. cbn [snd].
  destruct (first_Some_In _ _ _ Hfound) as [_ Hcond].
  unfold alert_of in Hcond. apply andb_true_iff in Hcond. destruct Hcond as [Hid _].
  apply String.eqb_eq in Hid.
  change (JobAlert.id (toggled now found)) with (JobAlert.id found).
  rewrite (update_first_map job_alerts (JobAlert.id found) (toggled now found) Hnd).
  rewrite Hid. reflexivity.
Qed.

(** A candidate acts on their own alerts only, keys being unique: the
    alert of someone else is reported as not found and left as it is
    by [toggle_job_alert] and [delete_job_alert], no call of the two
    changes a row of another candidate, and toggling twice gives the
    table back but for the column [updated_at] of the alert toggled,
    which holds the time of the second toggle. *)
Theorem job_alerts_are_the_candidates_own :
  forall (alert_id : string) (current_user : User.t) (job_alerts : list JobAlert.t),
    List.NoDup (List.map JobAlert.id job_alerts) ->
    (forall (now : Z) (alert : JobAlert.t),
        In alert job_alerts -> JobAlert.id alert = alert_id ->
        JobAlert.candidate_id alert <> User.id current_user ->
        toggle_job_alert now alert_id current_user job_alerts
        = (HTTPError HTTP_404_NOT_FOUND "Job alert not found", job_alerts) /\
        delete_job_alert alert_id current_user job_alerts
        = (HTTPError HTTP_404_NOT_FOUND "Job alert not found", job_alerts)) /\
    (forall (now : Z) (alert : JobAlert.t),
        In alert job_alerts -> JobAlert.candidate_id alert <> User.id current_user ->
        In alert (snd (toggle_job_alert now alert_id current_user job_alerts)) /\
        In alert (snd (delete_job_alert alert_id current_user job_alerts))) /\
    (forall now now' : Z,
        snd (toggle_job_alert now' alert_id current_user
               (snd (toggle_job_alert now alert_id current_user job_alerts)))
        = List.map
            (fun row =>
               if alert_of alert_id (User.id current_user) row
               then with_updated_at (Some now') row
               else row)
            job_alerts).
Proof.
  intros alert_id current_user job_alerts Hnd.
  assert (Hkey : forall r, alert_of alert_id (User.id current_user) r = true ->
                           JobAlert.id r = alert_id /\
                           JobAlert.candidate_id r = User.id current_user).
  { intros r H. unfold alert_of in H. apply andb_true_iff in H.
    rewrite !String.eqb_eq in H. exact H. }
  split; [|split].
  - intros now alert Hin Hid Hother.
    assert (Hnone : DB.first (alert_of alert_id (User.id current_user)) job_alerts = None).
    { destruct (DB.first _ job_alerts) as [found|] eqn:Hfound; [|reflexivity]. exfalso.
      destruct (first_Some_In _ _ _ Hfound) as [Hfin Hcond].
      destruct (Hkey found Hcond) as [Hfid Hfc].
      apply Hother. rewrite <- Hfc. f_equal.
      apply (same_key_same_row JobAlert.id job_alerts alert found Hnd Hin Hfin). congruence. }
    unfold toggle_job_alert, delete_job_alert. rewrite Hnone. split; reflexivity.
  - intros now alert Hin Hother.
    destruct (DB.first (alert_of alert_id (User.id current_user)) job_alerts)
      as [found|] eqn:Hfound.
    + destruct (first_Some_In _ _ _ Hfound) as [Hfin Hcond].
      destruct (Hkey found Hcond) as [Hfid Hfc].
      assert (Hne : JobAlert.id alert <> alert_id).
      { intros Heq. apply Hother. rewrite <- Hfc. f_equal.
        apply (same_key_same_row JobAlert.id job_alerts alert found Hnd Hin Hfin).
        congruence. }
      split.
      * rewrite (toggle_job_alert_map now _ _ _ found Hnd Hfound). apply in_map_iff.
        exists alert. split; [|exact Hin].
        rewrite (proj2 (String.eqb_neq _ _) Hne). reflexivity.
      * unfold delete_job_alert. rewrite Hfound. cbn [snd].
        apply In_delete_first_other; [exact Hin|]. apply String.eqb_neq. congruence.
    + unfold toggle_job_alert, delete_job_alert. rewrite Hfound. split; exact Hin.
  - intros now now'.
    destruct (DB.first (alert_of alert_id (User.id current_user)) job_alerts)
      as [found|] eqn:Hfound.
    + destruct (first_Some_In _ _ _ Hfound) as [Hfin Hcond].
      destruct (Hkey found Hcond) as [Hfid Hfc].
      rewrite (toggle_job_alert_map now _ _ job_alerts found Hnd Hfound).
      set (f := fun row => if String.eqb (JobAlert.id row) alert_id then toggled now found
                           else row).
      assert (Hids : List.map JobAlert.id (List.map f job_alerts)
                     = List.map JobAlert.id job_alerts).
      { rewrite List.map_map. apply map_ext_in. intros r _. unfold f.
        destruct (String.eqb_spec (JobAlert.id r) alert_id) as [Heq | _]; [|reflexivity].
        cbn. congruence. }
      assert (Hnd' : List.NoDup (List.map JobAlert.id (List.map f job_alerts))).
      { rewrite Hids. exact Hnd. }
      assert (Hfound' : DB.first (alert_of alert_id (User.id current_user))
                          (List.map f job_alerts) = Some (toggled now found)).
      { apply (first_by_unique_key _ _ alert_id); [exact Hnd' | apply Hkey | |].
        - apply in_map_iff. exists found. split; [|exact Hfin].
          unfold f. rewrite Hfid, String.eqb_refl. reflexivity.
        - unfold alert_of. cbn [toggled JobAlert.id JobAlert.candidate_id].
          rewrite Hfid, Hfc, !String.eqb_refl. reflexivity. }
      rewrite (toggle_job_alert_map now' _ _ _ (toggled now found) Hnd' Hfound').
      rewrite List.map_map, toggled_toggled.
      apply map_ext_in. intros r Hin. unfold f.
      destruct (String.eqb_spec (JobAlert.id r) alert_id) as [Heq | Hne].
      * cbn [toggled JobAlert.id]. rewrite Hfid, String.eqb_refl.
        assert (Hr : r = found).
        { apply (same_key_same_row JobAlert.id job_alerts r found Hnd Hin Hfin).
          congruence. }
        rewrite Hr, Hcond. reflexivity.
      * rewrite (proj2 (String.eqb_neq _ _) Hne).
        unfold alert_of. rewrite (proj2 (String.eqb_neq _ _) Hne). reflexivity.
    + unfold toggle_job_alert at 2. rewrite Hfound. cbn [snd].
      unfold toggle_job_alert. rewrite Hfound. cbn [snd].
      rewrite <- (map_id job_alerts) at 1.
      apply map_ext_in. intros r Hin.
      rewrite (find_none _ _ Hfound r Hin). reflexivity.
Qed.

Lemma samples_job_alerts_unique : List.NoDup (List.map JobAlert.id Samples.job_alerts).
Proof. vm_compute. repeat (constructor; [simpl; intuition discriminate|]). constructor. Qed.

(** The first candidate cannot toggle the alert of the second, and
    toggles his own back and forth: the alert is as it was, but for
    the time of its last update. *)
Lemma job_alerts_are_the_candidates_own_witness :
  toggle_job_alert 70 "al-2" Samples.carl Samples.job_alerts
  = (HTTPError HTTP_404_NOT_FOUND "Job alert not found", Samples.job_alerts) /\
  toggle_job_alert 70 "al-1" Samples.carl Samples.job_alerts
  = (HTTPOk "Job alert deactivated", [toggled 70 Samples.carl_alert; Samples.dora_alert]) /\
  snd (toggle_job_alert 80 "al-1" Samples.carl
         (snd (toggle_job_alert 70 "al-1" Samples.carl Samples.job_alerts)))
  = [with_updated_at (Some 80) Samples.carl_alert; Samples.dora_alert] /\
  snd (toggle_job_alert 80 "al-1" Samples.carl
         (snd (toggle_job_alert 70 "al-1" Samples.carl Samples.job_alerts)))
  <> Samples.job_alerts.
Proof.
  split; [|split; [|split]].
  - apply (proj1 (job_alerts_are_the_candidates_own "al-2" Samples.carl Samples.job_alerts
                    samples_job_alerts_unique) 70 Samples.dora_alert).
    + right. left. reflexivity.
    + reflexivity.
    + discriminate.
  - reflexivity.
  - exact (proj2 (proj2 (job_alerts_are_the_candidates_own "al-1" Samples.carl
                           Samples.job_alerts samples_job_alerts_unique)) 70 80).
  - rewrite (proj2 (proj2 (job_alerts_are_the_candidates_own "al-1" Samples.carl
                             Samples.job_alerts samples_job_alerts_unique)) 70 80).
    discriminate.
Defined.

End SavedJobsAndAlerts.

(** ** services/ai_matching.py: processing and matching *)

Section ProcessAndMatch.
Import AIMatching MatchResumes.

Section Parser.
Variable extract_text_from_pdf : list byte -> string + string.
Variable extract_info : string -> string + list (string * option string).
Variable extract_skills : string -> string + list string.
Variable isoformat : Z -> string.

Lemma process_resume_file_cases (now : Z) (resume_bytes : list byte) (filename : string) :
  (_validate_pdf_bytes resume_bytes = false /\
   process_resume_file extract_text_from_pdf extract_info extract_skills isoformat
     now resume_bytes filename = []) \/
  (_validate_pdf_bytes resume_bytes = true /\
   exists r : processed_resume,
     process_resume_file extract_text_from_pdf extract_info extract_skills isoformat
       now resume_bytes filename = [r] /\
     filename_of r = filename /\
     (has_error r = false ->
      extract_text_from_pdf resume_bytes = inr (text_of r) /\
      extract_skills (text_of r) = inr (skills_of r))).
Proof.
  unfold process_resume_file.
  destruct (_validate_pdf_bytes resume_bytes); [right | left; split; reflexivity].
  split; [reflexivity|]. cbn [negb].
  destruct (extract_text_from_pdf resume_bytes) as [e | resume_text].
  { eexists. split; [reflexivity|]. split; [reflexivity | discriminate]. }
  destruct (extract_info resume_text) as [e | resume_info].
  { eexists. split; [reflexivity|]. split; [reflexivity | discriminate]. }
  destruct (extract_skills resume_text) as [e | resume_skills] eqn:Hskills.
  { eexists. split; [reflexivity|]. split; [reflexivity | discriminate]. }
  eexists. split; [reflexivity|]. split; [reflexivity|]. intros _. cbn [text_of skills_of].
  split; [reflexivity | exact Hskills].
Qed.

End Parser.

(** [process_resume_files] answers for each valid file, and for no
    other: files and names are paired in order up to the shorter of the
    two lists, a pair whose bytes [_validate_pdf_bytes] rejects is left
    out, and every other pair yields one entry with its file name; an
    entry without error holds the text and the skills the parser and
    the extractor found in a valid file of that name. *)
Theorem process_resume_files_answers_for_each_valid_file :
  forall (extract_text_from_pdf : list byte -> string + string)
         (extract_info : string -> string + list (string * option string))
         (extract_skills : string -> string + list string)
         (isoformat : Z -> string)
         (now : Z) (resume_files : list (list byte)) (filenames : list string),
    let processed_resumes :=
      process_resume_files extract_text_from_pdf extract_info extract_skills isoformat
        now resume_files filenames in
    List.map filename_of processed_resumes
    = List.map snd (List.filter (fun pair => _validate_pdf_bytes (fst pair))
                      (combine resume_files filenames)) /\
    (length processed_resumes <= Nat.min (length resume_files) (length filenames))%nat /\
    (forall r : processed_resume,
        In r processed_resumes -> has_error r = false ->
        exists resume_bytes : list byte,
          In (resume_bytes, filename_of r) (combine resume_files filenames) /\
          _validate_pdf_bytes resume_bytes = true /\
          extract_text_from_pdf resume_bytes = inr (text_of r) /\
          extract_skills (text_of r) = inr (skills_of r)).
Proof.
  intros extract_text_from_pdf extract_info extract_skills isoformat now resume_files
    filenames processed_resumes.
  subst processed_resumes. unfold process_resume_files.
  rewrite <- (length_combine resume_files filenames).
  induction (combine resume_files filenames) as [|[resume_bytes filename] pairs IH].
  - cbn. split; [reflexivity|]. split; [lia | tauto].
  - destruct IH as (IHnames & IHlen & IHin). cbn [flat_map List.filter fst].
    destruct (process_resume_file_cases extract_text_from_pdf extract_info extract_skills
                isoformat now resume_bytes filename)
      as [[Hvalid ->] | [Hvalid (r & -> & Hname & Hdata)]]; rewrite Hvalid.
    + cbn [app]. split; [exact IHnames|]. split; [cbn [length]; lia|].
      intros r Hin Herr. destruct (IHin r Hin Herr) as (bytes & Hpair & H).
      exists bytes. split; [right; exact Hpair | exact H].
    + cbn [app List.map snd length]. split; [rewrite Hname, IHnames; reflexivity|].
      split; [lia|].
      intros r' [<- | Hin] Herr.
      * exists resume_bytes. rewrite Hname. split; [left; reflexivity|].
        split; [exact Hvalid | exact (Hdata Herr)].
      * destruct (IHin r' Hin Herr) as (bytes & Hpair & H).
        exists bytes. split; [right; exact Hpair | exact H].
Qed.

Lemma py_index_In {A : Type} (l : list A) (i : Z) (x : A) : py_index l i = Some x -> In x l.
Proof.
  unfold py_index. destruct (0 <=? i); [apply nth_error_In|].
  destruct (- Z.of_nat (length l) <=? i); [apply nth_error_In | discriminate].
Qed.

Lemma size_matched_missing (a b : gset string) : (size (a ∩ b) + size (a ∖ b) = size a)%nat.
Proof.
  rewrite <- size_union.
  - f_equal. apply set_eq. intros s. rewrite elem_of_union, elem_of_intersection,
      elem_of_difference. destruct (decide (s ∈ b)); tauto.
  - intros s H1 H2. apply elem_of_intersection in H1. apply elem_of_difference in H2. tauto.
Qed.

Lemma match_status_is_a_label (score threshold : Q) :
  _get_match_status score threshold = STRONG_MATCH \/
  _get_match_status score threshold = MODERATE_MATCH \/
  _get_match_status score threshold = WEAK_MATCH.
Proof.
  unfold _get_match_status. destruct (Qle_bool threshold score); [tauto|].
  destruct (Qle_bool _ score); tauto.
Qed.

Lemma labels_partition (results : list MatchResult) :
  (forall r, In r results ->
             match_status r = STRONG_MATCH \/ match_status r = MODERATE_MATCH \/
             match_status r = WEAK_MATCH) ->
  (length (List.filter (fun r => String.eqb (match_status r) STRONG_MATCH) results)
   + length (List.filter (fun r => String.eqb (match_status r) MODERATE_MATCH) results)
   + length (List.filter (fun r => String.eqb (match_status r) WEAK_MATCH) results)
   = length results)%nat.
Proof.
  induction results as [|r results IH]; intros H; [reflexivity|].
  specialize (IH (fun r' Hin => H r' (or_intror Hin))).
  cbn [List.filter].
  destruct (H r (or_introl eq_refl)) as [-> | [-> | ->]];
    cbn [String.eqb Ascii.eqb Bool.eqb STRONG_MATCH MODERATE_MATCH WEAK_MATCH andb];
    cbn [length]; lia.
Qed.

Section Engine.
Variable round : Q -> Z -> Q.

Lemma results_of_spec (job_data : JobData) (similarity_threshold : Q)
  (valid_resumes : list processed_resume) (rankings : list Rank) (results : list MatchResult) :
  results_of round job_data similarity_threshold valid_resumes rankings = Some results ->
  length results = length rankings /\
  forall r, In r results ->
            exists (entry : Rank) (resume_info : processed_resume),
              In entry rankings /\ In resume_info valid_resumes /\
              r = result_of round job_data similarity_threshold resume_info entry.
Proof.
  revert results. induction rankings as [|entry rankings IH]; intros results;
    cbn [results_of].
  - intros H. injection H as <-. split; [reflexivity | intros r []].
  - destruct (py_index valid_resumes (resume_index entry)) as [resume_info|] eqn:Hindex;
      [|discriminate].
    destruct (results_of round job_data similarity_threshold valid_resumes rankings)
      as [results'|]; [|discriminate].
    intros H. injection H as <-. destruct (IH results' eq_refl) as [Hlen Hin].
    split; [cbn [length]; lia|].
    intros r [<- | Hr].
    + exists entry, resume_info. split; [left; reflexivity|].
      split; [exact (py_index_In _ _ _ Hindex) | reflexivity].
    + destruct (Hin r Hr) as (entry' & resume' & He & Hres & Heq).
      exists entry', resume'. split; [right; exact He|]. split; assumption.
Qed.

End Engine.

(** What [match_resumes_to_job] returns hangs together: every result
    is that of a resume without error, named by its file, its status is
    the one [_get_match_status] gives its score, and the skills of the
    job are split into the matched and the missing ones; the summary
    counts every result once, under exactly one of the three labels. *)
Theorem match_summary_counts_every_result :
  forall (rank_resumes_by_similarity :
            string -> list string -> list (option string) -> Q -> list Rank)
         (round : Q -> Z -> Q) (mean : list Q -> Q)
         (job_data : JobData) (resume_data : list processed_resume)
         (similarity_threshold skills_weight : Q)
         (results : list MatchResult) (summary : option Summary),
    match_resumes_to_job rank_resumes_by_similarity round mean job_data resume_data
      similarity_threshold skills_weight = inr (results, summary) ->
    (forall r : MatchResult,
        In r results ->
        (exists resume_info : processed_resume,
            In resume_info resume_data /\ has_error resume_info = false /\
            result_filename r = filename_of resume_info /\
            candidate_name r = name_of resume_info /\
            skills_found r = Z.of_nat (length (skills_of resume_info))) /\
        (exists score : Q,
            match_status r = _get_match_status score similarity_threshold /\
            final_score r = round (score * 100)%Q 2) /\
        skills_matched r + Z.of_nat (size (missing_skills r))
        = Z.of_nat (size (list_to_set (jd_skills job_data) : gset string))) /\
    match summary with
    | Some s =>
        results <> [] /\
        total_resumes s = Z.of_nat (length results) /\
        strong_matches s + moderate_matches s + weak_matches s = total_resumes s /\
        job_skills_count s = jd_skills_count job_data
    | None => results = []
    end.
Proof.
  intros rank_resumes_by_similarity round mean job_data resume_data similarity_threshold
    skills_weight results summary.
  unfold match_resumes_to_job.
  destruct resume_data as [|first_resume resume_data']; [discriminate|].
  set (resume_data := first_resume :: resume_data').
  set (valid_resumes := List.filter (fun r => negb (has_error r)) resume_data).
  destruct valid_resumes as [|valid valid_resumes'] eqn:Hvalid; [discriminate|].
  rewrite <- Hvalid.
  destruct (results_of round job_data similarity_threshold valid_resumes _)
    as [results'|] eqn:Hresults; [|discriminate].
  intros H. injection H as <- <-.
  destruct (results_of_spec round _ _ _ _ _ Hresults) as [Hlen Hin].
  assert (Hparts : forall r, In r results' ->
            exists (entry : Rank) (resume_info : processed_resume),
              In resume_info resume_data /\ has_error resume_info = false /\
              r = result_of round job_data similarity_threshold resume_info entry).
  { intros r Hr. destruct (Hin r Hr) as (entry & resume_info & _ & Hres & Heq).
    exists entry, resume_info. subst valid_resumes. apply filter_In in Hres.
    destruct Hres as [Hres Herr]. apply negb_true_iff in Herr. tauto. }
  split.
  - intros r Hr. destruct (Hparts r Hr) as (entry & resume_info & Hres & Herr & ->).
    unfold result_of. cbn. split; [|split].
    + exists resume_info. tauto.
    + exists (rank_final_score entry). split; reflexivity.
    + rewrite <- Nat2Z.inj_add. f_equal. apply size_matched_missing.
  - unfold _calculate_summary_stats. destruct results' as [|r results'']; cbn [List.map].
    + reflexivity.
    + set (results' := r :: results'') in *.
      cbn [total_resumes strong_matches moderate_matches weak_matches job_skills_count].
      split; [discriminate|]. split; [reflexivity|]. split; [|reflexivity].
      rewrite <- !Nat2Z.inj_add. f_equal. apply labels_partition.
      intros r' Hr'. destruct (Hparts r' Hr') as (entry & resume_info & _ & _ & ->).
      unfold result_of. cbn [match_status]. apply match_status_is_a_label.
Qed.

(** Two resumes and an error entry, ranked by the engine of the
    examples against a threshold of 0.7 *)
Lemma match_summary_counts_every_result_witness :
  exists (results : list MatchResult) (s : Summary),
    match_resumes_to_job Samples.engine Samples.round Samples.mean Samples.job_data
      Samples.resume_data 0.7%Q 0.6%Q = inr (results, Some s) /\
    List.map match_status results = [STRONG_MATCH; WEAK_MATCH] /\
    List.map result_filename results = ["ann.pdf"; "bob.pdf"]%string /\
    strong_matches s + moderate_matches s + weak_matches s = total_resumes s.
Proof.
  destruct (match_resumes_to_job Samples.engine Samples.round Samples.mean Samples.job_data
              Samples.resume_data 0.7%Q 0.6%Q) as [e | [results [s|]]] eqn:E;
    try (vm_compute in E; discriminate).
  exists results, s. split; [reflexivity|].
  pose proof (match_summary_counts_every_result Samples.engine Samples.round Samples.mean
                Samples.job_data Samples.resume_data 0.7%Q 0.6%Q results (Some s) E)
    as [_ (_ & _ & Hcount & _)].
  split; [|split; [|exact Hcount]].
  - vm_compute in E. injection E as <- _. reflexivity.
  - vm_compute in E. injection E as <- _. reflexivity.
Defined.

End ProcessAndMatch.

(** ** api/v1/endpoints/users.py: what a user may write to their own row *)

Section OwnRow.
Import Users.

Lemma In_update_first_other {A : Type} (is_row : A -> bool) (new_row : A) (table : list A)
  (row : A) :
  In row table -> is_row row = false -> In row (DB.update_first is_row new_row table).
Proof.
  induction table as [|r table IH]; simpl; [tauto|].
  intros [-> | Hin] Hrow.
  - rewrite Hrow. left. reflexivity.
  - destruct (is_row r); right; [exact Hin | exact (IH Hin Hrow)].
Qed.

Lemma role_update_does_not_clash (current_user : User.t) (role : string)
  (users : list User.t) :
  List.NoDup (List.map User.email users) -> List.NoDup (List.map User.username users) ->
  In current_user users ->
  existsb (clashes (row_with_role current_user role)) users = false.
Proof.
  intros Hmails Hnames Hin. apply not_true_is_false. intros H.
  apply existsb_exists in H. destruct H as (other & Hother & Hclash).
  unfold clashes, row_with_role in Hclash. cbn [User.id User.email User.username] in Hclash.
  apply andb_true_iff in Hclash. destruct Hclash as [Hid Hsame].
  apply negb_true_iff, String.eqb_neq in Hid.
  apply orb_true_iff in Hsame. destruct Hsame as [Hmail | Hname].
  - apply String.eqb_eq in Hmail. apply Hid. f_equal.
    exact (same_key_same_row User.email users other current_user Hmails Hother Hin Hmail).
  - apply String.eqb_eq in Hname. apply Hid. f_equal.
    exact (same_key_same_row User.username users other current_user Hnames Hother Hin Hname).
Qed.

(** Every user can give themselves any role: a request to
    [update_current_user] that sets [role] is carried out as it stands,
    for whoever sends it; the row keeps its key, its company and its
    state, no other row changes, and with the role [admin] an active
    user passes [get_current_admin_user] from then on. *)
Theorem any_user_can_take_any_role :
  forall (current_user : User.t) (db : DB.t) (role : string),
    List.NoDup (List.map User.email (DB.users db)) ->
    List.NoDup (List.map User.username (DB.users db)) ->
    In current_user (DB.users db) ->
    exists user : User.t,
      update_current_user (UserUpdate.mk None None None (Some (Some role)) None)
        current_user db
      = (HTTPOk user,
         DB.with_users db
           (DB.update_first (has_id (User.id current_user)) user (DB.users db))) /\
      User.role user = role /\
      User.id user = User.id current_user /\
      User.company_id user = User.company_id current_user /\
      User.is_active user = User.is_active current_user /\
      get_current_user_info current_user
        (snd (update_current_user (UserUpdate.mk None None None (Some (Some role)) None)
                current_user db)) = Some user /\
      (forall other : User.t,
          In other (DB.users db) -> User.id other <> User.id current_user ->
          In other
            (DB.users
               (snd (update_current_user
                       (UserUpdate.mk None None None (Some (Some role)) None)
                       current_user db)))) /\
      (role = "admin"%string -> User.is_active current_user = true ->
       CoreAuth.get_current_admin_user user = HTTPOk user).
Proof.
  intros current_user db role Hmails Hnames Hin.
  exists (row_with_role current_user role).
  assert (Hupdate : update_current_user (UserUpdate.mk None None None (Some (Some role)) None)
                      current_user db
                    = (HTTPOk (row_with_role current_user role),
                       DB.with_users db
                         (DB.update_first (has_id (User.id current_user))
                            (row_with_role current_user role) (DB.users db)))).
  { unfold update_current_user, apply_update. cbn [required UserUpdate.email
      UserUpdate.username UserUpdate.full_name UserUpdate.role UserUpdate.company_id
      Jobs.setattr].
    fold (row_with_role current_user role).
    rewrite (role_update_does_not_clash current_user role (DB.users db) Hmails Hnames Hin).
    reflexivity. }
  rewrite Hupdate. cbn [snd DB.with_users DB.users].
  split; [reflexivity|]. split; [reflexivity|]. split; [reflexivity|].
  split; [reflexivity|]. split; [reflexivity|]. split; [|split].
  - unfold get_current_user_info. cbn [DB.users].
    destruct (first_exists (has_id (User.id current_user)) (DB.users db) current_user Hin)
      as [row Hrow]; [apply String.eqb_refl|].
    apply (first_update_first _ _ _ _ Hrow). apply String.eqb_refl.
  - intros other Hother Hne. apply In_update_first_other; [exact Hother|].
    apply String.eqb_neq. exact Hne.
  - intros -> Hactive. unfold CoreAuth.get_current_admin_user, CoreAuth.get_current_active_user.
    cbn [row_with_role User.is_active User.role]. rewrite Hactive. reflexivity.
Qed.

Lemma samples_usernames_unique : List.NoDup (List.map User.username (DB.users Samples.db)).
Proof. vm_compute. repeat (constructor; [simpl; intuition discriminate|]). constructor. Qed.

(** The candidate makes himself an administrator. *)
Lemma any_user_can_take_any_role_witness :
  exists user : User.t,
    fst (update_current_user Samples.promote Samples.carl Samples.db) = HTTPOk user /\
    CoreAuth.get_current_admin_user Samples.carl
    = HTTPError HTTP_403_FORBIDDEN "Not enough permissions" /\
    CoreAuth.get_current_admin_user user = HTTPOk user.
Proof.
  destruct (any_user_can_take_any_role Samples.carl Samples.db "admin"
              samples_emails_unique samples_usernames_unique)
    as (user & Hupdate & _ & _ & _ & _ & _ & _ & Hadmin).
  - simpl. tauto.
  - exists user. split; [|split].
    + unfold Samples.promote. rewrite Hupdate. reflexivity.
    + reflexivity.
    + apply Hadmin; reflexivity.
Defined.

End OwnRow.

(** ** api/v1/endpoints/candidate_features.py: the status of a saved job *)

Section SavedJobStatus.
Import CandidateFeatures.

(** [save_job] accepts a job whatever its status and answers that it
    is ["active"]; [get_saved_jobs] then lists the saved job with the
    key, the job and the score of that answer, but as ["expired"]
    unless the status of the job is ["active"]: the two answers agree
    for active jobs only. *)
Theorem saved_job_is_listed_with_the_status_of_the_job :
  forall (new_id : UUID) (now : Z) (job_id : string) (current_user : User.t) (db : DB.t)
         (saved_jobs : list SavedJob.t) (response : SavedJobResponse.t),
    fst (save_job new_id now job_id current_user db saved_jobs) = HTTPOk response ->
    SavedJobResponse.status response = "active"%string /\
    exists (job : Job.t) (listed : SavedJobResponse.t),
      In job (DB.jobs db) /\ Job.id job = job_id /\
      In listed
        (get_saved_jobs current_user db
           (snd (save_job new_id now job_id current_user db saved_jobs))) /\
      SavedJobResponse.id listed = new_id /\
      SavedJobResponse.job_id listed = job_id /\
      SavedJobResponse.match_score listed = 85.0%Q /\
      SavedJobResponse.status listed
      = (if bool_decide (Job.status job = Some "active"%string)
         then "active" else "expired")%string /\
      (listed = response <-> Job.status job = Some "active"%string).
Proof.
  intros new_id now job_id current_user db saved_jobs response. unfold save_job.
  destruct (DB.first (Jobs.has_id job_id) (DB.jobs db)) as [job|] eqn:Hjob; [|discriminate].
  destruct (DB.first (saved_by (User.id current_user) job_id) saved_jobs); [discriminate|].
  cbn [fst snd]. intros H. injection H as <-. split; [reflexivity|].
  destruct (first_Some_In _ _ _ Hjob) as [Hin Hid]. apply String.eqb_eq in Hid.
  set (saved_job := SavedJob.mk new_id (User.id current_user) job_id (Some 85.0%Q) now).
  set (listed :=
         SavedJobResponse.mk new_id (Job.id job) (Job.title job) (company_name job db)
           (or_else (Job.location job) "Location not specified")
           (or_else (Job.experience_level job) "Full-time")
           (or_else (Job.salary_range job) "Salary not specified")
           now 85.0%Q
           (if bool_decide (Job.status job = Some "active"%string)
            then "active" else "expired")%string).
  exists job, listed. split; [exact Hin|]. split; [exact Hid|]. split.
  - unfold get_saved_jobs. apply in_flat_map. exists saved_job. split.
    + apply filter_In. split; [apply in_or_app; right; left; reflexivity|].
      apply String.eqb_refl.
    + cbn [SavedJob.job_id saved_job]. rewrite Hjob. left. reflexivity.
  - split; [reflexivity|]. split; [exact Hid|]. split; [reflexivity|].
    split; [reflexivity|]. subst listed. cbn [SavedJob.id SavedJob.saved_at saved_job].
    destruct (bool_decide_reflect (Job.status job = Some "active"%string)) as [Hs | Hs].
    + split; [intros _; exact Hs | reflexivity].
    + split; [discriminate | contradiction].
Qed.

(** The candidate saves the closed job: the answer says active, the
    list says expired. *)
Lemma saved_job_is_listed_with_the_status_of_the_job_witness :
  exists response : SavedJobResponse.t,
    fst (save_job "s-3" 300 "j-closed" Samples.carl Samples.db Samples.saved_jobs)
    = HTTPOk response /\
    SavedJobResponse.status response = "active"%string /\
    List.map SavedJobResponse.status
      (get_saved_jobs Samples.carl Samples.db
         (snd (save_job "s-3" 300 "j-closed" Samples.carl Samples.db Samples.saved_jobs)))
    = ["active"; "expired"]%string.
Proof.
  eexists. split; [reflexivity|]. split.
  - refine (proj1 (saved_job_is_listed_with_the_status_of_the_job "s-3" 300 "j-closed"
                     Samples.carl Samples.db Samples.saved_jobs _ eq_refl)).
  - vm_compute. reflexivity.
Defined.

End SavedJobStatus.
